(** * Symbolic container values of torch/_dynamo/variables/dicts.py

    A shallow embedding of the hashable key wrapper, of the host
    dictionary that stores wrapped keys, of the [call_method]
    dispatch of [ConstDictVariable], [DefaultDictVariable] and
    [SetVariable], of the views, of the method dispatch and attribute
    access of the record adapters and of the module table, followed by
    the properties of the container subsystem.

    Conventions.
    - Python exceptions are values of [exc]; a computation that can
      raise has type [res A].
    - Options of a variable tracker (guards, source) are not part of
      the model: [add_options] and [VariableTracker.propagate] are the
      identity on what is modelled here.  The module table is the
      exception: its methods return the guards they attach beside
      their result.
    - Code of other files that a method calls (the classes of other
      trackers, the builder, the interpreter, the host reflection on a
      user class) is a variable of the section that models the method.
    - Float literals are not modelled. *)

From stdpp Require Import base tactics option list numbers strings.

Set Warnings "-register-all".

Open Scope Z_scope.
Open Scope string_scope.
Open Scope nat_scope.
Open Scope list_scope.

(** ** Exceptions and the error monad *)

Inductive exc : Type :=
| KeyError
| IndexError
| AssertionError
| NameError (name : string)
| RuntimeError (msg : string)
| NotImplementedError
| Unsupported          (* raised by [unimplemented] of torch._dynamo.exc *)
| DanglingReference.   (* an address outside the heap; no run produces it *)

Inductive res (A : Type) : Type :=
| Ok (a : A)
| Raise (e : exc).
Arguments Ok {A} a.
Arguments Raise {A} e.

#[global] Instance res_ret : MRet res := fun A a => Ok a.
#[global] Instance res_bind : MBind res := fun A B f m =>
  match m with
  | Ok a => f a
  | Raise e => Raise e
  end.

Definition py_assert (b : bool) : res unit :=
  if b then Ok () else Raise AssertionError.

Section MapM.
Context {A B : Type} (f : A -> res B).

Fixpoint mapM (l : list A) : res (list B) :=
  match l with
  | [] => Ok []
  | x :: l' =>
      match f x with
      | Ok y => match mapM l' with
                | Ok ys => Ok (y :: ys)
                | Raise e => Raise e
                end
      | Raise e => Raise e
      end
  end.
End MapM.

(** ** Host values: what [underlying_value] projects a key to *)

Record FakeTensor : Type := mkFake
  { ft_id : nat;              (* object identity *)
    ft_shape : list Z;
    ft_dtype : string }.

Inductive Literal : Type :=
| LNone
| LBool (b : bool)
| LInt (z : Z)
| LStr (s : string).

Inductive PyVal : Type :=
| PyLit (c : Literal)
| PyTuple (l : list PyVal)
| PyFake (t : FakeTensor)
| PyBuiltin (fn : string)
| PyEnum (cls member : string)
| PyMethodWrapper (owner name : string).

Inductive PyType : Type :=
| TNoneType | TBool | TInt | TStr | TTuple | TFakeTensor
| TBuiltin | TEnum (cls : string) | TMethodWrapper.

#[global] Instance Literal_eq_dec : EqDecision Literal.
Proof. solve_decision. Defined.
#[global] Instance PyType_eq_dec : EqDecision PyType.
Proof. solve_decision. Defined.

(** [type(a)] *)
Definition type_of (a : PyVal) : PyType :=
  match a with
  | PyLit LNone => TNoneType
  | PyLit (LBool _) => TBool
  | PyLit (LInt _) => TInt
  | PyLit (LStr _) => TStr
  | PyTuple _ => TTuple
  | PyFake _ => TFakeTensor
  | PyBuiltin _ => TBuiltin
  | PyEnum cls _ => TEnum cls
  | PyMethodWrapper _ _ => TMethodWrapper
  end.

Definition is_tuple (a : PyVal) : bool :=
  match a with PyTuple _ => true | _ => false end.

Definition is_fake (a : PyVal) : bool :=
  match a with PyFake _ => true | _ => false end.

(** [a is b], used for fake tensors *)
Definition py_is (a b : PyVal) : bool :=
  match a, b with
  | PyFake s, PyFake t => Nat.eqb (ft_id s) (ft_id t)
  | _, _ => false
  end.

Definition lit_as_Z (c : Literal) : option Z :=
  match c with
  | LBool b => Some (if b then 1%Z else 0%Z)
  | LInt z => Some z
  | _ => None
  end.

(** [c == d] on literals: bool is a subclass of int, so [1 == True] *)
Definition lit_eq (c d : Literal) : bool :=
  match c, d with
  | LNone, LNone => true
  | LStr s, LStr t => String.eqb s t
  | _, _ =>
      match lit_as_Z c, lit_as_Z d with
      | Some x, Some y => Z.eqb x y
      | _, _ => false
      end
  end.

(** [a == b] of the host language; tensors never reach it
    ([_eq_impl] tests [is_fake] first), they are given identity. *)
Fixpoint py_eq (a b : PyVal) : bool :=
  match a, b with
  | PyLit c, PyLit d => lit_eq c d
  | PyTuple la, PyTuple lb =>
      (fix go (la lb : list PyVal) : bool :=
         match la, lb with
         | [], [] => true
         | x :: la', y :: lb' => py_eq x y && go la' lb'
         | _, _ => false
         end) la lb
  | PyFake s, PyFake t => Nat.eqb (ft_id s) (ft_id t)
  | PyBuiltin f, PyBuiltin g => String.eqb f g
  | PyEnum c m, PyEnum c' m' => String.eqb c c' && String.eqb m m'
  | PyMethodWrapper o n, PyMethodWrapper o' n' => String.eqb o o' && String.eqb n n'
  | _, _ => false
  end.

(** ** Variable trackers *)

Definition addr := nat.

Inductive UserCls : Type :=
| cls_dict
| cls_OrderedDict
| cls_defaultdict
| cls_user (name : string).

#[global] Instance UserCls_eq_dec : EqDecision UserCls.
Proof. solve_decision. Defined.

(** The dynamic class of a container object. *)
Inductive Klass : Type :=
| KConstDict | KDefaultDict | KSet | KDataClass | KCustomizedDict.

(** [default_factory]: a [BuiltinVariable] for list, tuple or dict, or
    a user function (see [is_supported_arg]). *)
Inductive Factory : Type :=
| factory_list | factory_tuple | factory_dict
| factory_user (fn : string).

(** A [ConstDictVariable] object (or an object of a subclass).  [items]
    is a reference to the host dictionary it owns; [mutable_local] is
    [true] when the attribute is set. *)
Record ConstDictVariable : Type := mkDict
  { items : addr;
    user_cls : UserCls;
    mutable_local : bool;
    klass : Klass;
    default_factory : option Factory }.

Inductive VariableTracker : Type :=
| ConstantVariable (value : Literal)
| SymNodeVariable (hint : Z)
| TensorVariable (example_value : option FakeTensor)
| TupleVariable (elts : list VariableTracker)
| ListVariable (elts : list VariableTracker)
| BuiltinVariable (fn : string)
| EnumVariable (cls member : string)
| MethodWrapperVariable (owner name : string)
| DictVariable (d : ConstDictVariable)
| DictKeys (dv_dict : ConstDictVariable)
| DictValues (dv_dict : ConstDictVariable).

Section VariableTracker_induction.
Variable P : VariableTracker -> Prop.
Hypothesis HConst : forall c, P (ConstantVariable c).
Hypothesis HSym : forall h, P (SymNodeVariable h).
Hypothesis HTensor : forall ev, P (TensorVariable ev).
Hypothesis HTuple : forall es, Forall P es -> P (TupleVariable es).
Hypothesis HList : forall es, Forall P es -> P (ListVariable es).
Hypothesis HBuiltin : forall f, P (BuiltinVariable f).
Hypothesis HEnum : forall c m, P (EnumVariable c m).
Hypothesis HMeth : forall o n, P (MethodWrapperVariable o n).
Hypothesis HDict : forall d, P (DictVariable d).
Hypothesis HKeys : forall d, P (DictKeys d).
Hypothesis HValues : forall d, P (DictValues d).

Fixpoint VariableTracker_nested_ind (x : VariableTracker) : P x :=
  let fix all (es : list VariableTracker) : Forall P es :=
    match es with
    | [] => Forall_nil_2 P
    | e :: es' => Forall_cons_2 P e es' (VariableTracker_nested_ind e) (all es')
    end in
  match x with
  | ConstantVariable c => HConst c
  | SymNodeVariable h => HSym h
  | TensorVariable ev => HTensor ev
  | TupleVariable es => HTuple es (all es)
  | ListVariable es => HList es (all es)
  | BuiltinVariable f => HBuiltin f
  | EnumVariable c m => HEnum c m
  | MethodWrapperVariable o n => HMeth o n
  | DictVariable d => HDict d
  | DictKeys d => HKeys d
  | DictValues d => HValues d
  end.
End VariableTracker_induction.

(** Modelled from the spec: [specialize_symnode] of utils.py, which is
    not under src/.  The wrapper's constructor notes "We specialize
    SymNodes", and section 3 lists constants, not symbolic integers,
    among the hashable-compatible kinds: a SymNode is replaced by the
    constant it evaluates to, any other tracker is returned as it
    is. *)
Definition specialize_symnode (x : VariableTracker) : VariableTracker :=
  match x with
  | SymNodeVariable h => ConstantVariable (LInt h)
  | _ => x
  end.

Fixpoint is_hashable (x : VariableTracker) : bool :=
  match x with
  | TensorVariable ev => bool_decide (ev <> None)
  | TupleVariable es => forallb is_hashable es
  | BuiltinVariable _ | SymNodeVariable _ | ConstantVariable _
  | EnumVariable _ _ | MethodWrapperVariable _ _ => true
  | _ => false
  end.

(** ** The hashable key wrapper, [ConstDictVariable._HashableTracker] *)

Record Hashable : Type := mkHashable { vt : VariableTracker }.

Definition Hashable_init (x : VariableTracker) : res Hashable :=
  let x := specialize_symnode x in
  _ ← py_assert (is_hashable x);
  Ok (mkHashable x).

(** Modelled from the spec: [as_python_constant] of the tracker
    classes (base.py, constant.py and others, not under src/).
    Section 3: the "lower to concrete constant" operation fails if the
    value is not statically known.  It is given on the kinds a key can
    have; the other kinds do not lower to a value of [PyVal]. *)
Fixpoint as_python_constant (x : VariableTracker) : res PyVal :=
  match x with
  | ConstantVariable c => Ok (PyLit c)
  | TupleVariable es =>
      match mapM as_python_constant es with
      | Ok xs => Ok (PyTuple xs)
      | Raise e => Raise e
      end
  | BuiltinVariable f => Ok (PyBuiltin f)
  | EnumVariable c m => Ok (PyEnum c m)
  | MethodWrapperVariable o n => Ok (PyMethodWrapper o n)
  | _ => Raise NotImplementedError
  end.

(** The projection of a tracker [x] held by a wrapper.  In the tuple
    case every element [e] goes through [Hashable(e)]: it is
    specialised and asserted hashable before it is projected
    ([underlying_value_tuple] below states this equation). *)
Fixpoint project (x : VariableTracker) : res PyVal :=
  match x with
  | TensorVariable ev =>
      match ev with
      | Some t => Ok (PyFake t)
      | None => Raise KeyError        (* meta["example_value"] *)
      end
  | TupleVariable es =>
      match mapM (fun e =>
                    if is_hashable (specialize_symnode e)
                    then match e with
                         | SymNodeVariable h => Ok (PyLit (LInt h))
                         | _ => project e
                         end
                    else Raise AssertionError) es with
      | Ok xs => Ok (PyTuple xs)
      | Raise e => Raise e
      end
  | _ => as_python_constant x
  end.

Definition underlying_value (k : Hashable) : res PyVal := project (vt k).

(** [_HashableTracker._eq_impl].  In the tuple case the generator
    [all(_eq_impl(u, v) for u, v in zip(a, b))] evaluates the bare name
    [_eq_impl], which is bound neither in the function nor in the
    module (the class body is not an enclosing scope): the first pair
    raises NameError.  With no pair, [all] returns True. *)
Definition _eq_impl (a b : PyVal) : res bool :=
  if negb (bool_decide (type_of a = type_of b)) then Ok false
  else match a, b with
       | PyTuple la, PyTuple lb =>
           if negb (Nat.eqb (length la) (length lb)) then Ok false
           else match zip la lb with
                | [] => Ok true
                | _ :: _ => Raise (NameError "_eq_impl")
                end
       | _, _ =>
           if is_fake a then Ok (py_is a b) else Ok (py_eq a b)
       end.

(** [_HashableTracker.__eq__]; both sides are wrappers here. *)
Definition Hashable_eq (self other : Hashable) : res bool :=
  a ← underlying_value self;
  b ← underlying_value other;
  _eq_impl a b.

(** The comparison the recursion of [_eq_impl] is written to compute,
    as the specification words it: same dynamic type, tuples
    element-wise, tensors by identity, the rest by [==]. *)
Fixpoint eq_spec (a b : PyVal) : bool :=
  bool_decide (type_of a = type_of b) &&
  match a, b with
  | PyTuple la, PyTuple lb =>
      (fix go (la lb : list PyVal) : bool :=
         match la, lb with
         | [], [] => true
         | x :: la', y :: lb' => eq_spec x y && go la' lb'
         | _, _ => false
         end) la lb
  | PyFake _, _ => py_is a b
  | _, _ => py_eq a b
  end.

(** ** Host dictionaries

    A dictionary is the list of its entries in insertion order.  The
    comparison [same_key stored probe] is what a lookup runs on a
    stored key and the probe; it can raise. *)

Section HostDict.
Context {K V : Type} (same_key : K -> K -> res bool).

(** [k in d] *)
Fixpoint dict_contains (k : K) (d : list (K * V)) : res bool :=
  match d with
  | [] => Ok false
  | (k', _) :: d' =>
      b ← same_key k' k;
      if b : bool then Ok true else dict_contains k d'
  end.

(** [d[k]] *)
Fixpoint dict_getitem (k : K) (d : list (K * V)) : res V :=
  match d with
  | [] => Raise KeyError
  | (k', v') :: d' =>
      b ← same_key k' k;
      if b : bool then Ok v' else dict_getitem k d'
  end.

(** [d[k] = v]: an equal stored key keeps its place and its key
    object, a new key goes to the end. *)
Fixpoint dict_setitem (k : K) (v : V) (d : list (K * V)) : res (list (K * V)) :=
  match d with
  | [] => Ok [(k, v)]
  | (k', v') :: d' =>
      b ← same_key k' k;
      if b : bool then Ok ((k', v) :: d')
      else d'' ← dict_setitem k v d'; Ok ((k', v') :: d'')
  end.

(** [d.pop(k)] *)
Fixpoint dict_pop (k : K) (d : list (K * V)) : res (V * list (K * V)) :=
  match d with
  | [] => Raise KeyError
  | (k', v') :: d' =>
      b ← same_key k' k;
      if b : bool then Ok (v', d')
      else '(v, d'') ← dict_pop k d'; Ok (v, (k', v') :: d'')
  end.

(** [d.update(other)], also the copy [OrderedDict(other)] and the
    comprehension [{k: v for k, v in other}] when [d] is empty. *)
Fixpoint dict_update (other d : list (K * V)) : res (list (K * V)) :=
  match other with
  | [] => Ok d
  | (k, v) :: other' =>
      d' ← dict_setitem k v d;
      dict_update other' d'
  end.
End HostDict.

(** The entries of [ConstDictVariable.items]. *)
Abbreviation DictObj := (list (Hashable * VariableTracker)).

(** ** The interpreter state seen by the containers *)

Record Tx : Type := mkTx
  { heap : list DictObj;                  (* host dictionaries, by address *)
    symbolic_locals : list VariableTracker;   (* live references *)
    replaced : list (ConstDictVariable * ConstDictVariable);
                                          (* calls of [replace_all], latest first *)
    factory_calls : nat }.                (* calls of a default factory *)

Definition set_heap (h : list DictObj) (tx : Tx) : Tx :=
  mkTx h (symbolic_locals tx) (replaced tx) (factory_calls tx).

Definition heap_alloc (d : DictObj) (tx : Tx) : addr * Tx :=
  (length (heap tx), set_heap (heap tx ++ [d]) tx).

Definition heap_read (a : addr) (tx : Tx) : res DictObj :=
  match heap tx !! a with
  | Some d => Ok d
  | None => Raise DanglingReference
  end.

Definition heap_write (a : addr) (d : DictObj) (tx : Tx) : Tx :=
  set_heap (<[a := d]> (heap tx)) tx.

(** Every container object owns the dictionary its constructor built,
    so two references denote the same object exactly when they hold
    the same [items] address. *)
Definition same_object (a b : ConstDictVariable) : bool :=
  Nat.eqb (items a) (items b).

Fixpoint retarget (old new : ConstDictVariable) (x : VariableTracker) : VariableTracker :=
  match x with
  | DictVariable d => if same_object d old then DictVariable new else x
  | DictKeys d => if same_object d old then DictKeys new else x
  | DictValues d => if same_object d old then DictValues new else x
  | TupleVariable es => TupleVariable (map (retarget old new) es)
  | ListVariable es => ListVariable (map (retarget old new) es)
  | _ => x
  end.

(** Modelled from the spec: [tx.replace_all] belongs to the interpreter
    (symbolic_convert.py, not under src/).  Section 6:
    "replaceAllReferences(oldValue, newValue) -> newValue"; section 3:
    it substitutes all live references to the old value with the new
    one. *)
Definition replace_all (old new : ConstDictVariable) (tx : Tx) : res (VariableTracker * Tx) :=
  Ok (DictVariable new,
      mkTx (heap tx) (map (retarget old new) (symbolic_locals tx))
           ((old, new) :: replaced tx) (factory_calls tx)).

(** Modelled from the spec: [VariableTracker.call_method] of base.py
    (not under src/), reached by [super().call_method] for a call the
    container does not handle.  Section 7: an operation with no defined
    symbolic semantics fails with UnsupportedOperationError; section 5:
    a container that is not mutable rejects setItem, pop and update. *)
Definition VariableTracker_call_method (name : string) (args : list VariableTracker)
    (tx : Tx) : res (VariableTracker * Tx) :=
  Raise Unsupported.

(** ** Container operations *)

Definition arg0 (args : list VariableTracker) : res VariableTracker :=
  match args with
  | a :: _ => Ok a
  | [] => Raise IndexError
  end.

Definition arg1 (args : list VariableTracker) : res VariableTracker :=
  match args with
  | _ :: a :: _ => Ok a
  | _ => Raise IndexError
  end.

Definition is_nil {A : Type} (l : list A) : bool :=
  match l with [] => true | _ => false end.

Definition name_in (name : string) (names : list string) : bool :=
  existsb (String.eqb name) names.

(** [SetVariable._default_value()] *)
Definition SetVariable_default_value : VariableTracker := ConstantVariable LNone.

Section Containers.
(** [hash] of the host language on projected values. *)
Variable hash : PyVal -> Z.
(** Which element [set.pop()] takes from a host set with the given
    elements (implementation-defined). *)
Variable set_choice : list Hashable -> nat.
(** The value a user-defined zero-argument factory produces. *)
Variable user_function : string -> res VariableTracker.

(** [_HashableTracker.__hash__] *)
Definition Hashable_hash (k : Hashable) : res Z :=
  a ← underlying_value k;
  Ok (hash a).

(** What a lookup runs on a stored key and the probe: [__eq__] is
    called only on a stored key with the hash of the probe.  A probe
    is a wrapper just built by [Hashable(...)], or a key taken from
    another dictionary; the shortcut of the host lookup for a probe
    that is the stored object itself is not modelled. *)
Definition key_matches (stored probe : Hashable) : res bool :=
  hp ← Hashable_hash probe;
  hs ← Hashable_hash stored;
  if Z.eqb hs hp then Hashable_eq stored probe else Ok false.

Definition make_hashable (key : Hashable + VariableTracker) : res Hashable :=
  match key with
  | inl k => Ok k
  | inr x => Hashable_init x
  end.

(** [{make_hashable(x): v for x, v in items.items()}] *)
Fixpoint comprehension (its : list ((Hashable + VariableTracker) * VariableTracker))
    (acc : DictObj) : res DictObj :=
  match its with
  | [] => Ok acc
  | (x, v) :: its' =>
      k ← make_hashable x;
      acc' ← dict_setitem key_matches k v acc;
      comprehension its' acc'
  end.

(** [ConstDictVariable.__init__] *)
Definition ConstDictVariable_init
    (its : list ((Hashable + VariableTracker) * VariableTracker))
    (ucls : UserCls) (ml : bool) (kl : Klass) (df : option Factory)
    (tx : Tx) : res (ConstDictVariable * Tx) :=
  d ← comprehension its [];
  let '(a, tx') := heap_alloc d tx in
  Ok (mkDict a ucls ml kl df, tx').

(** [collections.OrderedDict(self.items)]: a new dictionary object *)
Definition OrderedDict_copy (a : addr) (tx : Tx) : res (addr * Tx) :=
  d ← heap_read a tx;
  d' ← dict_update key_matches d [];
  Ok (heap_alloc d' tx).

(** [self.clone(items=newval)]: the constructor of the class of
    [self] runs on the new items.  [SetVariable.__init__] first takes
    [dict.fromkeys(items, _default_value())];
    [DefaultDictVariable.__init__] asserts the host class after the
    constructor of the base class; the assertions of [is_matching_cls]
    in the record adapters inspect the host class and are not
    modelled. *)
Definition clone (self : ConstDictVariable) (newval : addr) (tx : Tx)
    : res (ConstDictVariable * Tx) :=
  d ← heap_read newval tx;
  its ← match klass self with
        | KSet => dict_update key_matches
                    (map (fun kv => (kv.1, SetVariable_default_value)) d) []
        | _ => Ok d
        end;
  '(new, tx') ← ConstDictVariable_init (map (fun kv => (inl kv.1, kv.2)) its)
                  (user_cls self) (mutable_local self) (klass self)
                  (default_factory self) tx;
  _ ← match klass self with
      | KDefaultDict => py_assert (bool_decide (user_cls self = cls_defaultdict))
      | _ => Ok ()
      end;
  Ok (new, tx').

(** [modifed]: a copy of self with different items *)
Definition modifed (self : ConstDictVariable) (newval : addr) (tx : Tx)
    : res (ConstDictVariable * Tx) :=
  clone self newval tx.

Definition unpack_var_sequence (self : ConstDictVariable) (tx : Tx)
    : res (list VariableTracker) :=
  d ← heap_read (items self) tx;
  Ok (map (fun kv => vt kv.1) d).

(** [Hashable(x) in self.items] *)
Definition key_in_items (self : ConstDictVariable) (x : VariableTracker) (tx : Tx)
    : res bool :=
  k ← Hashable_init x;
  d ← heap_read (items self) tx;
  dict_contains key_matches k d.

Definition ConstDictVariable_getitem_const (self : ConstDictVariable)
    (arg : VariableTracker) (tx : Tx) : res VariableTracker :=
  key ← Hashable_init arg;
  d ← heap_read (items self) tx;
  dict_getitem key_matches key d.

Definition SetVariable_getitem_const (self : ConstDictVariable)
    (arg : VariableTracker) (tx : Tx) : res VariableTracker :=
  Raise (RuntimeError "Illegal to getitem on a set").

(** [self.getitem_const(arg)], by the class of [self] *)
Definition getitem_const (self : ConstDictVariable) (arg : VariableTracker) (tx : Tx)
    : res VariableTracker :=
  match klass self with
  | KSet => SetVariable_getitem_const self arg tx
  | _ => ConstDictVariable_getitem_const self arg tx
  end.

(** [ConstDictVariable.call_method] *)
Definition ConstDictVariable_call_method (self : ConstDictVariable) (name : string)
    (args : list VariableTracker) (kwargs : list (string * VariableTracker))
    (tx : Tx) : res (VariableTracker * Tx) :=
  let arg_hashable := match args with [] => false | a :: _ => is_hashable a end in
  if String.eqb name "__getitem__" then
    a ← arg0 args;
    r ← getitem_const self a tx;
    Ok (r, tx)
  else if String.eqb name "items" then
    _ ← py_assert (is_nil args && is_nil kwargs);
    d ← heap_read (items self) tx;
    Ok (TupleVariable (map (fun kv => TupleVariable [vt kv.1; kv.2]) d), tx)
  else if String.eqb name "keys" then
    _ ← py_assert (is_nil args && is_nil kwargs);
    Ok (DictKeys self, tx)
  else if String.eqb name "values" then
    _ ← py_assert (is_nil args && is_nil kwargs);
    Ok (DictValues self, tx)
  else if String.eqb name "__len__" then
    _ ← py_assert (is_nil args && is_nil kwargs);
    d ← heap_read (items self) tx;
    Ok (ConstantVariable (LInt (Z.of_nat (length d))), tx)
  else if String.eqb name "__setitem__" && arg_hashable && mutable_local self then
    _ ← py_assert (is_nil kwargs && Nat.eqb (length args) 2);
    a ← arg0 args;
    k ← Hashable_init a;
    '(newval, tx1) ← OrderedDict_copy (items self) tx;
    v ← arg1 args;
    d ← heap_read newval tx1;
    d' ← dict_setitem key_matches k v d;
    let tx2 := heap_write newval d' tx1 in
    '(new, tx3) ← modifed self newval tx2;
    replace_all self new tx3
  else
    missing ← (if name_in name ["pop"; "get"] && arg_hashable then
                 a ← arg0 args;
                 b ← key_in_items self a tx;
                 Ok (negb b && Nat.eqb (length args) 2)
               else Ok false);
    if missing : bool then
      (* missing item, return the default value *)
      v ← arg1 args;
      Ok (v, tx)
    else if String.eqb name "pop" && arg_hashable && mutable_local self then
      '(newval, tx1) ← OrderedDict_copy (items self) tx;
      a ← arg0 args;
      k ← Hashable_init a;
      d ← heap_read newval tx1;
      '(result, d') ← dict_pop key_matches k d;
      let tx2 := heap_write newval d' tx1 in
      '(new, tx3) ← modifed self newval tx2;
      '(_, tx4) ← replace_all self new tx3;
      Ok (result, tx4)
    else
      match (if String.eqb name "update" && mutable_local self
             then match args with
                  | DictVariable other :: _ => Some other
                  | _ => None
                  end
             else None) with
      | Some other =>
          '(newval, tx1) ← OrderedDict_copy (items self) tx;
          (* newval.update(args[0].items) *)
          src ← heap_read (items other) tx1;
          d ← heap_read newval tx1;
          d' ← dict_update key_matches src d;
          let tx2 := heap_write newval d' tx1 in
          '(result, tx3) ← modifed self newval tx2;
          replace_all self result tx3
      | None =>
          present ← (if name_in name ["get"; "__getattr__"] && arg_hashable then
                       a ← arg0 args;
                       key_in_items self a tx
                     else Ok false);
          if present : bool then
            a ← arg0 args;
            k ← Hashable_init a;
            d ← heap_read (items self) tx;
            result ← dict_getitem key_matches k d;
            Ok (result, tx)
          else if String.eqb name "__contains__" && negb (is_nil args) then
            b ← (if arg_hashable then
                   a ← arg0 args;
                   key_in_items self a tx
                 else Ok false);
            Ok (ConstantVariable (LBool b), tx)
          else VariableTracker_call_method name args tx
      end.

(** Modelled from the spec: [default_factory.call_function(tx, [], {})]
    is code of builtin.py and functions.py (not under src/).  Section 3:
    the factory is one of the intents empty-list, empty-tuple,
    empty-map, or a user-defined zero-argument routine; section 4.3:
    its result is materialized as a fresh symbolic value.  Each call
    is counted in [factory_calls]. *)
Definition call_function (f : Factory) (tx : Tx) : res (VariableTracker * Tx) :=
  let tx := mkTx (heap tx) (symbolic_locals tx) (replaced tx) (S (factory_calls tx)) in
  match f with
  | factory_list => Ok (ListVariable [], tx)
  | factory_tuple => Ok (TupleVariable [], tx)
  | factory_dict =>
      '(d, tx') ← ConstDictVariable_init [] cls_dict true KConstDict None tx;
      Ok (DictVariable d, tx')
  | factory_user fn =>
      v ← user_function fn;
      Ok (v, tx)
  end.

(** [DefaultDictVariable.call_method] *)
Definition DefaultDictVariable_call_method (self : ConstDictVariable) (name : string)
    (args : list VariableTracker) (kwargs : list (string * VariableTracker))
    (tx : Tx) : res (VariableTracker * Tx) :=
  if String.eqb name "__getitem__" then
    a ← arg0 args;
    k ← Hashable_init a;
    d ← heap_read (items self) tx;
    present ← dict_contains key_matches k d;
    if present : bool then
      r ← getitem_const self a tx;
      Ok (r, tx)
    else
      match default_factory self with
      | None => Raise KeyError
      | Some f =>
          '(new_val, tx1) ← OrderedDict_copy (items self) tx;
          '(default_var, tx2) ← call_function f tx1;
          d1 ← heap_read new_val tx2;
          d2 ← dict_setitem key_matches k default_var d1;
          let tx3 := heap_write new_val d2 tx2 in
          '(new, tx4) ← modifed self new_val tx3;
          '(_, tx5) ← replace_all self new tx4;
          Ok (default_var, tx5)
      end
  else ConstDictVariable_call_method self name args kwargs tx.

(** [SetVariable.set_items]: [set(self.items.keys())], the elements of
    a new host set *)
Definition set_items (self : ConstDictVariable) (tx : Tx) : res (list Hashable) :=
  d ← heap_read (items self) tx;
  s ← dict_update key_matches (map (fun kv => (kv.1, ())) d) [];
  Ok (map fst s).

(** [s.pop()] on a host set with elements [s] *)
Definition set_pop (s : list Hashable) : res Hashable :=
  match s !! (set_choice s `mod` length s) with
  | Some k => Ok k
  | None => Raise KeyError
  end.

(** [SetVariable.call_method] *)
Definition SetVariable_call_method (self : ConstDictVariable) (name : string)
    (args : list VariableTracker) (kwargs : list (string * VariableTracker))
    (tx : Tx) : res (VariableTracker * Tx) :=
  if String.eqb name "add" then
    _ ← py_assert (is_nil kwargs);
    _ ← py_assert (Nat.eqb (length args) 1);
    a ← arg0 args;
    ConstDictVariable_call_method self "__setitem__"
      [a; SetVariable_default_value] kwargs tx
  else if String.eqb name "pop" then
    _ ← py_assert (is_nil kwargs);
    _ ← py_assert (is_nil args);
    (* Choose an item at random and pop it via the Dict.pop method *)
    s ← set_items self tx;
    k ← set_pop s;
    let result := vt k in
    '(_, tx') ← ConstDictVariable_call_method self name [result] kwargs tx;
    Ok (result, tx')
  else ConstDictVariable_call_method self name args kwargs tx.

(** A host object handed to [__contains__]: a scalar literal, a
    variable tracker, or any other object. *)
Inductive PyObject : Type :=
| obj_literal (c : Literal)
| obj_tracker (x : VariableTracker)
| obj_other (descr : string).

(** [ConstDictVariable.__contains__].  The last branch evaluates
    [is_hashable_python_var(x)] with [x] unbound. *)
Definition ConstDictVariable_contains (self : ConstDictVariable) (obj : PyObject)
    (tx : Tx) : res bool :=
  let obj := match obj with
             | obj_literal c => obj_tracker (ConstantVariable c)
             | _ => obj
             end in
  match obj with
  | obj_tracker x =>
      key ← Hashable_init x;
      d ← heap_read (items self) tx;
      dict_contains key_matches key d
  | _ => Raise (NameError "x")
  end.

(** ** Reconstruction *)

(** Modelled from the spec: the instruction-stream emitter (codegen.py
    and bytecode_transformation.py are not under src/).  Section 6
    fixes its vocabulary: emitLoadConstant, emitLoadValue(v),
    emitBuildMap(n), emitCallFunction(argc), emitCallKeyword(names),
    emitLoadAttr(name). *)
Inductive Instruction : Type :=
| LOAD_CONST (c : UserCls)
| LOAD_VALUE (x : VariableTracker)
| LOAD_PYTHON_MODULE (module : string)
| LOAD_ATTR (name : string)
| BUILD_MAP (n : nat)
| CALL_FUNCTION (nargs : nat) (push_null : bool)
| CALL_FUNCTION_KW (nargs : nat) (kw_names : list PyVal) (push_null : bool).

(** The output of the code generator. *)
Definition Codegen : Type := list Instruction.

(** [keys_as_python_constant]: a host dictionary keyed by constants.
    For constants [a == b] implies equal hashes, so [==] alone decides
    a lookup. *)
Fixpoint constant_keys (d : DictObj) (acc : list (PyVal * VariableTracker))
    : res (list (PyVal * VariableTracker)) :=
  match d with
  | [] => Ok acc
  | (k, v) :: d' =>
      c ← as_python_constant (vt k);
      acc' ← dict_setitem (fun a b => Ok (py_eq a b)) c v acc;
      constant_keys d' acc'
  end.

Definition keys_as_python_constant (self : ConstDictVariable) (tx : Tx)
    : res (list (PyVal * VariableTracker)) :=
  d ← heap_read (items self) tx;
  constant_keys d [].

(** [ConstDictVariable.reconstruct]: the returned instructions and the
    extended output *)
Definition ConstDictVariable_reconstruct (self : ConstDictVariable) (codegen : Codegen)
    (tx : Tx) : res (list Instruction * Codegen) :=
  let ordered := bool_decide (user_cls self = cls_OrderedDict) in
  let codegen := if ordered
                 then codegen ++ [LOAD_PYTHON_MODULE "collections"; LOAD_ATTR "OrderedDict"]
                 else codegen in
  d ← heap_read (items self) tx;
  let codegen := codegen ++ flat_map (fun kv => [LOAD_VALUE (vt kv.1); LOAD_VALUE kv.2]) d in
  if ordered
  then Ok ([BUILD_MAP (length d); CALL_FUNCTION 1 false], codegen)
  else Ok ([BUILD_MAP (length d)], codegen).

(** [DataClassVariable.reconstruct] *)
Definition DataClassVariable_reconstruct (self : ConstDictVariable) (codegen : Codegen)
    (tx : Tx) : res (list Instruction * Codegen) :=
  let codegen := codegen ++ [LOAD_CONST (user_cls self)] in
  (* All the keys are just wrapped strings *)
  d ← keys_as_python_constant self tx;
  let codegen := codegen ++ map (fun kv => LOAD_VALUE kv.2) d in
  let keys := map fst d in
  Ok ([CALL_FUNCTION_KW (length keys) keys true], codegen).

(** [CustomizedDictVariable.reconstruct] *)
Definition CustomizedDictVariable_reconstruct (self : ConstDictVariable) (codegen : Codegen)
    (tx : Tx) : res (list Instruction * Codegen) :=
  let codegen := codegen ++ [LOAD_CONST (user_cls self)] in
  (* All the keys are just wrapped strings *)
  d ← keys_as_python_constant self tx;
  let codegen := codegen ++ map (fun kv => LOAD_VALUE kv.2) d in
  let keys := map fst d in
  Ok ([CALL_FUNCTION_KW (length keys) keys true], codegen).

(** [reconstruct], by the class of [self] ([SetVariable.reconstruct]
    is not modelled and stands with the base class here). *)
Definition reconstruct (self : ConstDictVariable) (codegen : Codegen) (tx : Tx)
    : res (list Instruction * Codegen) :=
  match klass self with
  | KDataClass => DataClassVariable_reconstruct self codegen tx
  | KCustomizedDict => CustomizedDictVariable_reconstruct self codegen tx
  | _ => ConstDictVariable_reconstruct self codegen tx
  end.

(** ** Reference definitions, in the words of the specification *)

(** Equality of two keys as section 3 defines it: the dynamic kinds of
    the projections match and the projections compare equal. *)
Definition Spec_key_equal (x y : VariableTracker) : bool :=
  match project x, project y with
  | Ok a, Ok b => eq_spec a b
  | _, _ => false
  end.


(** [pop] on the sequence of keys: the key is excluded. *)
Definition Spec_pop (key : VariableTracker) (keys : list VariableTracker)
    : list VariableTracker :=
  let key := specialize_symnode key in
  filter (fun s => negb (Spec_key_equal s key)) keys.






(** Invariants of a stored dictionary: every key came out of the
    wrapper's constructor, and no two stored keys match. *)
Definition wrapped (k : Hashable) : Prop :=
  is_hashable (vt k) = true /\ specialize_symnode (vt k) = vt k.

Fixpoint distinct_keys {V : Type} (d : list (Hashable * V)) : Prop :=
  match d with
  | [] => True
  | (k, _) :: d' =>
      Forall (fun kv => key_matches k kv.1 = Ok false) d' /\ distinct_keys d'
  end.

Definition wf_dict (d : DictObj) : Prop :=
  Forall (fun kv => wrapped kv.1) d /\ distinct_keys d.

(** The keys of a dictionary, in iteration order. *)
Definition keys_of (d : DictObj) : list VariableTracker := map (fun kv => vt kv.1) d.

(** The entries of a record adapter: the field names, as wrapped
    string constants, bound to the field values. *)
Definition field_items (fields : list (string * VariableTracker)) : DictObj :=
  map (fun f => (mkHashable (ConstantVariable (LStr f.1)), f.2)) fields.


(** A positional build, or the call that converts its result. *)
Definition positional_build (i : Instruction) : bool :=
  match i with
  | BUILD_MAP _ | CALL_FUNCTION _ _ => true
  | _ => false
  end.

(** Every key stored in a dictionary of the heap is a key the wrapper
    accepted. *)
Definition keys_hashable (tx : Tx) : Prop :=
  Forall (fun d : DictObj => Forall (fun kv => wrapped kv.1) d) (heap tx).

(** Every dictionary of the heap satisfies the invariants. *)
Definition heap_ok (tx : Tx) : Prop := Forall wf_dict (heap tx).

(** What [clone] stores for the items [d]: a set stores the sentinel
    under every key. *)
Definition stored_items (self : ConstDictVariable) (d : DictObj) : DictObj :=
  match klass self with
  | KSet => map (fun kv => (kv.1, SetVariable_default_value)) d
  | _ => d
  end.

(** The change a mutating method makes to the entries [d0].  [update]
    reads its argument after the working copy of [d0] is allocated. *)
Definition applied_change (tx : Tx) (name : string) (args : list VariableTracker)
    (d0 d1 : DictObj) : Prop :=
  (name = "__setitem__" /\
   exists a v k, args = [a; v] /\ Hashable_init a = Ok k /\
                 dict_setitem key_matches k v d0 = Ok d1) \/
  (name = "pop" /\
   exists a rest k v, args = a :: rest /\ Hashable_init a = Ok k /\
                      dict_pop key_matches k d0 = Ok (v, d1)) \/
  (name = "update" /\
   exists other rest src, args = DictVariable other :: rest /\
                          (heap tx ++ [d0]) !! items other = Some src /\
                          dict_update key_matches src d0 = Ok d1).

(** The constructor of [DefaultDictVariable] asserts its host class. *)
Definition class_ok (self : ConstDictVariable) : Prop :=
  klass self = KDefaultDict -> user_cls self = cls_defaultdict.

(** The object a mutating method hands to [replace_all], and the state
    after it: [d1] is the working copy with the change, [dnew] the
    entries of the new object. *)
Definition committed (self : ConstDictVariable) (d1 dnew : DictObj) (tx : Tx)
    : ConstDictVariable * Tx :=
  let new := mkDict (S (length (heap tx))) (user_cls self) (mutable_local self)
                    (klass self) (default_factory self) in
  (new, mkTx (heap tx ++ [d1; dnew])
             (map (retarget self new) (symbolic_locals tx))
             ((self, new) :: replaced tx) (factory_calls tx)).

(** The identity-erased form of a projected value: two projections are
    equal keys exactly when these forms coincide. *)
Fixpoint canon (a : PyVal) : PyVal :=
  match a with
  | PyTuple l => PyTuple (map canon l)
  | PyFake t => PyFake (mkFake (ft_id t) [] String.EmptyString)
  | _ => a
  end.

(** A hash function for the examples: equal keys get equal hashes. *)
Fixpoint sample_hash (a : PyVal) : Z :=
  match a with
  | PyLit LNone => 17%Z
  | PyLit (LBool b) => if b then 1%Z else 0%Z
  | PyLit (LInt z) => z
  | PyLit (LStr s) => Z.of_nat (String.length s)
  | PyTuple l => fold_right (fun x acc => (31 * acc + sample_hash x)%Z) 7%Z l
  | PyFake t => Z.of_nat (ft_id t)
  | PyBuiltin f => Z.of_nat (String.length f)
  | PyEnum c m => Z.of_nat (String.length m)
  | PyMethodWrapper o n => Z.of_nat (String.length n)
  end.

Definition sample_choice (s : list Hashable) : nat := 0.

Definition sample_user_function (fn : string) : res VariableTracker :=
  Ok (ListVariable []).

Definition sample_dict (a : addr) (mutable : bool) : ConstDictVariable :=
  mkDict a cls_dict mutable KConstDict None.

Definition key_1 : VariableTracker := ConstantVariable (LInt 1).
Definition key_a : VariableTracker := ConstantVariable (LStr "a").
Definition key_b : VariableTracker := ConstantVariable (LStr "b").
Definition tuple_key : VariableTracker := TupleVariable [ConstantVariable (LInt 1)].

(** The dictionary [{"a": 1}] at address 0, denoted by the live
    reference 0. *)
Definition sample_tx (mutable : bool) : Tx :=
  mkTx [[(mkHashable key_a, key_1)]] [DictVariable (sample_dict 0 mutable)] [] 0.

(** An empty dictionary at address 0. *)
Definition empty_tx : Tx := mkTx [[]] [] [] 0.

(** The dictionary [{(1,): "a"}] at address 0. *)
Definition tuple_tx : Tx := mkTx [[(mkHashable tuple_key, key_a)]] [] [] 0.


(** The set [{1}] at address 0. *)
Definition sample_set (mutable : bool) : ConstDictVariable :=
  mkDict 0 cls_dict mutable KSet None.

Definition set_tx : Tx :=
  mkTx [[(mkHashable key_1, SetVariable_default_value)]] [] [] 0.

(** An empty [defaultdict(list)] at address 0, denoted by the live
    reference 0. *)
Definition sample_defaultdict : ConstDictVariable :=
  mkDict 0 cls_defaultdict true KDefaultDict (Some factory_list).

Definition defaultdict_tx : Tx :=
  mkTx [[]] [DictVariable sample_defaultdict] [] 0.

(** A record with the fields [loss] and [logits]. *)
Definition sample_fields : list (string * VariableTracker) :=
  [("loss", key_1); ("logits", TensorVariable (Some (mkFake 7 [2%Z; 3%Z] "float32")))].

Definition sample_record : ConstDictVariable :=
  mkDict 0 (cls_user "ModelOutput") false KDataClass None.

Section PyVal_induction.
Variable P : PyVal -> Prop.
Hypothesis HLit : forall c, P (PyLit c).
Hypothesis HTuple : forall l, Forall P l -> P (PyTuple l).
Hypothesis HFake : forall t, P (PyFake t).
Hypothesis HBuiltin : forall f, P (PyBuiltin f).
Hypothesis HEnum : forall c m, P (PyEnum c m).
Hypothesis HMeth : forall o n, P (PyMethodWrapper o n).

Fixpoint PyVal_nested_ind (a : PyVal) : P a :=
  let fix all (l : list PyVal) : Forall P l :=
    match l with
    | [] => Forall_nil_2 P
    | x :: l' => Forall_cons_2 P x l' (PyVal_nested_ind x) (all l')
    end in
  match a with
  | PyLit c => HLit c
  | PyTuple l => HTuple l (all l)
  | PyFake t => HFake t
  | PyBuiltin f => HBuiltin f
  | PyEnum c m => HEnum c m
  | PyMethodWrapper o n => HMeth o n
  end.
End PyVal_induction.

(** No stored key of [d] matches the probe [k]. *)
Definition absent {K V : Type} (same_key : K -> K -> res bool) (k : K)
    (d : list (K * V)) : Prop :=
  Forall (fun kv => same_key kv.1 k = Ok false) d.

(** A probe on which every comparison with a stored key completes and
    gives the equality of the projections. *)
Definition calm (p : Hashable) : Prop :=
  forall s, wrapped s -> key_matches s p = Ok (Spec_key_equal (vt s) (vt p)).

(** The entries of a set bind the sentinel. *)
Definition sentinel_values (d : DictObj) : Prop :=
  Forall (fun kv => kv.2 = SetVariable_default_value) d.

(** The trackers that a sequence of instructions loads, in order. *)
Definition loaded_values (out : list Instruction) : list VariableTracker :=
  flat_map (fun i => match i with LOAD_VALUE x => [x] | _ => [] end) out.

(** ** Record adapters: method dispatch and attribute access *)

Section Adapters.

(** [val.python_type() == str] for a tracker of a class defined outside
    this file (constant.py, lists.py, tensor.py and others). *)
Variable tracker_is_str : VariableTracker -> res bool.
(** [TupleVariable(items).call_method(tx, name, args, kwargs)], code of
    lists.py. *)
Variable TupleVariable_call_method :
  list VariableTracker -> string -> list VariableTracker ->
  list (string * VariableTracker) -> Tx -> res (VariableTracker * Tx).
(** [[(f.name, f.default) for f in dataclasses.fields(cls)]] of the host
    library; [None] stands for a default that is not a literal (the
    marker of a field without default, an object).  A literal of a
    kind outside [Literal] does not occur here. *)
Variable dataclass_defaults : UserCls -> res (list (string * option Literal)).
(** [VariableTracker.var_getattr] of base.py, reached by
    [super().var_getattr]. *)
Variable VariableTracker_var_getattr :
  ConstDictVariable -> string -> Tx -> res (VariableTracker * Tx).

(** What [getattr(self.user_cls, name)] finds on a host class: a slot
    of a built-in type, which carries [__objclass__], or any other
    attribute. *)
Inductive ClassAttr : Type :=
| attr_slot (objclass : UserCls)
| attr_function (fn : string).

Variable getattr_user_cls : UserCls -> string -> res ClassAttr.
(** [tx.inline_user_function_return] of the interpreter. *)
Variable inline_user_function_return :
  ClassAttr -> list VariableTracker -> list (string * VariableTracker) -> Tx ->
  res (VariableTracker * Tx).

(** [val.python_type() == str].  The classes of this file answer
    [user_cls], [set], [dict_keys] and [dict_values], none of them
    [str]. *)
Definition python_type_is_str (val : VariableTracker) : res bool :=
  match val with
  | DictVariable _ | DictKeys _ | DictValues _ => Ok false
  | _ => tracker_is_str val
  end.

(** The branch [to_tuple] of [DataClassVariable.call_method]: the
    elements of the tuple it returns, [list(self.items.values())] *)
Definition DataClassVariable_to_tuple (self : ConstDictVariable)
    (args : list VariableTracker) (kwargs : list (string * VariableTracker))
    (tx : Tx) : res (list VariableTracker) :=
  _ ← py_assert (is_nil args && is_nil kwargs);
  d ← heap_read (items self) tx;
  Ok (map snd d).

(** [DataClassVariable.call_method] *)
Definition DataClassVariable_call_method (self : ConstDictVariable) (name : string)
    (args : list VariableTracker) (kwargs : list (string * VariableTracker))
    (tx : Tx) : res (VariableTracker * Tx) :=
  if String.eqb name "__getitem__" then
    _ ← py_assert (is_nil kwargs && Nat.eqb (length args) 1);
    val ← arg0 args;
    is_str ← python_type_is_str val;
    if is_str : bool then
      r ← getitem_const self val tx;
      Ok (r, tx)
    else
      elts ← DataClassVariable_to_tuple self [] [] tx;
      TupleVariable_call_method elts "__getitem__" args kwargs tx
  else if String.eqb name "to_tuple" then
    elts ← DataClassVariable_to_tuple self args kwargs tx;
    Ok (TupleVariable elts, tx)
  else
    let name := if String.eqb name "__setattr__" then "__setitem__" else name in
    ConstDictVariable_call_method self name args kwargs tx.

(** Equality of host strings, as a key comparison. *)
Definition same_name (a b : string) : res bool := Ok (String.eqb a b).

(** [DataClassVariable.var_getattr]; [include_none] is [False].  The
    last statement calls the method of the base class and drops its
    result: the answer [None] of the host language is [Ok None]. *)
Definition DataClassVariable_var_getattr (self : ConstDictVariable) (name : string)
    (tx : Tx) : res (option VariableTracker * Tx) :=
  present ← ConstDictVariable_contains self (obj_literal (LStr name)) tx;
  if present : bool then
    '(r, tx') ← DataClassVariable_call_method self "__getitem__"
                  [ConstantVariable (LStr name)] [] tx;
    Ok (Some r, tx')
  else
    fields ← dataclass_defaults (user_cls self);
    defaults ← dict_update same_name fields [];
    known ← dict_contains same_name name defaults;
    if known : bool then
      default ← dict_getitem same_name name defaults;
      match default with
      | Some c => Ok (Some (ConstantVariable c), tx)
      | None => Raise AssertionError
      end
    else
      '(_, tx') ← VariableTracker_var_getattr self name tx;
      Ok (None, tx').

(** [CustomizedDictVariable.call_method] *)
Definition CustomizedDictVariable_call_method (self : ConstDictVariable) (name : string)
    (args : list VariableTracker) (kwargs : list (string * VariableTracker))
    (tx : Tx) : res (VariableTracker * Tx) :=
  fn ← getattr_user_cls (user_cls self) name;
  if match fn with
     | attr_slot objclass =>
         bool_decide (objclass = cls_dict) || bool_decide (objclass = cls_OrderedDict)
     | attr_function _ => false
     end
  then ConstDictVariable_call_method self name args kwargs tx
  else if name_in name ["__getitem__"; "to_tuple"; "__setitem__"; "__setattr__"] then
    inline_user_function_return fn (DictVariable self :: args) kwargs tx
  else Raise Unsupported.

(** [CustomizedDictVariable.var_getattr] *)
Definition CustomizedDictVariable_var_getattr (self : ConstDictVariable) (name : string)
    (tx : Tx) : res (option VariableTracker * Tx) :=
  present ← ConstDictVariable_contains self (obj_literal (LStr name)) tx;
  if present : bool then
    '(r, tx') ← CustomizedDictVariable_call_method self "__getitem__"
                  [ConstantVariable (LStr name)] [] tx;
    Ok (Some r, tx')
  else
    '(_, tx') ← VariableTracker_var_getattr self name tx;
    Ok (None, tx').

(** [self.call_method(...)], by the class of [self] *)
Definition call_method (self : ConstDictVariable) (name : string)
    (args : list VariableTracker) (kwargs : list (string * VariableTracker))
    (tx : Tx) : res (VariableTracker * Tx) :=
  match klass self with
  | KConstDict => ConstDictVariable_call_method self name args kwargs tx
  | KDefaultDict => DefaultDictVariable_call_method self name args kwargs tx
  | KSet => SetVariable_call_method self name args kwargs tx
  | KDataClass => DataClassVariable_call_method self name args kwargs tx
  | KCustomizedDict => CustomizedDictVariable_call_method self name args kwargs tx
  end.

(** ** View values: [DictView], [DictKeys], [DictValues] *)

(** The class attribute [kv] of a view class. *)
Inductive ViewKind : Type := kv_keys | kv_values.

(** [DictView.__init__]: [kv] is [None] in the abstract class; the
    guards of [view_items] are collected, which reads the entries. *)
Definition DictView_init (kv : option ViewKind) (dv_dict : VariableTracker) (tx : Tx)
    : res VariableTracker :=
  _ ← py_assert (bool_decide (kv <> None));
  match dv_dict with
  | DictVariable d =>
      _ ← heap_read (items d) tx;
      match kv with
      | Some kv_keys => Ok (DictKeys d)
      | Some kv_values => Ok (DictValues d)
      | None => Raise AssertionError
      end
  | _ => Raise AssertionError
  end.

(** [DictView.unpack_var_sequence]: [unwrap] takes the tracker out of a
    key and leaves a value as it is. *)
Definition DictView_unpack_var_sequence (kv : ViewKind) (dv_dict : ConstDictVariable)
    (tx : Tx) : res (list VariableTracker) :=
  d ← heap_read (items dv_dict) tx;
  Ok (match kv with
      | kv_keys => map (fun x => vt x.1) d
      | kv_values => map snd d
      end).

(** [DictView.call_method] *)
Definition DictView_call_method (dv_dict : ConstDictVariable) (name : string)
    (args : list VariableTracker) (kwargs : list (string * VariableTracker))
    (tx : Tx) : res (VariableTracker * Tx) :=
  if String.eqb name "__len__" then call_method dv_dict name args kwargs tx
  else VariableTracker_call_method name args tx.

(** [DictKeys.call_method] *)
Definition DictKeys_call_method (dv_dict : ConstDictVariable) (name : string)
    (args : list VariableTracker) (kwargs : list (string * VariableTracker))
    (tx : Tx) : res (VariableTracker * Tx) :=
  if String.eqb name "__contains__" then call_method dv_dict name args kwargs tx
  else DictView_call_method dv_dict name args kwargs tx.

(** [call_method] of a view, by its class ([DictValues] inherits the
    method of [DictView]). *)
Definition view_call_method (kv : ViewKind) (dv_dict : ConstDictVariable) (name : string)
    (args : list VariableTracker) (kwargs : list (string * VariableTracker))
    (tx : Tx) : res (VariableTracker * Tx) :=
  match kv with
  | kv_keys => DictKeys_call_method dv_dict name args kwargs tx
  | kv_values => DictView_call_method dv_dict name args kwargs tx
  end.

End Adapters.

(** ** The module table: [PythonSysModulesVariable] *)

Section SysModules.

(** A module object of the host process. *)
Inductive ModuleObj : Type := module_obj (id : nat).

(** The guard [DICT_CONTAINS] on the source of the table, with its
    arguments [key] and [invert]. *)
Record Guard : Type := DICT_CONTAINS
  { guard_key : PyVal;
    guard_invert : bool }.

(** [sys.modules], a host dictionary keyed by strings. *)
Variable sys_modules : list (string * ModuleObj).
(** [VariableBuilder(tx, GetItemSource(self.source, k))(value)] of
    builder.py. *)
Variable VariableBuilder : PyVal -> ModuleObj -> res VariableTracker.

(** The entries of [sys.modules] under their keys as host values;
    [==] alone decides a lookup by a constant. *)
Definition sys_modules_items : list (PyVal * ModuleObj) :=
  map (fun m => (PyLit (LStr m.1), m.2)) sys_modules.

Definition same_constant (a b : PyVal) : res bool := Ok (py_eq a b).

(** [PythonSysModulesVariable._contains_helper]; a set of guards is
    the list of its elements. *)
Definition _contains_helper (self_guards : list Guard) (key : VariableTracker)
    : res (PyVal * bool * list Guard) :=
  k ← as_python_constant key;
  has_key ← dict_contains same_constant k sys_modules_items;
  let guard := DICT_CONTAINS k (negb has_key) in
  Ok (k, has_key, guard :: self_guards).

(** [call_contains]: the constant and the guards it is created with *)
Definition call_contains (self_guards : list Guard) (key : VariableTracker)
    : res (VariableTracker * list Guard) :=
  '(k, has_key, guards) ← _contains_helper self_guards key;
  Ok (ConstantVariable (LBool has_key), guards).

(** [call_get]: the result and the guards added to it *)
Definition call_get (self_guards : list Guard) (key : VariableTracker)
    (default : option VariableTracker) : res (VariableTracker * list Guard) :=
  '(k, has_key, guards) ← _contains_helper self_guards key;
  if has_key : bool then
    m ← dict_getitem same_constant k sys_modules_items;
    r ← VariableBuilder k m;
    Ok (r, guards)
  else
    match default with
    | Some d => Ok (d, guards)
    | None => Ok (ConstantVariable LNone, guards)
    end.

(** [call_getitem] *)
Definition call_getitem (self_guards : list Guard) (key : VariableTracker)
    : res (VariableTracker * list Guard) :=
  '(k, has_key, guards) ← _contains_helper self_guards key;
  m ← dict_getitem same_constant k sys_modules_items;
  r ← VariableBuilder k m;
  Ok (r, guards).

End SysModules.

(** Samples of the collaborators, for the examples. *)
Definition sample_is_str (x : VariableTracker) : res bool :=
  match x with
  | ConstantVariable (LStr _) => Ok true
  | _ => Ok false
  end.

Definition sample_tuple_call_method (elts : list VariableTracker) (name : string)
    (args : list VariableTracker) (kwargs : list (string * VariableTracker)) (tx : Tx)
    : res (VariableTracker * Tx) :=
  Raise Unsupported.

Definition sample_defaults (cls : UserCls) : res (list (string * option Literal)) :=
  Ok [("loss", Some LNone); ("logits", Some LNone); ("past", Some (LInt 0))].

Definition sample_var_getattr (self : ConstDictVariable) (name : string) (tx : Tx)
    : res (VariableTracker * Tx) :=
  Ok (BuiltinVariable name, tx).

Definition sample_getattr_user_cls (cls : UserCls) (name : string) : res ClassAttr :=
  Ok (attr_slot cls_dict).

Definition sample_inline (fn : ClassAttr) (args : list VariableTracker)
    (kwargs : list (string * VariableTracker)) (tx : Tx) : res (VariableTracker * Tx) :=
  Raise Unsupported.

Definition sample_modules : list (string * ModuleObj) :=
  [("os", module_obj 1); ("sys", module_obj 2)].

Definition sample_builder (k : PyVal) (m : ModuleObj) : res VariableTracker :=
  Ok (BuiltinVariable "module").

(** The dictionaries [{"a": 1, "b": 1}] at address 0 and
    [{"b": "a", 1: "b"}] at address 1. *)
Definition update_tx : Tx :=
  mkTx [[(mkHashable key_a, key_1); (mkHashable key_b, key_1)];
        [(mkHashable key_b, key_a); (mkHashable key_1, key_b)]] [] [] 0.

(** A record with [mutable_local] set, and its entries at address 0. *)
Definition sample_record_mutable : ConstDictVariable :=
  mkDict 0 (cls_user "ModelOutput") true KDataClass None.

Definition record_tx : Tx := mkTx [field_items sample_fields] [] [] 0.


(** ** The error monad *)

Lemma bind_Ok {A B : Type} (a : A) (f : A -> res B) : (Ok a ≫= f) = f a.
Proof. reflexivity. Qed.

Lemma bind_Raise {A B : Type} (e : exc) (f : A -> res B) : (Raise e ≫= f) = Raise e.
Proof. reflexivity. Qed.

Lemma bind_inv {A B : Type} (m : res A) (f : A -> res B) (b : B) :
  (m ≫= f) = Ok b -> exists a, m = Ok a /\ f a = Ok b.
Proof. destruct m as [a|e]; [eauto | discriminate]. Qed.

Lemma py_assert_inv (b : bool) (u : unit) : py_assert b = Ok u -> b = true.
Proof. destruct b; [reflexivity | discriminate]. Qed.

(** Decompose a successful computation into its successful steps. *)
Ltac inv_bind H :=
  let a := fresh "x" in
  let Ha := fresh "E" in
  apply bind_inv in H as (a & Ha & H).

(** ** The key wrapper *)

Lemma is_hashable_specialize (x : VariableTracker) :
  is_hashable (specialize_symnode x) = is_hashable x.
Proof. destruct x; reflexivity. Qed.

Lemma specialize_idempotent (x : VariableTracker) :
  specialize_symnode (specialize_symnode x) = specialize_symnode x.
Proof. destruct x; reflexivity. Qed.

Lemma Hashable_init_hashable (x : VariableTracker) :
  is_hashable x = true ->
  Hashable_init x = Ok (mkHashable (specialize_symnode x)).
Proof.
  intros H. unfold Hashable_init. rewrite is_hashable_specialize, H. reflexivity.
Qed.

Lemma Hashable_init_unhashable (x : VariableTracker) :
  is_hashable x = false -> Hashable_init x = Raise AssertionError.
Proof.
  intros H. unfold Hashable_init. rewrite is_hashable_specialize, H. reflexivity.
Qed.

Lemma Hashable_init_inv (x : VariableTracker) (k : Hashable) :
  Hashable_init x = Ok k ->
  is_hashable x = true /\ k = mkHashable (specialize_symnode x).
Proof.
  intros H. destruct (is_hashable x) eqn:E.
  - rewrite (Hashable_init_hashable _ E) in H. split; congruence.
  - rewrite (Hashable_init_unhashable _ E) in H. discriminate.
Qed.

Lemma Hashable_init_wrapped (x : VariableTracker) (k : Hashable) :
  Hashable_init x = Ok k -> wrapped k.
Proof.
  intros H. apply Hashable_init_inv in H as [H ->]. split; simpl.
  - by rewrite is_hashable_specialize.
  - apply specialize_idempotent.
Qed.


Lemma mapM_Forall_Ok {A B : Type} (f : A -> res B) (l : list A) :
  Forall (fun x => exists y, f x = Ok y) l -> exists ys, mapM f l = Ok ys.
Proof.
  induction 1 as [|x l [y Hy] _ [ys IH]]; simpl; [eauto|].
  rewrite Hy, IH. eauto.
Qed.

(** The tuple case of [underlying_value], as the source writes it:
    [tuple(Hashable(e).underlying_value for e in self.vt.items)]. *)
Lemma underlying_value_tuple (es : list VariableTracker) :
  underlying_value (mkHashable (TupleVariable es)) =
  (xs ← mapM (fun e => h ← Hashable_init e; underlying_value h) es; Ok (PyTuple xs)).
Proof.
  unfold underlying_value. simpl.
  assert (forall l, mapM (fun e => if is_hashable (specialize_symnode e)
                           then match e with
                                | SymNodeVariable h => Ok (PyLit (LInt h))
                                | _ => project e
                                end
                           else Raise AssertionError) l =
                    mapM (fun e => h ← Hashable_init e; project (vt h)) l) as ->.
  { induction l as [|e l IH]; simpl; [reflexivity|]. rewrite IH.
    replace (Hashable_init e ≫= (fun h => project (vt h)))
      with (if is_hashable (specialize_symnode e)
            then match e with
                 | SymNodeVariable h => Ok (PyLit (LInt h))
                 | _ => project e
                 end
            else Raise AssertionError); [reflexivity|].
    unfold Hashable_init. destruct (is_hashable (specialize_symnode e)); simpl;
      [|reflexivity]. destruct e; reflexivity. }
  reflexivity.
Qed.

(** The projection is defined on every key the constructor accepts. *)
Lemma project_hashable (x : VariableTracker) :
  is_hashable x = true -> specialize_symnode x = x -> exists a, project x = Ok a.
Proof.
  induction x as [c|h|ev|es IH|es IH|f|c m|o n|d|d|d] using VariableTracker_nested_ind;
    simpl; intros Hh Hs; try discriminate; eauto.
  - destruct ev; [eauto|]. by rewrite bool_decide_eq_true in Hh.
  - assert (exists xs, mapM (fun e => if is_hashable (specialize_symnode e)
                           then match e with
                                | SymNodeVariable h => Ok (PyLit (LInt h))
                                | _ => project e
                                end
                           else Raise AssertionError) es = Ok xs) as [xs ->]; [|eauto].
    apply mapM_Forall_Ok. rewrite forallb_forall in Hh.
    rewrite Forall_forall in IH |- *. intros e He.
    rewrite is_hashable_specialize, (Hh e) by (by apply list_elem_of_In).
    destruct e; eauto; apply IH; auto; apply Hh; by apply list_elem_of_In.
Qed.

Lemma underlying_value_wrapped (k : Hashable) :
  wrapped k -> exists a, underlying_value k = Ok a.
Proof. intros [H1 H2]. by apply project_hashable. Qed.

(** ** Equality of projections *)

Lemma eq_spec_tuple_nil_l (lb : list PyVal) :
  eq_spec (PyTuple []) (PyTuple lb) = is_nil lb.
Proof. by destruct lb. Qed.

Lemma eq_spec_tuple_cons (x y : PyVal) (la lb : list PyVal) :
  eq_spec (PyTuple (x :: la)) (PyTuple (y :: lb)) =
  eq_spec x y && eq_spec (PyTuple la) (PyTuple lb).
Proof. reflexivity. Qed.

Lemma eq_spec_tuple_length (la lb : list PyVal) :
  eq_spec (PyTuple la) (PyTuple lb) = true -> length la = length lb.
Proof.
  revert lb. induction la as [|x la IH]; intros [|y lb]; try discriminate; auto.
  - rewrite eq_spec_tuple_cons. intros [_ H]%andb_true_iff. simpl. f_equal. auto.
Qed.

Lemma lit_eq_same_type (c d : Literal) :
  type_of (PyLit c) = type_of (PyLit d) -> (lit_eq c d = true <-> c = d).
Proof.
  destruct c as [|[]|z|s], d as [|[]|z'|s']; cbn -[Z.eqb String.eqb];
    try discriminate; intros _; try (split; intros H; done).
  - rewrite Z.eqb_eq. split; congruence.
  - rewrite String.eqb_eq. split; congruence.
Qed.

Lemma eq_spec_canon (a b : PyVal) : eq_spec a b = true <-> canon a = canon b.
Proof.
  revert b.
  induction a as [c|la IH|t|f|c m|o n] using PyVal_nested_ind; intros b.
  - destruct b as [d| | | | |]; simpl;
      try (rewrite andb_false_r; split; discriminate).
    rewrite andb_true_iff, bool_decide_eq_true. split.
    + intros [Ht He]. f_equal. by apply lit_eq_same_type.
    + intros [= ->]. split; [reflexivity|]. by apply lit_eq_same_type.
  - destruct b as [|lb| | | |];
      try (split; [simpl; rewrite ?andb_false_r; discriminate | discriminate]).
    revert lb. induction IH as [|x la Hx _ IHla]; intros [|y lb];
      try (split; discriminate); [by split|].
    rewrite eq_spec_tuple_cons, andb_true_iff, Hx, IHla. simpl.
    split; [intros [-> [= ->]]; reflexivity | intros [= -> ->]; by split].
  - destruct b as [| |t'| | |]; cbn -[Nat.eqb];
      try (rewrite ?andb_false_r; split; discriminate).
    rewrite andb_true_iff, bool_decide_eq_true, Nat.eqb_eq.
    split; [intros [_ ->]; reflexivity | intros [= ->]; auto].
  - destruct b as [| | |g| |]; cbn -[String.eqb];
      try (rewrite ?andb_false_r; split; discriminate).
    rewrite andb_true_iff, bool_decide_eq_true, String.eqb_eq.
    split; [intros [_ ->]; reflexivity | intros [= ->]; auto].
  - destruct b as [| | | |c' m'|]; cbn -[String.eqb];
      try (rewrite ?andb_false_r; split; discriminate).
    rewrite !andb_true_iff, bool_decide_eq_true, !String.eqb_eq.
    split; [intros (_ & -> & ->); reflexivity | intros [= -> ->]; auto].
  - destruct b as [| | | | |o' n']; cbn -[String.eqb];
      try (rewrite ?andb_false_r; split; discriminate).
    rewrite !andb_true_iff, bool_decide_eq_true, !String.eqb_eq.
    split; [intros (_ & -> & ->); reflexivity | intros [= -> ->]; auto].
Qed.


Lemma eq_spec_sym (a b : PyVal) : eq_spec a b = eq_spec b a.
Proof.
  destruct (eq_spec a b) eqn:E1, (eq_spec b a) eqn:E2; try reflexivity.
  - apply eq_spec_canon in E1. symmetry in E1. apply eq_spec_canon in E1. congruence.
  - apply eq_spec_canon in E2. symmetry in E2. apply eq_spec_canon in E2. congruence.
Qed.

Lemma eq_spec_trans (a b c : PyVal) :
  eq_spec a b = true -> eq_spec b c = true -> eq_spec a c = true.
Proof. rewrite !eq_spec_canon. congruence. Qed.

Lemma eq_spec_unfold (a b : PyVal) :
  eq_spec a b =
  bool_decide (type_of a = type_of b) &&
  match a, b with
  | PyTuple la, PyTuple lb => eq_spec (PyTuple la) (PyTuple lb)
  | PyFake _, _ => py_is a b
  | _, _ => py_eq a b
  end.
Proof. destruct a, b; reflexivity. Qed.

(** When [_eq_impl] returns, it returns the specified comparison. *)
Lemma _eq_impl_sound (a b : PyVal) (r : bool) :
  _eq_impl a b = Ok r -> r = eq_spec a b.
Proof.
  rewrite eq_spec_unfold. unfold _eq_impl.
  destruct (bool_decide (type_of a = type_of b)) eqn:Ht; cbn [negb andb];
    [|congruence].
  destruct a as [c|la|t|f|c m|o n], b as [d|lb|t'|g|c' m'|o' n'];
    cbn [is_fake]; try congruence.
  destruct (Nat.eqb (length la) (length lb)) eqn:El; cbn [negb].
  - apply Nat.eqb_eq in El. destruct la, lb; try discriminate; simpl; congruence.
  - intros [= <-]. destruct (eq_spec (PyTuple la) (PyTuple lb)) eqn:E; [|done].
    apply eq_spec_tuple_length in E. apply Nat.eqb_neq in El. lia.
Qed.

(** [_eq_impl] raises exactly on two tuples of one non-zero length. *)
Lemma _eq_impl_raises (a b : PyVal) (e : exc) :
  _eq_impl a b = Raise e ->
  e = NameError "_eq_impl" /\
  exists x la y lb, a = PyTuple (x :: la) /\ b = PyTuple (y :: lb) /\
                    length la = length lb.
Proof.
  unfold _eq_impl. destruct (bool_decide (type_of a = type_of b)); simpl;
    [|discriminate].
  destruct a as [c|la|t|f|c m|o n], b as [d|lb|t'|g|c' m'|o' n']; simpl;
    try discriminate.
  destruct (Nat.eqb (length la) (length lb)) eqn:El; simpl; [|discriminate].
  apply Nat.eqb_eq in El. destruct la as [|x la], lb as [|y lb]; try discriminate.
  simpl. intros [= <-]. split; [reflexivity|]. exists x, la, y, lb.
  simpl in El. repeat split; congruence.
Qed.

Lemma _eq_impl_tuple_raises (x y : PyVal) (la lb : list PyVal) :
  length la = length lb ->
  _eq_impl (PyTuple (x :: la)) (PyTuple (y :: lb)) = Raise (NameError "_eq_impl").
Proof.
  intros H. unfold _eq_impl. cbn [type_of length]. rewrite H, Nat.eqb_refl.
  reflexivity.
Qed.

Lemma _eq_impl_not_tuple (a b : PyVal) :
  is_tuple a = false -> _eq_impl a b = Ok (eq_spec a b).
Proof.
  intros Ha. destruct (_eq_impl a b) as [r|e] eqn:E.
  - by rewrite (_eq_impl_sound _ _ _ E).
  - apply _eq_impl_raises in E as (_ & x & la & y & lb & -> & _). discriminate.
Qed.

Lemma sample_hash_canon (a : PyVal) : sample_hash (canon a) = sample_hash a.
Proof.
  induction a as [c|la IH|t|f|c m|o n] using PyVal_nested_ind; try reflexivity.
  simpl. induction IH as [|x la Hx _ IHla]; simpl; [reflexivity|].
  by rewrite Hx, IHla.
Qed.

Lemma sample_hash_respects_eq (a b : PyVal) :
  eq_spec a b = true -> sample_hash a = sample_hash b.
Proof.
  intros H%eq_spec_canon.
  by rewrite <- (sample_hash_canon a), <- (sample_hash_canon b), H.
Qed.

(** ** Host dictionaries: the three outcomes of a lookup *)

Section HostDict_facts.
Context {K V : Type} (same_key : K -> K -> res bool).

Lemma dict_absent (k : K) (d : list (K * V)) :
  absent same_key k d ->
  dict_contains same_key k d = Ok false /\
  dict_getitem same_key k d = Raise KeyError /\
  (forall v, dict_setitem same_key k v d = Ok (d ++ [(k, v)])) /\
  dict_pop same_key k d = Raise KeyError.
Proof.
  induction 1 as [|[k' v'] d Hk _ (IH1 & IH2 & IH3 & IH4)]; simpl in *.
  - auto.
  - rewrite Hk; simpl. rewrite IH1, IH2, IH4. repeat split; auto.
    intros v. by rewrite IH3.
Qed.

Lemma dict_found (k : K) (d1 : list (K * V)) (k' : K) (v' : V) (d2 : list (K * V)) :
  absent same_key k d1 -> same_key k' k = Ok true ->
  dict_contains same_key k (d1 ++ (k', v') :: d2) = Ok true /\
  dict_getitem same_key k (d1 ++ (k', v') :: d2) = Ok v' /\
  (forall v, dict_setitem same_key k v (d1 ++ (k', v') :: d2) = Ok (d1 ++ (k', v) :: d2)) /\
  dict_pop same_key k (d1 ++ (k', v') :: d2) = Ok (v', d1 ++ d2).
Proof.
  intros Ha Hk. induction Ha as [|[k0 v0] d Hk0 _ (IH1 & IH2 & IH3 & IH4)]; simpl in *.
  - rewrite Hk; simpl. auto.
  - rewrite Hk0; simpl. rewrite IH1, IH2, IH4. repeat split; auto.
    intros v. by rewrite IH3.
Qed.

Lemma dict_scan (k : K) (d : list (K * V)) :
  absent same_key k d \/
  (exists d1 k' v' d2, d = d1 ++ (k', v') :: d2 /\ absent same_key k d1 /\
                       same_key k' k = Ok true) \/
  (exists e, dict_contains same_key k d = Raise e /\
             dict_getitem same_key k d = Raise e /\
             (forall v, dict_setitem same_key k v d = Raise e) /\
             dict_pop same_key k d = Raise e).
Proof.
  induction d as [|[k' v'] d IH].
  - left. constructor.
  - destruct (same_key k' k) as [[|]|e] eqn:Hk.
    + right; left. exists [], k', v', d. repeat split; [constructor | done].
    + destruct IH as [IH | [(d1 & k0 & v0 & d2 & -> & Ha & Hk0) | (e & E1 & E2 & E3 & E4)]].
      * left. by constructor.
      * right; left. exists ((k', v') :: d1), k0, v0, d2.
        repeat split; [by constructor | done].
      * right; right. exists e. simpl. rewrite Hk; simpl. rewrite E1, E2, E4.
        repeat split; auto. intros v. by rewrite E3.
    + right; right. exists e. simpl. rewrite Hk. auto.
Qed.

Lemma dict_contains_false (k : K) (d : list (K * V)) :
  dict_contains same_key k d = Ok false -> absent same_key k d.
Proof.
  intros H. destruct (dict_scan k d) as [Ha | [(d1 & k' & v' & d2 & -> & Ha & Hk) | (e & E & _)]].
  - done.
  - destruct (dict_found k d1 k' v' d2 Ha Hk) as [E _]. congruence.
  - congruence.
Qed.

Lemma dict_contains_true (k : K) (d : list (K * V)) :
  dict_contains same_key k d = Ok true ->
  exists d1 k' v' d2, d = d1 ++ (k', v') :: d2 /\ absent same_key k d1 /\
                      same_key k' k = Ok true.
Proof.
  intros H. destruct (dict_scan k d) as [Ha | [Hf | (e & E & _)]].
  - destruct (dict_absent k d Ha) as [E _]. congruence.
  - done.
  - congruence.
Qed.

Lemma dict_setitem_inv (k : K) (v : V) (d d' : list (K * V)) :
  dict_setitem same_key k v d = Ok d' ->
  (absent same_key k d /\ d' = d ++ [(k, v)]) \/
  (exists d1 k' v' d2, d = d1 ++ (k', v') :: d2 /\ d' = d1 ++ (k', v) :: d2 /\
                       absent same_key k d1 /\ same_key k' k = Ok true).
Proof.
  intros H. destruct (dict_scan k d) as [Ha | [(d1 & k' & v' & d2 & -> & Ha & Hk) | (e & _ & _ & E & _)]].
  - left. destruct (dict_absent k d Ha) as (_ & _ & E & _). rewrite E in H.
    split; congruence.
  - right. destruct (dict_found k d1 k' v' d2 Ha Hk) as (_ & _ & E & _).
    rewrite E in H. exists d1, k', v', d2. repeat split; congruence.
  - rewrite E in H. discriminate.
Qed.

Lemma dict_pop_inv (k : K) (v : V) (d d' : list (K * V)) :
  dict_pop same_key k d = Ok (v, d') ->
  exists d1 k' d2, d = d1 ++ (k', v) :: d2 /\ d' = d1 ++ d2 /\
                   absent same_key k d1 /\ same_key k' k = Ok true.
Proof.
  intros H. destruct (dict_scan k d) as [Ha | [(d1 & k' & v' & d2 & -> & Ha & Hk) | (e & _ & _ & _ & E)]].
  - destruct (dict_absent k d Ha) as (_ & _ & _ & E). congruence.
  - destruct (dict_found k d1 k' v' d2 Ha Hk) as (_ & _ & _ & E).
    rewrite E in H. injection H as <- <-. exists d1, k', d2. auto.
  - congruence.
Qed.
End HostDict_facts.

(** ** Stored dictionaries keep their invariants *)

Lemma distinct_keys_app {V : Type} (l1 l2 : list (Hashable * V)) :
  distinct_keys (l1 ++ l2) <->
  distinct_keys l1 /\ distinct_keys l2 /\
  Forall (fun kv1 => Forall (fun kv2 => key_matches kv1.1 kv2.1 = Ok false) l2) l1.
Proof.
  induction l1 as [|[k v] l1 IH]; simpl.
  - split; [intros H; repeat split; auto | tauto].
  - rewrite Forall_app, IH, Forall_cons. simpl. tauto.
Qed.

Lemma distinct_keys_fst {V W : Type} (d : list (Hashable * V)) (d' : list (Hashable * W)) :
  map fst d = map fst d' -> distinct_keys d -> distinct_keys d'.
Proof.
  revert d'. induction d as [|[k v] d IH]; intros [|[k' w] d']; simpl;
    try discriminate; [done|].
  intros [= <- Hm] [Hf Hd]. split; [|by apply IH].
  assert (Forall (fun k0 => key_matches k k0 = Ok false) (map fst d)) as Hk
    by (by rewrite Forall_map).
  rewrite Hm, Forall_map in Hk. done.
Qed.

Lemma distinct_keys_snoc {V : Type} (d : list (Hashable * V)) (k : Hashable) (v : V) :
  distinct_keys d -> absent key_matches k d -> distinct_keys (d ++ [(k, v)]).
Proof.
  intros Hd Ha. apply distinct_keys_app. repeat split; simpl; auto.
  unfold absent in Ha. eapply Forall_impl; [exact Ha|]. simpl. auto.
Qed.

Lemma distinct_keys_delete {V : Type} (d1 : list (Hashable * V)) (x : Hashable * V)
    (d2 : list (Hashable * V)) :
  distinct_keys (d1 ++ x :: d2) -> distinct_keys (d1 ++ d2).
Proof.
  rewrite !distinct_keys_app. destruct x as [k v]. simpl.
  intros (H1 & (_ & H2) & H3). repeat split; auto.
  eapply Forall_impl; [exact H3|]. simpl. intros kv H. by inversion H.
Qed.

Lemma dict_update_fresh {V : Type} (d acc : list (Hashable * V)) :
  distinct_keys (acc ++ d) -> dict_update key_matches d acc = Ok (acc ++ d).
Proof.
  revert acc. induction d as [|[k v] d IH]; intros acc H; simpl.
  - by rewrite app_nil_r.
  - assert (absent key_matches k acc) as Ha.
    { apply distinct_keys_app in H as (_ & _ & H). unfold absent.
      eapply Forall_impl; [exact H|]. simpl. intros kv Hkv. by inversion Hkv. }
    destruct (dict_absent key_matches k acc Ha) as (_ & _ & E & _).
    rewrite E; simpl. rewrite IH; rewrite <- app_assoc; done.
Qed.

(** Copying a stored dictionary gives the same entries. *)
Lemma dict_copy {V : Type} (d : list (Hashable * V)) :
  distinct_keys d -> dict_update key_matches d [] = Ok d.
Proof. intros H. by rewrite dict_update_fresh. Qed.

Lemma comprehension_update (d acc : DictObj) :
  comprehension (map (fun kv => (inl kv.1, kv.2)) d) acc = dict_update key_matches d acc.
Proof.
  revert acc. induction d as [|[k v] d IH]; intros acc; simpl; [done|].
  destruct (dict_setitem key_matches k v acc); simpl; auto.
Qed.

Lemma dict_setitem_distinct {V : Type} (k : Hashable) (v : V) (d d' : list (Hashable * V)) :
  distinct_keys d -> dict_setitem key_matches k v d = Ok d' -> distinct_keys d'.
Proof.
  intros Hd [[Ha ->] | (d1 & k' & v' & d2 & -> & -> & _)]%dict_setitem_inv.
  - by apply distinct_keys_snoc.
  - eapply distinct_keys_fst; [|exact Hd]. by rewrite !map_app.
Qed.

Lemma dict_setitem_wrapped {V : Type} (k : Hashable) (v : V) (d d' : list (Hashable * V)) :
  wrapped k -> Forall (fun kv => wrapped kv.1) d ->
  dict_setitem key_matches k v d = Ok d' -> Forall (fun kv => wrapped kv.1) d'.
Proof.
  intros Hk Hd [[Ha ->] | (d1 & k' & v' & d2 & -> & -> & _)]%dict_setitem_inv.
  - apply Forall_app. split; [done|]. by constructor.
  - rewrite Forall_app, Forall_cons in Hd |- *. done.
Qed.

Lemma dict_pop_distinct {V : Type} (k : Hashable) (v : V) (d d' : list (Hashable * V)) :
  distinct_keys d -> dict_pop key_matches k d = Ok (v, d') -> distinct_keys d'.
Proof.
  intros Hd (d1 & k' & d2 & -> & -> & _)%dict_pop_inv.
  by eapply distinct_keys_delete.
Qed.

Lemma dict_pop_wrapped {V : Type} (k : Hashable) (v : V) (d d' : list (Hashable * V)) :
  Forall (fun kv => wrapped kv.1) d ->
  dict_pop key_matches k d = Ok (v, d') -> Forall (fun kv => wrapped kv.1) d'.
Proof.
  intros Hd (d1 & k' & d2 & -> & -> & _)%dict_pop_inv.
  rewrite Forall_app, Forall_cons in Hd. rewrite Forall_app. tauto.
Qed.

Lemma dict_update_distinct {V : Type} (src d d' : list (Hashable * V)) :
  distinct_keys d -> dict_update key_matches src d = Ok d' -> distinct_keys d'.
Proof.
  revert d. induction src as [|[k v] src IH]; simpl; intros d Hd H.
  - congruence.
  - inv_bind H. eapply IH; [|exact H]. by eapply dict_setitem_distinct.
Qed.

Lemma dict_update_wrapped {V : Type} (src d d' : list (Hashable * V)) :
  Forall (fun kv => wrapped kv.1) src -> Forall (fun kv => wrapped kv.1) d ->
  dict_update key_matches src d = Ok d' -> Forall (fun kv => wrapped kv.1) d'.
Proof.
  revert d. induction src as [|[k v] src IH]; simpl; intros d Hs Hd H.
  - congruence.
  - inv_bind H. apply Forall_cons in Hs as [Hk Hs].
    eapply IH; [done| |exact H]. by eapply dict_setitem_wrapped.
Qed.

Lemma wf_dict_nil : wf_dict [].
Proof. split; [constructor | exact I]. Qed.

Lemma wf_dict_setitem (k : Hashable) (v : VariableTracker) (d d' : DictObj) :
  wrapped k -> wf_dict d -> dict_setitem key_matches k v d = Ok d' -> wf_dict d'.
Proof.
  intros Hk [H1 H2] H. split;
    [by eapply dict_setitem_wrapped | by eapply dict_setitem_distinct].
Qed.

Lemma wf_dict_pop (k : Hashable) (v : VariableTracker) (d d' : DictObj) :
  wf_dict d -> dict_pop key_matches k d = Ok (v, d') -> wf_dict d'.
Proof.
  intros [H1 H2] H. split; [by eapply dict_pop_wrapped | by eapply dict_pop_distinct].
Qed.

Lemma wf_dict_update (src d d' : DictObj) :
  wf_dict src -> wf_dict d -> dict_update key_matches src d = Ok d' -> wf_dict d'.
Proof.
  intros [H1 _] [H2 H3] H. split.
  - eapply dict_update_wrapped; [exact H1 | exact H2 | exact H].
  - eapply dict_update_distinct; [exact H3 | exact H].
Qed.

Lemma wf_dict_stored (self : ConstDictVariable) (d : DictObj) :
  wf_dict d -> wf_dict (stored_items self d).
Proof.
  intros [H1 H2]. unfold stored_items. destruct (klass self); try done.
  split.
  - by rewrite Forall_map.
  - eapply distinct_keys_fst; [|exact H2]. rewrite map_map. done.
Qed.

Lemma stored_items_keys (self : ConstDictVariable) (d : DictObj) :
  map fst (stored_items self d) = map fst d.
Proof. unfold stored_items. destruct (klass self); try done. by rewrite map_map. Qed.

(** ** The heap and the copy-on-write steps *)

Lemma lookup_snoc {A : Type} (l : list A) (x : A) : (l ++ [x]) !! length l = Some x.
Proof. by rewrite list_lookup_middle. Qed.

Lemma insert_snoc {A : Type} (l : list A) (x y : A) :
  <[length l := y]> (l ++ [x]) = l ++ [y].
Proof.
  rewrite insert_app_r_alt by lia. by rewrite Nat.sub_diag.
Qed.

Lemma heap_read_inv (a : addr) (tx : Tx) (d : DictObj) :
  heap_read a tx = Ok d -> heap tx !! a = Some d.
Proof. unfold heap_read. destruct (heap tx !! a); congruence. Qed.

Lemma heap_read_ok (a : addr) (tx : Tx) (d : DictObj) :
  heap tx !! a = Some d -> heap_read a tx = Ok d.
Proof. unfold heap_read. by intros ->. Qed.

Lemma OrderedDict_copy_inv (a : addr) (tx : Tx) (n : addr) (tx1 : Tx) :
  OrderedDict_copy a tx = Ok (n, tx1) ->
  exists d d', heap tx !! a = Some d /\ dict_update key_matches d [] = Ok d' /\
               n = length (heap tx) /\ tx1 = set_heap (heap tx ++ [d']) tx.
Proof.
  unfold OrderedDict_copy. intros H. inv_bind H. inv_bind H.
  apply heap_read_inv in E. unfold heap_alloc in H. injection H as <- <-.
  eexists _, _. repeat split; eauto.
Qed.

Lemma OrderedDict_copy_ok (a : addr) (tx : Tx) (d : DictObj) :
  heap tx !! a = Some d -> distinct_keys d ->
  OrderedDict_copy a tx = Ok (length (heap tx), set_heap (heap tx ++ [d]) tx).
Proof.
  intros H Hd. unfold OrderedDict_copy. rewrite (heap_read_ok _ _ _ H); simpl.
  by rewrite (dict_copy _ Hd).
Qed.

Lemma modifed_inv (self : ConstDictVariable) (n : addr) (tx : Tx)
    (new : ConstDictVariable) (tx' : Tx) :
  modifed self n tx = Ok (new, tx') ->
  exists d dnew,
    heap tx !! n = Some d /\
    new = mkDict (length (heap tx)) (user_cls self) (mutable_local self)
                 (klass self) (default_factory self) /\
    tx' = set_heap (heap tx ++ [dnew]) tx /\
    (distinct_keys d -> dnew = stored_items self d) /\
    (Forall (fun kv => wrapped kv.1) d -> Forall (fun kv => wrapped kv.1) dnew).
Proof.
  unfold modifed, clone, ConstDictVariable_init. intros H.
  inv_bind H. apply heap_read_inv in E. inv_bind H. inv_bind H.
  destruct x1 as [new0 tx0]. inv_bind H. injection H as <- <-.
  apply bind_inv in E1 as (dnew & E1 & E3).
  rewrite comprehension_update in E1. unfold heap_alloc in E3.
  injection E3 as <- <-.
  exists x, dnew. repeat split; auto.
  - intros Hd. unfold stored_items. destruct (klass self);
      try (injection E0 as <-; rewrite (dict_copy _ Hd) in E1; congruence).
    assert (distinct_keys (map (fun kv : Hashable * VariableTracker =>
                                  (kv.1, SetVariable_default_value)) x)) as Hd'.
    { eapply distinct_keys_fst; [|exact Hd]. by rewrite map_map. }
    rewrite (dict_copy _ Hd') in E0. injection E0 as <-.
    rewrite (dict_copy _ Hd') in E1. congruence.
  - intros Hw. eapply dict_update_wrapped; [| constructor | exact E1].
    destruct (klass self); try (injection E0 as <-; exact Hw).
    eapply dict_update_wrapped; [| constructor | exact E0]. by rewrite Forall_map.
Qed.

Lemma modifed_ok (self : ConstDictVariable) (n : addr) (tx : Tx) (d : DictObj) :
  heap tx !! n = Some d -> distinct_keys d -> class_ok self ->
  modifed self n tx =
  Ok (mkDict (length (heap tx)) (user_cls self) (mutable_local self)
             (klass self) (default_factory self),
      set_heap (heap tx ++ [stored_items self d]) tx).
Proof.
  intros H Hd Hc. unfold modifed, clone, ConstDictVariable_init.
  rewrite (heap_read_ok _ _ _ H), bind_Ok.
  assert (distinct_keys (stored_items self d)) as Hs.
  { eapply distinct_keys_fst; [|exact Hd]. by rewrite stored_items_keys. }
  unfold stored_items, class_ok in *.
  destruct (klass self); rewrite ?(dict_copy _ Hs), ?bind_Ok;
    rewrite comprehension_update, (dict_copy _ Hs), bind_Ok;
    cbn [heap_alloc mbind res_bind];
    rewrite ?bool_decide_true by auto; reflexivity.
Qed.

(** The tail of every mutating branch: the working copy at the fresh
    address holds [d1]; [modifed] builds the new object and
    [replace_all] publishes it. *)
Lemma commit_inv (self : ConstDictVariable) (dtmp d1 : DictObj) (tx : Tx)
    (new : ConstDictVariable) (tx3 : Tx) (r : VariableTracker) (tx4 : Tx) :
  modifed self (length (heap tx))
    (heap_write (length (heap tx)) d1 (set_heap (heap tx ++ [dtmp]) tx)) = Ok (new, tx3) ->
  replace_all self new tx3 = Ok (r, tx4) ->
  exists dnew,
    (new, tx4) = committed self d1 dnew tx /\ r = DictVariable new /\
    (distinct_keys d1 -> dnew = stored_items self d1) /\
    (Forall (fun kv => wrapped kv.1) d1 -> Forall (fun kv => wrapped kv.1) dnew).
Proof.
  intros Hm Hr. apply modifed_inv in Hm as (d & dnew & Hd & -> & -> & H1 & H2).
  simpl in Hd. rewrite insert_snoc, lookup_snoc in Hd. injection Hd as <-.
  exists dnew. unfold replace_all in Hr. injection Hr as <- <-.
  unfold committed. simpl. rewrite insert_snoc, length_app, <- app_assoc. simpl.
  rewrite Nat.add_1_r. auto.
Qed.

Lemma commit_ok (self : ConstDictVariable) (dtmp d1 : DictObj) (tx : Tx) :
  distinct_keys d1 -> class_ok self ->
  ('(new, tx3) ← modifed self (length (heap tx))
      (heap_write (length (heap tx)) d1 (set_heap (heap tx ++ [dtmp]) tx));
   replace_all self new tx3) =
  Ok (DictVariable (committed self d1 (stored_items self d1) tx).1,
      (committed self d1 (stored_items self d1) tx).2).
Proof.
  intros Hd Hc. erewrite modifed_ok; [| |exact Hd|exact Hc].
  2:{ simpl. rewrite insert_snoc. apply lookup_snoc. }
  simpl. unfold replace_all, committed. simpl.
  rewrite insert_snoc, length_app, <- app_assoc. simpl. by rewrite Nat.add_1_r.
Qed.

(** Decompose a successful run into its steps, opening the pairs that
    the steps return. *)
Ltac inv_steps H :=
  repeat first
    [ inv_bind H
    | match type of H with
      | (let (_, _) := ?p in _) = Ok _ => destruct p
      end ].

Ltac heap_inv :=
  repeat match goal with
         | H : heap_read _ _ = Ok _ |- _ => apply heap_read_inv in H
         end.

(** A branch that returns without touching the state. *)
Ltac read_only H Hn :=
  apply String.eqb_eq in Hn; inv_steps H; left;
  split; [congruence | subst; repeat split; discriminate].

(** ** What a successful call of [ConstDictVariable.call_method] did *)

Lemma ConstDictVariable_call_method_inv (self : ConstDictVariable) (name : string)
    (args : list VariableTracker) (kwargs : list (string * VariableTracker))
    (tx : Tx) (r : VariableTracker) (tx' : Tx) :
  ConstDictVariable_call_method self name args kwargs tx = Ok (r, tx') ->
  (tx' = tx /\ name <> "__setitem__" /\ name <> "update" /\
   (name = "pop" ->
    exists a k d0, args = [a; r] /\ Hashable_init a = Ok k /\
                   heap tx !! items self = Some d0 /\
                   dict_contains key_matches k d0 = Ok false)) \/
  exists d0 dtmp d1 dnew,
    mutable_local self = true /\
    heap tx !! items self = Some d0 /\
    dict_update key_matches d0 [] = Ok dtmp /\
    applied_change tx name args dtmp d1 /\
    tx' = (committed self d1 dnew tx).2 /\
    (distinct_keys d1 -> dnew = stored_items self d1) /\
    (Forall (fun kv => wrapped kv.1) d1 -> Forall (fun kv => wrapped kv.1) dnew) /\
    (name = "pop" \/ r = DictVariable (committed self d1 dnew tx).1).
Proof.
  unfold ConstDictVariable_call_method. intros H.
  destruct (String.eqb name "__getitem__") eqn:Hn; [read_only H Hn|]. clear Hn.
  destruct (String.eqb name "items") eqn:Hn; [read_only H Hn|]. clear Hn.
  destruct (String.eqb name "keys") eqn:Hn; [read_only H Hn|]. clear Hn.
  destruct (String.eqb name "values") eqn:Hn; [read_only H Hn|]. clear Hn.
  destruct (String.eqb name "__len__") eqn:Hn; [read_only H Hn|]. clear Hn.
  destruct (String.eqb name "__setitem__" && _ && mutable_local self) eqn:Hset.
  { right. apply andb_true_iff in Hset as [[Hn _]%andb_true_iff Hm].
    apply String.eqb_eq in Hn. inv_steps H.
    apply py_assert_inv, andb_true_iff in E as [Hkw Hlen].
    apply OrderedDict_copy_inv in E2 as (d0 & dtmp & Hd0 & Hcopy & -> & ->).
    apply heap_read_inv in E4. simpl in E4. rewrite lookup_snoc in E4.
    injection E4 as <-.
    destruct (commit_inv _ _ _ _ _ _ _ _ E6 H) as (dnew & Hc & -> & Hd & Hw).
    match goal with
    | E : dict_setitem _ _ _ _ = Ok ?d1 |- _ => exists d0, dtmp, d1, dnew
    end.
    rewrite <- Hc. repeat split; auto.
    left. split; [done|]. destruct args as [|a [|v [|? ?]]]; try discriminate.
    simpl in *. injection E0 as <-. injection E3 as <-.
    eexists a, v, _. repeat split; eassumption. }
  inv_bind H. destruct x.
  { left. destruct (name_in name ["pop"; "get"] && _) eqn:Hc; [|discriminate].
    apply andb_true_iff in Hc as [Hn _]. inv_steps E. inv_steps H.
    injection E as [= Hb]. apply andb_true_iff in Hb as [Hb Hlen].
    apply negb_true_iff in Hb. subst x0.
    unfold key_in_items in E1. inv_steps E1. heap_inv.
    injection H as <- <-.
    destruct args as [|a [|v [|? ?]]]; try discriminate. simpl in *.
    injection E0 as <-. injection E2 as <-.
    split; [done|]. unfold name_in in Hn. simpl in Hn.
    repeat split; try (intros ->; simpl in Hset; discriminate Hn).
    intros _. eexists _, _, _. repeat split; eassumption. }
  clear E.
  destruct (String.eqb name "pop" && _ && mutable_local self) eqn:Hpop.
  { right. apply andb_true_iff in Hpop as [[Hn _]%andb_true_iff Hm].
    apply String.eqb_eq in Hn. inv_steps H.
    apply OrderedDict_copy_inv in E as (d0 & dtmp & Hd0 & Hcopy & -> & ->).
    apply heap_read_inv in E2. simpl in E2. rewrite lookup_snoc in E2.
    injection E2 as <-.
    destruct (commit_inv _ _ _ _ _ _ _ _ E4 E5) as (dnew & Hc & _ & Hd & Hw).
    injection H as <- <-.
    match goal with
    | E : dict_pop _ _ _ = Ok (_, ?d1) |- _ => exists d0, dtmp, d1, dnew
    end.
    rewrite <- Hc. repeat split; auto.
    right; left. split; [done|]. destruct args as [|a rest]; [discriminate|].
    simpl in *. injection E0 as <-.
    eexists a, rest, _, _. repeat split; eassumption. }
  destruct (if String.eqb name "update" && mutable_local self
            then match args with
                 | DictVariable other :: _ => Some other
                 | _ => None
                 end
            else None) as [other|] eqn:Hupd.
  { right. destruct (String.eqb name "update" && mutable_local self) eqn:Hn;
      [|discriminate].
    apply andb_true_iff in Hn as [Hn Hm]. apply String.eqb_eq in Hn.
    inv_steps H.
    apply OrderedDict_copy_inv in E as (d0 & dtmp & Hd0 & Hcopy & -> & ->).
    apply heap_read_inv in E0, E1. simpl in E0, E1. rewrite lookup_snoc in E1.
    injection E1 as <-.
    destruct (commit_inv _ _ _ _ _ _ _ _ E3 H) as (dnew & Hc & -> & Hd & Hw).
    match goal with
    | E : dict_update _ ?src dtmp = Ok ?d1 |- _ =>
        exists d0, dtmp, d1, dnew; rewrite <- Hc; repeat split; auto;
        right; right; split; [done|];
        destruct args as [|[] rest]; try discriminate; injection Hupd as ->;
        exists other, rest, src; repeat split; auto
    end. }
  clear Hupd. inv_bind H. destruct x.
  { left. destruct (name_in name ["get"; "__getattr__"] && _) eqn:Hc; [|discriminate].
    apply andb_true_iff in Hc as [Hn _]. inv_steps H. injection H as <- <-.
    split; [done|]. unfold name_in in Hn. simpl in Hn.
    repeat split; intros ->; discriminate Hn. }
  destruct (String.eqb name "__contains__" && negb (is_nil args)) eqn:Hn;
    [|discriminate].
  apply andb_true_iff in Hn as [Hn _]. read_only H Hn.
Qed.

Lemma committed_heap (self : ConstDictVariable) (d1 dnew : DictObj) (tx : Tx) :
  heap (committed self d1 dnew tx).2 = heap tx ++ [d1; dnew] /\
  heap tx !! items (committed self d1 dnew tx).1 = None /\
  heap (committed self d1 dnew tx).2 !! items (committed self d1 dnew tx).1 = Some dnew.
Proof.
  unfold committed; simpl. repeat split.
  - apply lookup_ge_None_2. lia.
  - change (heap tx ++ [d1; dnew]) with (heap tx ++ [d1] ++ [dnew]).
    rewrite app_assoc.
    replace (S (length (heap tx))) with (length (heap tx ++ [d1]))
      by (rewrite length_app; simpl; lia).
    apply lookup_snoc.
Qed.

(** Every dictionary of the heap stores wrapped keys only. *)
Lemma applied_change_wrapped (tx : Tx) (name : string) (args : list VariableTracker)
    (d0 d1 : DictObj) :
  Forall (fun d : DictObj => Forall (fun kv => wrapped kv.1) d) (heap tx) ->
  Forall (fun kv => wrapped kv.1) d0 ->
  applied_change tx name args d0 d1 ->
  Forall (fun kv => wrapped kv.1) d1.
Proof.
  intros Hh H0 [(_ & a & v & k & _ & Hk & H) | [(_ & a & rest & k & v & _ & _ & H)
                | (_ & other & rest & src & _ & Hs & H)]].
  - eapply dict_setitem_wrapped; [|exact H0|exact H]. by eapply Hashable_init_wrapped.
  - by eapply dict_pop_wrapped.
  - eapply dict_update_wrapped; [|exact H0|exact H].
    assert (Forall (fun d : DictObj => Forall (fun kv => wrapped kv.1) d)
              (heap tx ++ [d0])) as Hall.
    { apply Forall_app. split; [done|]. by constructor. }
    rewrite Forall_lookup in Hall. by eapply Hall.
Qed.

Lemma applied_change_distinct (tx : Tx) (name : string) (args : list VariableTracker)
    (d0 d1 : DictObj) :
  distinct_keys d0 -> applied_change tx name args d0 d1 -> distinct_keys d1.
Proof.
  intros H0 [(_ & a & v & k & _ & Hk & H) | [(_ & a & rest & k & v & _ & _ & H)
             | (_ & other & rest & src & _ & Hs & H)]].
  - by eapply dict_setitem_distinct.
  - by eapply dict_pop_distinct.
  - by eapply dict_update_distinct.
Qed.

Lemma heap_ok_lookup (tx : Tx) (a : addr) (d : DictObj) :
  heap_ok tx -> heap tx !! a = Some d -> wf_dict d.
Proof. unfold heap_ok. rewrite Forall_lookup. eauto. Qed.

Lemma heap_ok_wrapped (tx : Tx) :
  heap_ok tx -> Forall (fun d : DictObj => Forall (fun kv => wrapped kv.1) d) (heap tx).
Proof. unfold heap_ok. intros H. eapply Forall_impl; [exact H|]. by intros d [Hw _]. Qed.

Lemma ConstDictVariable_call_method_inv_wf (self : ConstDictVariable) (name : string)
    (args : list VariableTracker) (kwargs : list (string * VariableTracker))
    (tx : Tx) (r : VariableTracker) (tx' : Tx) :
  heap_ok tx ->
  ConstDictVariable_call_method self name args kwargs tx = Ok (r, tx') ->
  (tx' = tx /\ name <> "__setitem__" /\ name <> "update" /\
   (name = "pop" ->
    exists a k d0, args = [a; r] /\ Hashable_init a = Ok k /\
                   heap tx !! items self = Some d0 /\
                   dict_contains key_matches k d0 = Ok false)) \/
  exists d0 d1,
    mutable_local self = true /\
    heap tx !! items self = Some d0 /\
    applied_change tx name args d0 d1 /\
    wf_dict d1 /\
    tx' = (committed self d1 (stored_items self d1) tx).2 /\
    (name = "pop" \/
     r = DictVariable (committed self d1 (stored_items self d1) tx).1).
Proof.
  intros Hok H.
  apply ConstDictVariable_call_method_inv in H
    as [H | (d0 & dtmp & d1 & dnew & Hm & Hd0 & Hcopy & Hch & -> & Hd & _ & Hr)];
    [by left | right].
  pose proof (heap_ok_lookup _ _ _ Hok Hd0) as [Hw0 Hdist0].
  rewrite (dict_copy _ Hdist0) in Hcopy. injection Hcopy as <-.
  assert (wf_dict d1) as Hwf1.
  { split; [eapply applied_change_wrapped | eapply applied_change_distinct]; eauto.
    by apply heap_ok_wrapped. }
  rewrite (Hd (proj2 Hwf1)) in *. exists d0, d1. repeat split; auto; apply Hwf1.
Qed.

Lemma ConstDictVariable_call_method_heap_ok (self : ConstDictVariable) (name : string)
    (args : list VariableTracker) (kwargs : list (string * VariableTracker))
    (tx : Tx) (r : VariableTracker) (tx' : Tx) :
  heap_ok tx ->
  ConstDictVariable_call_method self name args kwargs tx = Ok (r, tx') ->
  heap_ok tx'.
Proof.
  intros Hok H.
  destruct (ConstDictVariable_call_method_inv_wf _ _ _ _ _ _ _ Hok H)
    as [[-> _] | (d0 & d1 & _ & _ & _ & Hwf & -> & _)]; [done|].
  unfold heap_ok. rewrite (proj1 (committed_heap _ _ _ _)).
  apply Forall_app. split; [done|].
  repeat constructor; try apply Hwf; by apply wf_dict_stored.
Qed.

(** ** Copy-on-write *)


(** ** Iteration order *)

(** The host language hashes equal keys alike. *)
Hypothesis hash_respects_eq : forall a b, eq_spec a b = true -> hash a = hash b.

Lemma key_matches_sound (s p : Hashable) (b : bool) :
  key_matches s p = Ok b -> b = Spec_key_equal (vt s) (vt p).
Proof.
  unfold key_matches, Hashable_hash, Hashable_eq, underlying_value, Spec_key_equal.
  intros H. inv_steps H.
  destruct (project (vt p)) as [pb|] eqn:Ep; [|discriminate].
  destruct (project (vt s)) as [pa|] eqn:Es; [|discriminate].
  simpl in E, E0. injection E as <-. injection E0 as <-.
  destruct (Z.eqb (hash pa) (hash pb)) eqn:Hh.
  - simpl in H. by apply _eq_impl_sound.
  - injection H as <-. destruct (eq_spec pa pb) eqn:He; [|done].
    apply hash_respects_eq in He. apply Z.eqb_neq in Hh. congruence.
Qed.

Lemma Spec_key_equal_euclid (a b c : VariableTracker) :
  Spec_key_equal a c = true -> Spec_key_equal b c = true -> Spec_key_equal a b = true.
Proof.
  unfold Spec_key_equal.
  destruct (project a), (project b), (project c); try discriminate.
  intros H1 H2. rewrite eq_spec_sym in H2. by eapply eq_spec_trans.
Qed.


Lemma absent_filter (k : Hashable) (d : DictObj) :
  absent key_matches k d ->
  filter (fun s => negb (Spec_key_equal s (vt k))) (keys_of d) = keys_of d.
Proof.
  induction 1 as [|[k' v'] d Hk _ IH]; simpl; [done|].
  apply key_matches_sound in Hk. simpl in Hk.
  rewrite filter_cons, <- Hk. simpl. by rewrite IH.
Qed.


Lemma dict_pop_keys (k : Hashable) (v : VariableTracker) (d d' : DictObj) :
  distinct_keys d -> dict_pop key_matches k d = Ok (v, d') ->
  keys_of d' = filter (fun s => negb (Spec_key_equal s (vt k))) (keys_of d).
Proof.
  intros Hd (d1 & k' & d2 & -> & -> & Ha & Hk)%dict_pop_inv.
  apply key_matches_sound in Hk.
  apply distinct_keys_app in Hd as (_ & [Hd2 _] & _).
  unfold keys_of. rewrite !map_app, !filter_app. simpl.
  rewrite filter_cons, <- Hk. simpl. f_equal; [symmetry; by apply absent_filter|].
  clear Ha. symmetry. induction d2 as [|[k2 v2] d2 IH]; simpl; [done|].
  apply Forall_cons in Hd2 as [H2 Hd2]. simpl in H2.
  apply key_matches_sound in H2.
  rewrite filter_cons.
  destruct (Spec_key_equal (vt k2) (vt k)) eqn:E; simpl.
  - symmetry in Hk. rewrite (Spec_key_equal_euclid _ _ _ Hk E) in H2. discriminate.
  - by rewrite IH.
Qed.




(** ** [pop] *)

Lemma pop_unfold (self : ConstDictVariable) (a : VariableTracker)
    (rest : list VariableTracker) (kwargs : list (string * VariableTracker)) (tx : Tx) :
  ConstDictVariable_call_method self "pop" (a :: rest) kwargs tx =
  (missing ← (if is_hashable a then
                b ← key_in_items self a tx;
                Ok (negb b && Nat.eqb (length (a :: rest)) 2)
              else Ok false);
   if missing : bool then
     v ← arg1 (a :: rest);
     Ok (v, tx)
   else if is_hashable a && mutable_local self then
     '(newval, tx1) ← OrderedDict_copy (items self) tx;
     k ← Hashable_init a;
     d ← heap_read newval tx1;
     '(result, d') ← dict_pop key_matches k d;
     let tx2 := heap_write newval d' tx1 in
     '(new, tx3) ← modifed self newval tx2;
     '(_, tx4) ← replace_all self new tx3;
     Ok (result, tx4)
   else Raise Unsupported).
Proof.
  unfold ConstDictVariable_call_method. destruct (is_hashable a); reflexivity.
Qed.

Lemma key_in_items_eq (self : ConstDictVariable) (a : VariableTracker) (k : Hashable)
    (tx : Tx) (d0 : DictObj) :
  heap tx !! items self = Some d0 ->
  Hashable_init a = Ok k ->
  key_in_items self a tx = dict_contains key_matches k d0.
Proof.
  intros Hd0 Hk. unfold key_in_items. by rewrite Hk, (heap_read_ok _ _ _ Hd0).
Qed.

Lemma pop_absent_default (self : ConstDictVariable) (a default : VariableTracker)
    (k : Hashable) (kwargs : list (string * VariableTracker)) (tx : Tx) (d0 : DictObj) :
  heap tx !! items self = Some d0 ->
  Hashable_init a = Ok k ->
  dict_contains key_matches k d0 = Ok false ->
  ConstDictVariable_call_method self "pop" [a; default] kwargs tx = Ok (default, tx).
Proof.
  intros Hd0 Hk Hc. pose proof (Hashable_init_inv _ _ Hk) as [Hh _].
  by rewrite pop_unfold, Hh, (key_in_items_eq _ _ _ _ _ Hd0 Hk), Hc.
Qed.

Lemma pop_absent_no_default (self : ConstDictVariable) (a : VariableTracker)
    (k : Hashable) (kwargs : list (string * VariableTracker)) (tx : Tx) (d0 : DictObj) :
  heap tx !! items self = Some d0 ->
  distinct_keys d0 ->
  Hashable_init a = Ok k ->
  dict_contains key_matches k d0 = Ok false ->
  mutable_local self = true ->
  ConstDictVariable_call_method self "pop" [a] kwargs tx = Raise KeyError.
Proof.
  intros Hd0 Hdist0 Hk Hc Hm. pose proof (Hashable_init_inv _ _ Hk) as [Hh _].
  rewrite pop_unfold, Hh, Hm, (key_in_items_eq _ _ _ _ _ Hd0 Hk), Hc.
  cbn [mbind res_bind negb andb length Nat.eqb].
  rewrite (OrderedDict_copy_ok _ _ _ Hd0 Hdist0). cbn [mbind res_bind].
  rewrite Hk. cbn [mbind res_bind]. unfold heap_read. cbn [heap set_heap].
  rewrite lookup_snoc. cbn [mbind res_bind].
  apply dict_contains_false in Hc.
  destruct (dict_absent _ _ _ Hc) as (_ & _ & _ & ->). reflexivity.
Qed.

Lemma pop_present (self : ConstDictVariable) (a : VariableTracker)
    (rest : list VariableTracker) (k : Hashable)
    (kwargs : list (string * VariableTracker)) (tx : Tx) (d0 : DictObj) :
  heap tx !! items self = Some d0 ->
  distinct_keys d0 ->
  Hashable_init a = Ok k ->
  dict_contains key_matches k d0 = Ok true ->
  mutable_local self = true -> class_ok self ->
  exists v d1,
    dict_getitem key_matches k d0 = Ok v /\
    dict_pop key_matches k d0 = Ok (v, d1) /\
    ConstDictVariable_call_method self "pop" (a :: rest) kwargs tx =
      Ok (v, (committed self d1 (stored_items self d1) tx).2).
Proof.
  intros Hd0 Hdist0 Hk Hc Hm Hcls. pose proof (Hashable_init_inv _ _ Hk) as [Hh _].
  destruct (dict_contains_true _ _ _ Hc) as (l1 & k' & v & l2 & -> & Ha & Hk').
  destruct (dict_found key_matches k l1 k' v l2 Ha Hk') as (_ & Hget & _ & Hpop).
  exists v, (l1 ++ l2). repeat split; auto.
  rewrite pop_unfold, Hh, Hm, (key_in_items_eq _ _ _ _ _ Hd0 Hk), Hc.
  cbn [mbind res_bind negb andb].
  rewrite (OrderedDict_copy_ok _ _ _ Hd0 Hdist0). cbn [mbind res_bind].
  rewrite Hk. cbn [mbind res_bind]. unfold heap_read at 1. cbn [heap set_heap].
  rewrite lookup_snoc. cbn [mbind res_bind]. rewrite Hpop. cbn [mbind res_bind].
  pose proof (commit_ok self (l1 ++ (k', v) :: l2) (l1 ++ l2) tx
                (distinct_keys_delete _ _ _ Hdist0) Hcls) as Hcommit.
  destruct (modifed _ _ _) as [[new tx3]|]; [|discriminate].
  cbn [mbind res_bind] in Hcommit |- *. rewrite Hcommit. reflexivity.
Qed.

(** C4, amended.  For a key the wrapper accepts and whose membership
    test on the stored entries completes: when the key is absent and a
    default is given, [pop] returns the default and leaves the state as
    it was; on a container with [mutable_local] set, when the key is
    absent and no default is given [pop] raises KeyError, and when the
    key is present [pop] returns the value bound to it and publishes a
    new object whose entries are the old ones without that key (a
    default dictionary is taken with the host class its constructor
    asserts, [class_ok]). *)
Theorem pop_on_mutable_container (self : ConstDictVariable) (a : VariableTracker)
    (k : Hashable) (kwargs : list (string * VariableTracker)) (tx : Tx)
    (d0 : DictObj) (present : bool) :
  heap_ok tx ->
  heap tx !! items self = Some d0 ->
  Hashable_init a = Ok k ->
  dict_contains key_matches k d0 = Ok present ->
  (present = false ->
   forall default, ConstDictVariable_call_method self "pop" [a; default] kwargs tx
                   = Ok (default, tx)) /\
  (present = false -> mutable_local self = true ->
   ConstDictVariable_call_method self "pop" [a] kwargs tx = Raise KeyError) /\
  (present = true -> mutable_local self = true -> class_ok self ->
   forall rest,
   exists v d1,
     dict_getitem key_matches k d0 = Ok v /\
     dict_pop key_matches k d0 = Ok (v, d1) /\
     keys_of d1 = Spec_pop a (keys_of d0) /\
     ConstDictVariable_call_method self "pop" (a :: rest) kwargs tx =
       Ok (v, (committed self d1 (stored_items self d1) tx).2) /\
     heap (committed self d1 (stored_items self d1) tx).2
       !! items (committed self d1 (stored_items self d1) tx).1
       = Some (stored_items self d1)).
Proof.
  intros Hok Hd0 Hk Hc.
  pose proof (heap_ok_lookup _ _ _ Hok Hd0) as [Hw0 Hdist0].
  pose proof (Hashable_init_inv _ _ Hk) as [Hh Hkeq].
  repeat split.
  - intros -> default. by eapply pop_absent_default.
  - intros -> Hm. by eapply pop_absent_no_default.
  - intros -> Hm Hcls rest.
    destruct (pop_present self a rest k kwargs tx d0 Hd0 Hdist0 Hk Hc Hm Hcls)
      as (v & d1 & Hget & Hpop & Hcall).
    exists v, d1.
    destruct (committed_heap self d1 (stored_items self d1) tx) as (_ & _ & Hnew).
    repeat split; auto.
    rewrite (dict_pop_keys _ _ _ _ Hdist0 Hpop). unfold Spec_pop. by rewrite Hkeq.
Qed.

(** ** Sets *)

(** C8.  [getitem_const] of a set raises RuntimeError("Illegal to
    getitem on a set") for every argument, and so does the method
    [__getitem__] of a set for every key: no value is returned. *)
Theorem set_getitem_is_illegal :
  (forall self arg tx,
     SetVariable_getitem_const self arg tx
     = Raise (RuntimeError "Illegal to getitem on a set")) /\
  (forall self key rest kwargs tx,
     klass self = KSet ->
     SetVariable_call_method self "__getitem__" (key :: rest) kwargs tx
     = Raise (RuntimeError "Illegal to getitem on a set")).
Proof.
  split; [reflexivity|].
  intros self key rest kwargs tx Hk.
  unfold SetVariable_call_method, ConstDictVariable_call_method, getitem_const.
  cbn [String.eqb Ascii.eqb Bool.eqb arg0 mbind res_bind]. by rewrite Hk.
Qed.

(** ** Membership *)

(** A probe the wrapper does not accept is in no container. *)
Lemma contains_unhashable_probe (self : ConstDictVariable) (a : VariableTracker)
    (rest : list VariableTracker) (kwargs : list (string * VariableTracker)) (tx : Tx) :
  is_hashable a = false ->
  ConstDictVariable_call_method self "__contains__" (a :: rest) kwargs tx
  = Ok (ConstantVariable (LBool false), tx).
Proof.
  intros H. unfold ConstDictVariable_call_method.
  cbn [String.eqb Ascii.eqb Bool.eqb andb name_in existsb orb is_nil negb].
  rewrite H. reflexivity.
Qed.

(** A probe the wrapper accepts gets the result of the lookup. *)
Lemma contains_hashable_probe (self : ConstDictVariable) (a : VariableTracker)
    (rest : list VariableTracker) (kwargs : list (string * VariableTracker)) (tx : Tx) :
  is_hashable a = true ->
  ConstDictVariable_call_method self "__contains__" (a :: rest) kwargs tx
  = (b ← key_in_items self a tx; Ok (ConstantVariable (LBool b), tx)).
Proof.
  intros H. unfold ConstDictVariable_call_method.
  cbn [String.eqb Ascii.eqb Bool.eqb andb name_in existsb orb is_nil negb].
  rewrite H. cbn [arg0 mbind res_bind andb]. by destruct (key_in_items self a tx).
Qed.

(** A wrapped key matches itself, unless it is a non-empty tuple. *)
Lemma project_tuple_inv (x : VariableTracker) (y : PyVal) (l : list PyVal) :
  project x = Ok (PyTuple (y :: l)) -> exists e es, x = TupleVariable (e :: es).
Proof.
  destruct x as [c|h|[t|]|[|e es]|es|f|c m|o n|d|d|d]; simpl; try discriminate; eauto.
Qed.





(** ** Stored keys are hashable *)

Lemma keys_hashable_read (tx : Tx) (a : addr) (d : DictObj) :
  keys_hashable tx -> heap tx !! a = Some d -> Forall (fun kv => wrapped kv.1) d.
Proof. unfold keys_hashable. rewrite Forall_lookup. eauto. Qed.

Lemma keys_hashable_alloc (tx : Tx) (d : DictObj) :
  keys_hashable tx -> Forall (fun kv => wrapped kv.1) d ->
  keys_hashable (set_heap (heap tx ++ [d]) tx).
Proof.
  unfold keys_hashable. simpl. intros H Hd. apply Forall_app. split; [done|].
  by constructor.
Qed.

Lemma keys_hashable_write (tx : Tx) (a : addr) (d : DictObj) :
  keys_hashable tx -> Forall (fun kv => wrapped kv.1) d ->
  keys_hashable (heap_write a d tx).
Proof. unfold keys_hashable. simpl. intros H Hd. by apply Forall_insert. Qed.

Lemma comprehension_wrapped
    (its : list ((Hashable + VariableTracker) * VariableTracker)) (acc d : DictObj) :
  Forall (fun x => match x.1 with inl k => wrapped k | inr _ => True end) its ->
  Forall (fun kv => wrapped kv.1) acc ->
  comprehension its acc = Ok d ->
  Forall (fun kv => wrapped kv.1) d.
Proof.
  revert acc. induction its as [|[x v] its IH]; simpl; intros acc Hits Hacc H.
  - congruence.
  - inv_steps H. apply Forall_cons in Hits as [Hx Hits].
    eapply IH; [done| |exact H].
    eapply dict_setitem_wrapped; [|exact Hacc|exact E0].
    destruct x as [k|y]; simpl in E, Hx; [by injection E as <-|].
    by eapply Hashable_init_wrapped.
Qed.

Lemma ConstDictVariable_init_keys_hashable
    (its : list ((Hashable + VariableTracker) * VariableTracker))
    (ucls : UserCls) (ml : bool) (kl : Klass) (df : option Factory)
    (tx : Tx) (self : ConstDictVariable) (tx' : Tx) :
  keys_hashable tx ->
  Forall (fun x => match x.1 with inl k => wrapped k | inr _ => True end) its ->
  ConstDictVariable_init its ucls ml kl df tx = Ok (self, tx') ->
  keys_hashable tx'.
Proof.
  intros Hh Hits H. unfold ConstDictVariable_init in H. inv_bind H.
  unfold heap_alloc in H. injection H as _ <-.
  apply keys_hashable_alloc; [done|].
  eapply comprehension_wrapped; [exact Hits|constructor|exact E].
Qed.

Lemma ConstDictVariable_call_method_keys_hashable (self : ConstDictVariable)
    (name : string) (args : list VariableTracker)
    (kwargs : list (string * VariableTracker)) (tx : Tx) (r : VariableTracker) (tx' : Tx) :
  keys_hashable tx ->
  ConstDictVariable_call_method self name args kwargs tx = Ok (r, tx') ->
  keys_hashable tx'.
Proof.
  intros Hh H.
  apply ConstDictVariable_call_method_inv in H
    as [[-> _] | (d0 & dtmp & d1 & dnew & _ & Hd0 & Hcopy & Hch & -> & _ & Hw & _)];
    [done|].
  pose proof (keys_hashable_read _ _ _ Hh Hd0) as Hw0.
  assert (Forall (fun kv => wrapped kv.1) dtmp) as Hwt.
  { eapply dict_update_wrapped; [exact Hw0|constructor|exact Hcopy]. }
  assert (Forall (fun kv => wrapped kv.1) d1) as Hw1.
  { eapply applied_change_wrapped; [exact Hh|exact Hwt|exact Hch]. }
  unfold keys_hashable. rewrite (proj1 (committed_heap _ _ _ _)).
  apply Forall_app. split; [done|]. repeat constructor; auto.
Qed.

Lemma SetVariable_call_method_keys_hashable (self : ConstDictVariable)
    (name : string) (args : list VariableTracker)
    (kwargs : list (string * VariableTracker)) (tx : Tx) (r : VariableTracker) (tx' : Tx) :
  keys_hashable tx ->
  SetVariable_call_method self name args kwargs tx = Ok (r, tx') ->
  keys_hashable tx'.
Proof.
  intros Hh H. unfold SetVariable_call_method in H.
  destruct (String.eqb name "add").
  { inv_steps H. by eapply ConstDictVariable_call_method_keys_hashable. }
  destruct (String.eqb name "pop").
  { inv_steps H. injection H as _ <-.
    by eapply ConstDictVariable_call_method_keys_hashable. }
  by eapply ConstDictVariable_call_method_keys_hashable.
Qed.

Lemma call_function_keys_hashable (f : Factory) (tx : Tx) (v : VariableTracker) (tx' : Tx) :
  keys_hashable tx -> call_function f tx = Ok (v, tx') -> keys_hashable tx'.
Proof.
  intros Hh H. unfold call_function in H.
  destruct f; try (injection H as _ <-; exact Hh).
  - inv_steps H. injection H as _ <-.
    eapply ConstDictVariable_init_keys_hashable; [| |exact E]; [exact Hh|constructor].
  - inv_steps H. injection H as _ <-. exact Hh.
Qed.

Lemma modifed_keys_hashable (self : ConstDictVariable) (n : addr) (tx : Tx)
    (new : ConstDictVariable) (tx' : Tx) :
  keys_hashable tx -> modifed self n tx = Ok (new, tx') -> keys_hashable tx'.
Proof.
  intros Hh (d & dnew & Hd & _ & -> & _ & Hw)%modifed_inv.
  apply keys_hashable_alloc; [done|]. apply Hw. by eapply keys_hashable_read.
Qed.

Lemma DefaultDictVariable_call_method_keys_hashable (self : ConstDictVariable)
    (name : string) (args : list VariableTracker)
    (kwargs : list (string * VariableTracker)) (tx : Tx) (r : VariableTracker) (tx' : Tx) :
  keys_hashable tx ->
  DefaultDictVariable_call_method self name args kwargs tx = Ok (r, tx') ->
  keys_hashable tx'.
Proof.
  intros Hh H. unfold DefaultDictVariable_call_method in H.
  destruct (String.eqb name "__getitem__");
    [|by eapply ConstDictVariable_call_method_keys_hashable].
  inv_steps H. destruct x2.
  { inv_steps H. by injection H as _ <-. }
  destruct (default_factory self) as [f|]; [|discriminate].
  inv_steps H. injection H as _ <-. heap_inv.
  repeat match goal with
  | Hc : OrderedDict_copy _ _ = Ok _ |- _ =>
      apply OrderedDict_copy_inv in Hc as (d0 & dtmp & Hd0 & Hcopy & -> & ->)
  | Hr : replace_all _ _ _ = Ok _ |- _ => unfold replace_all in Hr; injection Hr as _ <-
  end.
  assert (keys_hashable (set_heap (heap tx ++ [dtmp]) tx)) as H1.
  { apply keys_hashable_alloc; [done|].
    eapply dict_update_wrapped; [|constructor|exact Hcopy].
    by eapply keys_hashable_read. }
  match goal with
  | Hc : call_function _ _ = Ok (_, ?t0), Hm : modifed _ _ (heap_write _ ?d2 ?t0) = Ok _,
    Hs : dict_setitem _ ?k _ ?d1 = Ok ?d2, Hd1 : heap ?t0 !! _ = Some ?d1,
    Hk : Hashable_init _ = Ok ?k |- _ =>
      pose proof (call_function_keys_hashable _ _ _ _ H1 Hc) as H2;
      assert (keys_hashable (heap_write (length (heap tx)) d2 t0)) as H3;
      [ apply keys_hashable_write; [exact H2|];
        eapply dict_setitem_wrapped; [|exact (keys_hashable_read _ _ _ H2 Hd1)|exact Hs];
        exact (Hashable_init_wrapped _ _ Hk)
      | pose proof (modifed_keys_hashable _ _ _ _ _ H3 Hm) as H4 ]
  end.
  exact H4.
Qed.

(** C10.  The constructor of the key wrapper accepts a tracker only if
    it is hashable and raises AssertionError otherwise; a wrapped key
    has a projection, so its hash and the two projections that
    [__eq__] compares are defined.  The constructor of a container and
    every call of [call_method] of [ConstDictVariable],
    [DefaultDictVariable] and [SetVariable] keep the invariant that
    every key stored in a dictionary of the heap is a wrapped key. *)
Theorem stored_keys_are_hashable :
  (forall x k, Hashable_init x = Ok k ->
               wrapped k /\ is_hashable (vt k) = true) /\
  (forall x, is_hashable (specialize_symnode x) = false ->
             Hashable_init x = Raise AssertionError) /\
  (forall k, wrapped k ->
             exists a, underlying_value k = Ok a /\ Hashable_hash k = Ok (hash a)) /\
  (forall k1 k2, wrapped k1 -> wrapped k2 ->
                 exists a b, underlying_value k1 = Ok a /\ underlying_value k2 = Ok b /\
                             Hashable_eq k1 k2 = _eq_impl a b) /\
  (forall its ucls ml kl df tx self tx',
     keys_hashable tx ->
     Forall (fun x => match x.1 with inl k => wrapped k | inr _ => True end) its ->
     ConstDictVariable_init its ucls ml kl df tx = Ok (self, tx') ->
     keys_hashable tx') /\
  (forall self name args kwargs tx r tx',
     keys_hashable tx ->
     ConstDictVariable_call_method self name args kwargs tx = Ok (r, tx') \/
     DefaultDictVariable_call_method self name args kwargs tx = Ok (r, tx') \/
     SetVariable_call_method self name args kwargs tx = Ok (r, tx') ->
     keys_hashable tx').
Proof.
  split; [|split; [|split; [|split; [|split]]]].
  - intros x k H. pose proof (Hashable_init_wrapped _ _ H) as Hw.
    split; [exact Hw | apply Hw].
  - intros x Hx. unfold Hashable_init. by rewrite Hx.
  - intros k Hw. destruct (underlying_value_wrapped _ Hw) as [a Ha].
    exists a. split; [done|]. unfold Hashable_hash. by rewrite Ha.
  - intros k1 k2 Hw1 Hw2.
    destruct (underlying_value_wrapped _ Hw1) as [a Ha].
    destruct (underlying_value_wrapped _ Hw2) as [b Hb].
    exists a, b. repeat split; auto. unfold Hashable_eq. by rewrite Ha, Hb.
  - intros. by eapply ConstDictVariable_init_keys_hashable.
  - intros self name args kwargs tx r tx' Hh [H | [H | H]].
    + by eapply ConstDictVariable_call_method_keys_hashable.
    + by eapply DefaultDictVariable_call_method_keys_hashable.
    + by eapply SetVariable_call_method_keys_hashable.
Qed.

(** ** Reconstruction of record adapters *)

Lemma key_matches_same_string (s : string) :
  key_matches (mkHashable (ConstantVariable (LStr s)))
              (mkHashable (ConstantVariable (LStr s))) = Ok true.
Proof.
  unfold key_matches, Hashable_hash, Hashable_eq, underlying_value.
  cbn [vt project as_python_constant mbind res_bind]. rewrite Z.eqb_refl.
  unfold _eq_impl. cbn -[String.eqb]. by rewrite String.eqb_refl.
Qed.





(** ** Default dictionaries *)


Lemma default_lookup_no_factory (self : ConstDictVariable) (a : VariableTracker)
    (k : Hashable) (kwargs : list (string * VariableTracker)) (tx : Tx) (d0 : DictObj) :
  heap tx !! items self = Some d0 ->
  Hashable_init a = Ok k ->
  dict_contains key_matches k d0 = Ok false ->
  default_factory self = None ->
  DefaultDictVariable_call_method self "__getitem__" [a] kwargs tx = Raise KeyError.
Proof.
  intros Hd0 Hk Hc Hf. unfold DefaultDictVariable_call_method.
  cbn [String.eqb Ascii.eqb Bool.eqb arg0 mbind res_bind].
  rewrite Hk. cbn [mbind res_bind]. rewrite (heap_read_ok _ _ _ Hd0).
  cbn [mbind res_bind]. rewrite Hc. cbn [mbind res_bind]. by rewrite Hf.
Qed.



(** ** [__setitem__] on a mutable container returns *)

Lemma setitem_unfold (self : ConstDictVariable) (a v : VariableTracker) (tx : Tx) :
  ConstDictVariable_call_method self "__setitem__" [a; v] [] tx =
  if is_hashable a && mutable_local self then
    k ← Hashable_init a;
    '(newval, tx1) ← OrderedDict_copy (items self) tx;
    d ← heap_read newval tx1;
    d' ← dict_setitem key_matches k v d;
    let tx2 := heap_write newval d' tx1 in
    '(new, tx3) ← modifed self newval tx2;
    replace_all self new tx3
  else Raise Unsupported.
Proof.
  unfold ConstDictVariable_call_method.
  destruct (is_hashable a), (mutable_local self); reflexivity.
Qed.

(** With [mutable_local] set, a key the wrapper accepts and a lookup
    that completes, [__setitem__] returns the new object, whose entries
    are the old ones with the binding set. *)
Lemma setitem_ok (self : ConstDictVariable) (a v : VariableTracker) (k : Hashable)
    (tx : Tx) (d0 : DictObj) (present : bool) :
  heap tx !! items self = Some d0 ->
  distinct_keys d0 ->
  Hashable_init a = Ok k ->
  dict_contains key_matches k d0 = Ok present ->
  mutable_local self = true -> class_ok self ->
  exists d1,
    dict_setitem key_matches k v d0 = Ok d1 /\
    ConstDictVariable_call_method self "__setitem__" [a; v] [] tx =
      Ok (DictVariable (committed self d1 (stored_items self d1) tx).1,
          (committed self d1 (stored_items self d1) tx).2).
Proof.
  intros Hd0 Hdist0 Hk Hc Hm Hcls. pose proof (Hashable_init_inv _ _ Hk) as [Hh _].
  assert (exists d1, dict_setitem key_matches k v d0 = Ok d1) as [d1 Hs].
  { destruct (dict_scan key_matches k d0)
      as [Ha | [(l1 & k' & v' & l2 & -> & Ha & Hk') | (e & E & _)]].
    - destruct (dict_absent _ _ _ Ha) as (_ & _ & E & _). eauto.
    - destruct (dict_found key_matches k l1 k' v' l2 Ha Hk') as (_ & _ & E & _). eauto.
    - congruence. }
  exists d1. split; [exact Hs|].
  rewrite setitem_unfold, Hh, Hm, Hk. cbn [andb mbind res_bind].
  rewrite (OrderedDict_copy_ok _ _ _ Hd0 Hdist0). cbn [mbind res_bind].
  unfold heap_read at 1. cbn [heap set_heap]. rewrite lookup_snoc.
  cbn [mbind res_bind]. rewrite Hs. cbn [mbind res_bind].
  apply commit_ok; [|exact Hcls]. by eapply dict_setitem_distinct.
Qed.

(** ** The positional build of the base class *)

(** [ConstDictVariable.reconstruct] of an ordered dictionary builds the
    map positionally and converts it by a call: the form the record
    adapters avoid. *)
Lemma ConstDictVariable_reconstruct_ordered (self : ConstDictVariable)
    (codegen : Codegen) (tx : Tx) (d : DictObj) :
  user_cls self = cls_OrderedDict ->
  heap tx !! items self = Some d ->
  exists out,
    ConstDictVariable_reconstruct self codegen tx
    = Ok ([BUILD_MAP (length d); CALL_FUNCTION 1 false], out) /\
    existsb positional_build [BUILD_MAP (length d); CALL_FUNCTION 1 false] = true.
Proof.
  intros Hc Hd. unfold ConstDictVariable_reconstruct.
  rewrite Hc, (heap_read_ok _ _ _ Hd). cbn [mbind res_bind bool_decide].
  eexists. split; reflexivity.
Qed.

(** ** Equality of wrapped keys *)

(** X21.  When [__eq__] of two wrapped keys returns, it returns the
    specified equality; it returns whenever the left key is not a
    non-empty tuple. *)
Lemma Hashable_eq_agrees (k1 k2 : Hashable) :
  wrapped k1 -> wrapped k2 ->
  (forall b, Hashable_eq k1 k2 = Ok b -> b = Spec_key_equal (vt k1) (vt k2)) /\
  (match vt k1 with TupleVariable (_ :: _) => False | _ => True end ->
   Hashable_eq k1 k2 = Ok (Spec_key_equal (vt k1) (vt k2))).
Proof.
  intros Hw1 Hw2.
  destruct (underlying_value_wrapped _ Hw1) as [a Ha].
  destruct (underlying_value_wrapped _ Hw2) as [b Hb].
  unfold Hashable_eq, Spec_key_equal. unfold underlying_value in *.
  rewrite Ha, Hb. cbn [mbind res_bind]. split.
  - intros r. apply _eq_impl_sound.
  - intros Hnt. destruct (_eq_impl a b) as [r|e] eqn:E.
    + by rewrite (_eq_impl_sound _ _ _ E).
    + apply _eq_impl_raises in E as (_ & y & la & _ & _ & -> & _).
      apply project_tuple_inv in Ha as (e0 & es & Hx). by rewrite Hx in Hnt.
Qed.

(** Two tensor keys are equal exactly when they are one object,
    whatever their shapes and dtypes. *)
Lemma tensor_keys_compare_by_identity (s t : FakeTensor) :
  Hashable_eq (mkHashable (TensorVariable (Some s)))
              (mkHashable (TensorVariable (Some t)))
  = Ok (Nat.eqb (ft_id s) (ft_id t)).
Proof. reflexivity. Qed.

(** ** Lookups after a change of the entries *)

Section HostDict_lookup.
Context {K V W : Type} (same_key : K -> K -> res bool).

Lemma dict_lookup_snoc (k p : K) (v : V) (d : list (K * V)) :
  same_key k p = Ok false ->
  dict_getitem same_key p (d ++ [(k, v)]) = dict_getitem same_key p d /\
  dict_contains same_key p (d ++ [(k, v)]) = dict_contains same_key p d.
Proof.
  intros H. induction d as [|[k0 v0] d [IH1 IH2]]; simpl.
  - by rewrite H.
  - destruct (same_key k0 p) as [[|]|e]; simpl; auto.
Qed.

Lemma dict_lookup_replace (k' p : K) (v v' : V) (l1 l2 : list (K * V)) :
  same_key k' p <> Ok true ->
  dict_getitem same_key p (l1 ++ (k', v) :: l2)
  = dict_getitem same_key p (l1 ++ (k', v') :: l2).
Proof.
  intros H. induction l1 as [|[k0 v0] l1 IH]; simpl.
  - destruct (same_key k' p) as [[|]|e]; simpl; auto. congruence.
  - destruct (same_key k0 p) as [[|]|e]; simpl; auto.
Qed.

(** Membership looks at the keys only. *)
Lemma dict_contains_fst (p : K) (d : list (K * V)) (d' : list (K * W)) :
  map fst d = map fst d' ->
  dict_contains same_key p d = dict_contains same_key p d'.
Proof.
  revert d'. induction d as [|[k v] d IH]; intros [|[k' w] d']; simpl;
    try discriminate; [done|].
  intros [= <- Hm]. destruct (same_key k p) as [[|]|e]; simpl; auto.
Qed.

Lemma dict_contains_getitem (p : K) (d : list (K * V)) :
  dict_contains same_key p d = Ok true -> exists v, dict_getitem same_key p d = Ok v.
Proof.
  intros (d1 & k' & v' & d2 & -> & Ha & Hk)%dict_contains_true.
  exists v'. by destruct (dict_found same_key p d1 k' v' d2 Ha Hk) as (_ & ? & _).
Qed.
End HostDict_lookup.

Lemma Spec_key_equal_sym (a b : VariableTracker) :
  Spec_key_equal a b = Spec_key_equal b a.
Proof.
  unfold Spec_key_equal. destruct (project a), (project b); auto using eq_spec_sym.
Qed.

(** A probe that some stored key matches does not project to a
    non-empty tuple. *)
Lemma key_matches_true_not_tuple (s p : Hashable) :
  key_matches s p = Ok true ->
  exists b, project (vt p) = Ok b /\
            match b with PyTuple (_ :: _) => False | _ => True end.
Proof.
  unfold key_matches, Hashable_hash, Hashable_eq, underlying_value. intros H.
  destruct (project (vt p)) as [b|] eqn:Ep; [|discriminate].
  destruct (project (vt s)) as [a|] eqn:Es; [|discriminate].
  cbn [mbind res_bind] in H. exists b. split; [done|].
  destruct (Z.eqb (hash a) (hash b)); [|discriminate].
  destruct b as [|[|y lb]| | | |]; try done.
  pose proof (_eq_impl_sound _ _ _ H) as E. symmetry in E.
  destruct a as [[]|la| | | |]; try discriminate E.
  pose proof (eq_spec_tuple_length _ _ E) as Hl.
  destruct la as [|x la]; [discriminate|]. simpl in Hl.
  rewrite _eq_impl_tuple_raises in H by lia. discriminate.
Qed.

Lemma key_matches_calm (p : Hashable) (b : PyVal) :
  project (vt p) = Ok b ->
  match b with PyTuple (_ :: _) => False | _ => True end ->
  calm p.
Proof.
  intros Hp Hb s Hs. destruct (underlying_value_wrapped _ Hs) as [a Ha].
  unfold key_matches, Hashable_hash, Hashable_eq, Spec_key_equal, underlying_value in *.
  rewrite Hp, Ha. cbn [mbind res_bind].
  destruct (_eq_impl a b) as [r|e] eqn:E.
  - apply _eq_impl_sound in E. subst r.
    destruct (Z.eqb (hash a) (hash b)) eqn:Hh; [done|].
    destruct (eq_spec a b) eqn:He; [|done].
    apply hash_respects_eq in He. apply Z.eqb_neq in Hh. congruence.
  - apply _eq_impl_raises in E as (_ & x & la & y & lb & -> & -> & _). done.
Qed.

Lemma key_matches_true_calm (s p : Hashable) : key_matches s p = Ok true -> calm p.
Proof.
  intros (b & Hp & Hb)%key_matches_true_not_tuple. by eapply key_matches_calm.
Qed.

(** On a calm probe, keys that are equal as projections are found and
    missed together. *)
Lemma absent_transfer (k p : Hashable) (d : DictObj) :
  calm p -> Forall (fun kv => wrapped kv.1) d ->
  Spec_key_equal (vt k) (vt p) = true ->
  absent key_matches k d -> absent key_matches p d.
Proof.
  intros Hc Hw Hkp Ha. unfold absent in *.
  induction Ha as [|[k0 v0] d Hk0 _ IH]; [constructor|].
  apply Forall_cons in Hw as [Hw0 Hw]. constructor; [|by apply IH].
  simpl in *. rewrite (Hc _ Hw0). f_equal.
  apply key_matches_sound in Hk0.
  destruct (Spec_key_equal (vt k0) (vt p)) eqn:E; [|done].
  by rewrite (Spec_key_equal_euclid _ _ _ E Hkp) in Hk0.
Qed.

Lemma stored_items_not_set (self : ConstDictVariable) (d : DictObj) :
  klass self <> KSet -> stored_items self d = d.
Proof. unfold stored_items. by destruct (klass self). Qed.

Lemma getitem_const_eq (self : ConstDictVariable) (a : VariableTracker) (k : Hashable)
    (tx : Tx) (d : DictObj) :
  klass self <> KSet -> heap tx !! items self = Some d -> Hashable_init a = Ok k ->
  getitem_const self a tx = dict_getitem key_matches k d.
Proof.
  intros Hk Hd Ha. unfold getitem_const, ConstDictVariable_getitem_const.
  destruct (klass self); try done; by rewrite Ha, (heap_read_ok _ _ _ Hd).
Qed.

(** What a returning [__setitem__] did. *)
Lemma setitem_inv (self : ConstDictVariable) (a v : VariableTracker)
    (kwargs : list (string * VariableTracker)) (tx : Tx) (r : VariableTracker) (tx' : Tx) :
  heap_ok tx ->
  ConstDictVariable_call_method self "__setitem__" [a; v] kwargs tx = Ok (r, tx') ->
  exists k d0 d1,
    Hashable_init a = Ok k /\ heap tx !! items self = Some d0 /\
    dict_setitem key_matches k v d0 = Ok d1 /\ wf_dict d0 /\ wf_dict d1 /\
    mutable_local self = true /\
    tx' = (committed self d1 (stored_items self d1) tx).2 /\
    r = DictVariable (committed self d1 (stored_items self d1) tx).1.
Proof.
  intros Hok H.
  destruct (ConstDictVariable_call_method_inv_wf _ _ _ _ _ _ _ Hok H)
    as [(_ & Hn & _) | (d0 & d1 & Hm & Hd0 & Hch & Hwf & -> & Hr)]; [done|].
  destruct Hr as [Hr | ->]; [discriminate|].
  destruct Hch as [(_ & a' & v' & k & Hargs & Hk & Hs) | [(Hn & _) | (Hn & _)]];
    try discriminate.
  injection Hargs as <- <-. exists k, d0, d1.
  pose proof (heap_ok_lookup _ _ _ Hok Hd0). done.
Qed.

Lemma dict_setitem_lookup_same (k : Hashable) (v : VariableTracker) (d d' : DictObj) :
  key_matches k k = Ok true ->
  dict_setitem key_matches k v d = Ok d' ->
  dict_getitem key_matches k d' = Ok v /\ dict_contains key_matches k d' = Ok true.
Proof.
  intros Hkk [[Ha ->] | (d1 & k' & v' & d2 & -> & -> & Ha & Hk)]%dict_setitem_inv.
  - by destruct (dict_found key_matches k d k v [] Ha Hkk) as (? & ? & _).
  - by destruct (dict_found key_matches k d1 k' v d2 Ha Hk) as (? & ? & _).
Qed.

Lemma dict_setitem_lookup_other (k p : Hashable) (v : VariableTracker) (d d' : DictObj) :
  key_matches k p = Ok false ->
  dict_setitem key_matches k v d = Ok d' ->
  dict_getitem key_matches p d' = dict_getitem key_matches p d /\
  dict_contains key_matches p d' = dict_contains key_matches p d.
Proof.
  intros Hkp Hs. split.
  - apply dict_setitem_inv in Hs as [[Ha ->] | (d1 & k' & v' & d2 & -> & -> & Ha & Hk)].
    + by apply dict_lookup_snoc.
    + apply dict_lookup_replace. intros Hk'.
      apply key_matches_sound in Hkp, Hk, Hk'. symmetry in Hk, Hk'.
      rewrite Spec_key_equal_sym in Hk, Hk'.
      by rewrite (Spec_key_equal_euclid _ _ _ Hk Hk') in Hkp.
  - apply dict_setitem_inv in Hs as [[Ha ->] | (d1 & k' & v' & d2 & -> & -> & Ha & Hk)].
    + by apply dict_lookup_snoc.
    + apply dict_contains_fst. by rewrite !map_app.
Qed.

(** X1.  On a container with [mutable_local] set (not a set), for a key
    the wrapper accepts, whose membership test on the stored entries
    completes and which matches itself: [__setitem__] returns the new
    object, and on that object [__getitem__] of the key returns the
    value just bound and [__contains__] answers True. *)
Theorem setitem_then_getitem (self : ConstDictVariable) (a v : VariableTracker)
    (k : Hashable) (tx : Tx) (d0 : DictObj) (present : bool) :
  heap_ok tx -> heap tx !! items self = Some d0 ->
  Hashable_init a = Ok k ->
  dict_contains key_matches k d0 = Ok present ->
  key_matches k k = Ok true ->
  mutable_local self = true -> class_ok self -> klass self <> KSet ->
  exists new tx',
    ConstDictVariable_call_method self "__setitem__" [a; v] [] tx
      = Ok (DictVariable new, tx') /\
    ConstDictVariable_call_method new "__getitem__" [a] [] tx' = Ok (v, tx') /\
    ConstDictVariable_call_method new "__contains__" [a] [] tx'
      = Ok (ConstantVariable (LBool true), tx').
Proof.
  intros Hok Hd0 Hk Hc Hkk Hm Hcls Hset.
  pose proof (heap_ok_lookup _ _ _ Hok Hd0) as [_ Hdist0].
  destruct (setitem_ok self a v k tx d0 present Hd0 Hdist0 Hk Hc Hm Hcls) as (d1 & Hs & Hcall).
  destruct (committed_heap self d1 (stored_items self d1) tx) as (_ & _ & Hnew).
  rewrite (stored_items_not_set _ _ Hset) in *.
  destruct (dict_setitem_lookup_same _ _ _ _ Hkk Hs) as [Hget Hin].
  pose proof (Hashable_init_inv _ _ Hk) as [Hh _].
  eexists _, _. split; [exact Hcall|]. split.
  - change (ConstDictVariable_call_method ?s "__getitem__" [a] [] ?t)
      with (r ← getitem_const s a t; Ok (r, t)).
    rewrite (getitem_const_eq _ a k _ d1); [by rewrite Hget|exact Hset|exact Hnew|exact Hk].
  - rewrite (contains_hashable_probe _ _ _ _ _ Hh).
    by rewrite (key_in_items_eq _ _ _ _ _ Hnew Hk), Hin.
Qed.

(** X2.  A returning [__setitem__] of a key leaves the binding of
    every other key as it was: for a probe that the written key does
    not match, [getitem_const] and the membership test on the new
    object give what they gave on the old one, errors included. *)
Theorem setitem_keeps_other_bindings (self : ConstDictVariable) (a v b : VariableTracker)
    (k kb : Hashable) (kwargs : list (string * VariableTracker)) (tx : Tx)
    (r : VariableTracker) (tx' : Tx) :
  heap_ok tx -> klass self <> KSet ->
  ConstDictVariable_call_method self "__setitem__" [a; v] kwargs tx = Ok (r, tx') ->
  Hashable_init a = Ok k -> Hashable_init b = Ok kb ->
  key_matches k kb = Ok false ->
  exists new,
    r = DictVariable new /\
    getitem_const new b tx' = getitem_const self b tx /\
    key_in_items new b tx' = key_in_items self b tx.
Proof.
  intros Hok Hset H Hk Hkb Hne.
  destruct (setitem_inv _ _ _ _ _ _ _ Hok H)
    as (k' & d0 & d1 & Hk' & Hd0 & Hs & _ & _ & _ & -> & ->).
  assert (k' = k) as -> by congruence.
  destruct (committed_heap self d1 (stored_items self d1) tx) as (_ & _ & Hnew).
  rewrite (stored_items_not_set _ _ Hset) in *.
  destruct (dict_setitem_lookup_other _ _ _ _ _ Hne Hs) as [Hget Hin].
  eexists. split; [reflexivity|]. split.
  - rewrite (getitem_const_eq _ b kb _ d1); [|exact Hset|exact Hnew|exact Hkb].
    by rewrite (getitem_const_eq _ b kb _ d0).
  - by rewrite (key_in_items_eq _ _ _ _ _ Hnew Hkb), (key_in_items_eq _ _ _ _ _ Hd0 Hkb).
Qed.

(** ** After [pop] *)

Lemma dict_pop_absent_after (k : Hashable) (v : VariableTracker) (d d' : DictObj) :
  wf_dict d -> dict_pop key_matches k d = Ok (v, d') -> absent key_matches k d'.
Proof.
  intros [Hw Hd] (d1 & k' & d2 & -> & -> & Ha & Hk)%dict_pop_inv.
  pose proof (key_matches_true_calm _ _ Hk) as Hc.
  unfold absent. apply Forall_app. split; [exact Ha|].
  apply distinct_keys_app in Hd as (_ & [Hd2 _] & _).
  apply Forall_app in Hw as [_ Hw]. apply Forall_cons in Hw as [_ Hw2].
  rewrite Forall_forall in Hd2, Hw2 |- *. intros [k2 v2] Hin. simpl.
  pose proof (Hc _ (Hw2 _ Hin)) as Hcalm. simpl in Hcalm. rewrite Hcalm. f_equal.
  specialize (Hd2 _ Hin). simpl in Hd2. apply key_matches_sound in Hd2, Hk.
  destruct (Spec_key_equal (vt k2) (vt k)) eqn:E; [|done].
  symmetry in Hk. by rewrite (Spec_key_equal_euclid _ _ _ Hk E) in Hd2.
Qed.

Lemma contains_false (self : ConstDictVariable) (a : VariableTracker) (k : Hashable)
    (tx : Tx) (d : DictObj) :
  heap tx !! items self = Some d -> Hashable_init a = Ok k ->
  dict_contains key_matches k d = Ok false ->
  ConstDictVariable_call_method self "__contains__" [a] [] tx
  = Ok (ConstantVariable (LBool false), tx).
Proof.
  intros Hd Hk Hc. pose proof (Hashable_init_inv _ _ Hk) as [Hh _].
  by rewrite (contains_hashable_probe _ _ _ _ _ Hh), (key_in_items_eq _ _ _ _ _ Hd Hk), Hc.
Qed.

(** X3.  After a returning [pop] of a key, with or without a default,
    the key is not in the container: [__contains__] on the object that
    stands for the container after the call (the same object when
    nothing was removed, the published one otherwise) answers
    False. *)
Theorem pop_then_contains_is_false (self : ConstDictVariable) (a : VariableTracker)
    (rest : list VariableTracker) (kwargs : list (string * VariableTracker))
    (tx : Tx) (r : VariableTracker) (tx' : Tx) :
  heap_ok tx ->
  ConstDictVariable_call_method self "pop" (a :: rest) kwargs tx = Ok (r, tx') ->
  exists self',
    (tx' = tx /\ self' = self \/ replaced tx' = (self, self') :: replaced tx) /\
    ConstDictVariable_call_method self' "__contains__" [a] [] tx'
      = Ok (ConstantVariable (LBool false), tx').
Proof.
  intros Hok H.
  destruct (ConstDictVariable_call_method_inv_wf _ _ _ _ _ _ _ Hok H)
    as [(-> & _ & _ & Hpop) | (d0 & d1 & _ & Hd0 & Hch & _ & -> & _)].
  - destruct (Hpop eq_refl) as (a0 & k & d0 & [= <- _] & Hk & Hd0 & Hc).
    exists self. split; [by left|]. by eapply contains_false.
  - destruct Hch as [(Hn & _) | [(_ & a' & rest' & k & v & [= <- _] & Hk & Hp) | (Hn & _)]];
      try discriminate.
    destruct (committed_heap self d1 (stored_items self d1) tx) as (_ & _ & Hnew).
    exists (committed self d1 (stored_items self d1) tx).1. split; [by right|].
    eapply contains_false; [exact Hnew|exact Hk|].
    rewrite (dict_contains_fst key_matches k _ d1) by apply stored_items_keys.
    apply dict_absent. eapply dict_pop_absent_after; [|exact Hp].
    by eapply heap_ok_lookup.
Qed.

(** ** Length *)

Lemma len_unfold (self : ConstDictVariable) (tx : Tx) :
  ConstDictVariable_call_method self "__len__" [] [] tx =
  (d ← heap_read (items self) tx;
   Ok (ConstantVariable (LInt (Z.of_nat (length d))), tx)).
Proof. reflexivity. Qed.

Lemma stored_items_length (self : ConstDictVariable) (d : DictObj) :
  length (stored_items self d) = length d.
Proof. unfold stored_items. destruct (klass self); try done. apply length_map. Qed.

(** X4.  A returning [__setitem__] changes the length by the
    membership of the key: the new object has the length of the old
    one when the key was in it, and one more when it was not. *)
Theorem setitem_changes_len_by_membership (self : ConstDictVariable)
    (a v : VariableTracker) (kwargs : list (string * VariableTracker)) (tx : Tx)
    (r : VariableTracker) (tx' : Tx) (n : Z) (present : bool) :
  heap_ok tx ->
  ConstDictVariable_call_method self "__setitem__" [a; v] kwargs tx = Ok (r, tx') ->
  ConstDictVariable_call_method self "__len__" [] [] tx
    = Ok (ConstantVariable (LInt n), tx) ->
  key_in_items self a tx = Ok present ->
  exists new,
    r = DictVariable new /\
    ConstDictVariable_call_method new "__len__" [] [] tx'
      = Ok (ConstantVariable (LInt (if present then n else (n + 1)%Z)), tx').
Proof.
  intros Hok H Hlen Hin.
  destruct (setitem_inv _ _ _ _ _ _ _ Hok H)
    as (k & d0 & d1 & Hk & Hd0 & Hs & _ & _ & _ & -> & ->).
  destruct (committed_heap self d1 (stored_items self d1) tx) as (_ & _ & Hnew).
  rewrite len_unfold, (heap_read_ok _ _ _ Hd0) in Hlen. injection Hlen as <-.
  rewrite (key_in_items_eq _ _ _ _ _ Hd0 Hk) in Hin.
  eexists. split; [reflexivity|].
  rewrite len_unfold, (heap_read_ok _ _ _ Hnew). cbn [mbind res_bind].
  rewrite stored_items_length.
  assert (Z.of_nat (length d1)
          = if present then Z.of_nat (length d0) else (Z.of_nat (length d0) + 1)%Z) as ->;
    [|reflexivity].
  apply dict_setitem_inv in Hs as [[Ha ->] | (l1 & k' & v' & l2 & -> & -> & Ha & Hk')].
  - destruct (dict_absent _ _ _ Ha) as (Hc & _). rewrite Hc in Hin. injection Hin as <-.
    rewrite length_app. simpl. lia.
  - destruct (dict_found key_matches k l1 k' v' l2 Ha Hk') as (Hc & _).
    rewrite Hc in Hin. injection Hin as <-. rewrite !length_app. reflexivity.
Qed.

(** ** [get] and [__getitem__] *)

Lemma get_unfold (self : ConstDictVariable) (a : VariableTracker)
    (rest : list VariableTracker) (kwargs : list (string * VariableTracker)) (tx : Tx) :
  ConstDictVariable_call_method self "get" (a :: rest) kwargs tx =
  (missing ← (if is_hashable a then
                b ← key_in_items self a tx;
                Ok (negb b && Nat.eqb (length (a :: rest)) 2)
              else Ok false);
   if missing : bool then
     v ← arg1 (a :: rest);
     Ok (v, tx)
   else
     present ← (if is_hashable a then key_in_items self a tx else Ok false);
     if present : bool then
       k ← Hashable_init a;
       d ← heap_read (items self) tx;
       result ← dict_getitem key_matches k d;
       Ok (result, tx)
     else VariableTracker_call_method "get" (a :: rest) tx).
Proof.
  unfold ConstDictVariable_call_method. destruct (is_hashable a); reflexivity.
Qed.

Lemma read_only_method (self : ConstDictVariable) (name : string)
    (args : list VariableTracker) (kwargs : list (string * VariableTracker))
    (tx : Tx) (r : VariableTracker) (tx' : Tx) :
  name <> "__setitem__" -> name <> "pop" -> name <> "update" ->
  ConstDictVariable_call_method self name args kwargs tx = Ok (r, tx') -> tx' = tx.
Proof.
  intros H1 H2 H3 H.
  apply ConstDictVariable_call_method_inv in H
    as [[-> _] | (d0 & dtmp & d1 & dnew & _ & _ & _ & Hch & _)]; [done|].
  destruct Hch as [(Hn & _) | [(Hn & _) | (Hn & _)]]; done.
Qed.

(** X5.  [get] never changes the state.  For a key the wrapper
    accepts: when the key is in the container [get] returns the value
    bound to it; when it is not and a default is given, [get] returns
    the default; when it is not and no default is given, the call is
    not answered by the container: it ends in the method of the base
    class (the host language would answer None). *)
Theorem get_answers_without_mutation (self : ConstDictVariable) :
  (forall args kwargs tx r tx',
     ConstDictVariable_call_method self "get" args kwargs tx = Ok (r, tx') -> tx' = tx) /\
  (forall a rest kwargs tx d0 k,
     heap tx !! items self = Some d0 -> Hashable_init a = Ok k ->
     dict_contains key_matches k d0 = Ok true ->
     exists v, dict_getitem key_matches k d0 = Ok v /\
               ConstDictVariable_call_method self "get" (a :: rest) kwargs tx = Ok (v, tx)) /\
  (forall a default kwargs tx d0 k,
     heap tx !! items self = Some d0 -> Hashable_init a = Ok k ->
     dict_contains key_matches k d0 = Ok false ->
     ConstDictVariable_call_method self "get" [a; default] kwargs tx = Ok (default, tx)) /\
  (forall a kwargs tx d0 k,
     heap tx !! items self = Some d0 -> Hashable_init a = Ok k ->
     dict_contains key_matches k d0 = Ok false ->
     ConstDictVariable_call_method self "get" [a] kwargs tx
     = VariableTracker_call_method "get" [a] tx).
Proof.
  split; [|split; [|split]].
  - intros args kwargs tx r tx' H.
    eapply read_only_method; [| | |exact H]; discriminate.
  - intros a rest kwargs tx d0 k Hd0 Hk Hc.
    pose proof (Hashable_init_inv _ _ Hk) as [Hh _].
    destruct (dict_contains_getitem _ _ _ Hc) as [v Hv]. exists v. split; [done|].
    rewrite get_unfold, Hh, (key_in_items_eq _ _ _ _ _ Hd0 Hk), Hc.
    cbn [mbind res_bind negb andb]. rewrite Hk. cbn [mbind res_bind].
    rewrite (heap_read_ok _ _ _ Hd0). cbn [mbind res_bind]. by rewrite Hv.
  - intros a default kwargs tx d0 k Hd0 Hk Hc.
    pose proof (Hashable_init_inv _ _ Hk) as [Hh _].
    by rewrite get_unfold, Hh, (key_in_items_eq _ _ _ _ _ Hd0 Hk), Hc.
  - intros a kwargs tx d0 k Hd0 Hk Hc.
    pose proof (Hashable_init_inv _ _ Hk) as [Hh _].
    by rewrite get_unfold, Hh, (key_in_items_eq _ _ _ _ _ Hd0 Hk), Hc.
Qed.

(** X6.  [__getitem__] on a container that is not a set: with no
    argument it raises IndexError, with a key the wrapper does not
    accept AssertionError, with a key that is not in the container
    KeyError; and when it returns, the state is as it was. *)
Theorem getitem_errors (self : ConstDictVariable) (tx : Tx) :
  klass self <> KSet ->
  (forall kwargs,
     ConstDictVariable_call_method self "__getitem__" [] kwargs tx = Raise IndexError) /\
  (forall a rest kwargs,
     is_hashable a = false ->
     ConstDictVariable_call_method self "__getitem__" (a :: rest) kwargs tx
     = Raise AssertionError) /\
  (forall a rest kwargs k d0,
     heap tx !! items self = Some d0 -> Hashable_init a = Ok k ->
     dict_contains key_matches k d0 = Ok false ->
     ConstDictVariable_call_method self "__getitem__" (a :: rest) kwargs tx
     = Raise KeyError) /\
  (forall args kwargs r tx',
     ConstDictVariable_call_method self "__getitem__" args kwargs tx = Ok (r, tx') ->
     tx' = tx).
Proof.
  intros Hset. split; [|split; [|split]].
  - reflexivity.
  - intros a rest kwargs Hh.
    change (ConstDictVariable_call_method self "__getitem__" (a :: rest) kwargs tx)
      with (r ← getitem_const self a tx; Ok (r, tx)).
    unfold getitem_const, ConstDictVariable_getitem_const.
    destruct (klass self); try done; by rewrite (Hashable_init_unhashable _ Hh).
  - intros a rest kwargs k d0 Hd0 Hk Hc.
    change (ConstDictVariable_call_method self "__getitem__" (a :: rest) kwargs tx)
      with (r ← getitem_const self a tx; Ok (r, tx)).
    rewrite (getitem_const_eq _ _ _ _ _ Hset Hd0 Hk).
    apply dict_contains_false in Hc.
    by destruct (dict_absent _ _ _ Hc) as (_ & -> & _).
  - intros args kwargs r tx' H.
    eapply read_only_method; [| | |exact H]; discriminate.
Qed.

(** ** Containers without [mutable_local] *)

(** X7.  A container without [mutable_local] is never replaced: every
    returning call of [call_method] of [ConstDictVariable] and of
    [SetVariable] on it leaves the state, with the heap, the live
    references and the log of [replace_all], as it was. *)
Theorem immutable_container_is_never_replaced (self : ConstDictVariable) (name : string)
    (args : list VariableTracker) (kwargs : list (string * VariableTracker))
    (tx : Tx) (r : VariableTracker) (tx' : Tx) :
  mutable_local self = false ->
  ConstDictVariable_call_method self name args kwargs tx = Ok (r, tx') \/
  SetVariable_call_method self name args kwargs tx = Ok (r, tx') ->
  tx' = tx.
Proof.
  intros Hm H.
  assert (forall name args kwargs r tx',
            ConstDictVariable_call_method self name args kwargs tx = Ok (r, tx') ->
            tx' = tx) as Hbase.
  { intros name0 args0 kwargs0 r0 tx0 H0.
    apply ConstDictVariable_call_method_inv in H0
      as [[-> _] | (d0 & dtmp & d1 & dnew & Hm' & _)]; [done | congruence]. }
  destruct H as [H | H]; [by eapply Hbase|].
  unfold SetVariable_call_method in H.
  destruct (String.eqb name "add"); [inv_steps H; by eapply Hbase|].
  destruct (String.eqb name "pop"); [|by eapply Hbase].
  inv_steps H. injection H as _ <-. by eapply Hbase.
Qed.

(** ** [update] *)

Lemma dict_setitem_prefix {K V : Type} (same_key : K -> K -> res bool) (k : K) (v : V)
    (d d' : list (K * V)) :
  dict_setitem same_key k v d = Ok d' -> map fst d `prefix_of` map fst d'.
Proof.
  intros [[Ha ->] | (d1 & k' & v' & d2 & -> & -> & _)]%dict_setitem_inv.
  - exists [k]. by rewrite map_app.
  - exists []. by rewrite app_nil_r, !map_app.
Qed.

Lemma dict_update_prefix {K V : Type} (same_key : K -> K -> res bool)
    (src d d' : list (K * V)) :
  dict_update same_key src d = Ok d' -> map fst d `prefix_of` map fst d'.
Proof.
  revert d. induction src as [|[k v] src IH]; simpl; intros d H.
  - by injection H as <-.
  - inv_bind H. etrans; [by eapply dict_setitem_prefix | by apply IH].
Qed.

(** What a returning [update] did. *)
Lemma update_inv (self : ConstDictVariable) (args : list VariableTracker)
    (kwargs : list (string * VariableTracker)) (tx : Tx) (r : VariableTracker) (tx' : Tx) :
  heap_ok tx ->
  ConstDictVariable_call_method self "update" args kwargs tx = Ok (r, tx') ->
  exists other rest src d0 d1,
    args = DictVariable other :: rest /\
    (heap tx ++ [d0]) !! items other = Some src /\
    heap tx !! items self = Some d0 /\
    dict_update key_matches src d0 = Ok d1 /\ wf_dict d0 /\ wf_dict d1 /\
    tx' = (committed self d1 (stored_items self d1) tx).2 /\
    r = DictVariable (committed self d1 (stored_items self d1) tx).1.
Proof.
  intros Hok H.
  destruct (ConstDictVariable_call_method_inv_wf _ _ _ _ _ _ _ Hok H)
    as [(_ & _ & Hn & _) | (d0 & d1 & Hm & Hd0 & Hch & Hwf & -> & Hr)]; [done|].
  destruct Hr as [Hr | ->]; [discriminate|].
  destruct Hch as [(Hn & _) | [(Hn & _) | (_ & other & rest & src & -> & Hsrc & Hu)]];
    try discriminate.
  exists other, rest, src, d0, d1.
  pose proof (heap_ok_lookup _ _ _ Hok Hd0). done.
Qed.

(** X8.  A returning [update] keeps the keys of the container in
    front, in their order: the iteration of the old object is a prefix
    of the iteration of the new one. *)
Theorem update_keeps_keys_in_front (self : ConstDictVariable)
    (args : list VariableTracker) (kwargs : list (string * VariableTracker))
    (tx : Tx) (r : VariableTracker) (tx' : Tx) (ks : list VariableTracker) :
  heap_ok tx ->
  ConstDictVariable_call_method self "update" args kwargs tx = Ok (r, tx') ->
  unpack_var_sequence self tx = Ok ks ->
  exists new ks',
    r = DictVariable new /\
    unpack_var_sequence new tx' = Ok ks' /\
    ks `prefix_of` ks'.
Proof.
  intros Hok H Hks.
  destruct (update_inv _ _ _ _ _ _ Hok H)
    as (other & rest & src & d0 & d1 & _ & _ & Hd0 & Hu & _ & _ & -> & ->).
  destruct (committed_heap self d1 (stored_items self d1) tx) as (_ & _ & Hnew).
  exists (committed self d1 (stored_items self d1) tx).1,
         (map (fun kv => vt kv.1) (stored_items self d1)).
  split; [reflexivity|]. split.
  - unfold unpack_var_sequence. by rewrite (heap_read_ok _ _ _ Hnew).
  - unfold unpack_var_sequence in Hks. rewrite (heap_read_ok _ _ _ Hd0) in Hks.
    injection Hks as <-. rewrite <- !(map_map fst vt), stored_items_keys.
    destruct (dict_update_prefix _ _ _ _ Hu) as [l Hl]. rewrite Hl, map_app.
    by eexists.
Qed.

Lemma dict_setitem_lookup_equal (k p : Hashable) (v : VariableTracker) (d d' : DictObj) :
  calm p -> wrapped k -> Forall (fun kv => wrapped kv.1) d ->
  Spec_key_equal (vt k) (vt p) = true ->
  dict_setitem key_matches k v d = Ok d' ->
  dict_getitem key_matches p d' = Ok v.
Proof.
  intros Hc Hwk Hw Hkp [[Ha ->] | (d1 & k' & v' & d2 & -> & -> & Ha & Hk)]%dict_setitem_inv.
  - pose proof (absent_transfer _ _ _ Hc Hw Hkp Ha) as Hp.
    assert (key_matches k p = Ok true) as Hm by (by rewrite (Hc _ Hwk), Hkp).
    by destruct (dict_found key_matches p d k v [] Hp Hm) as (_ & ? & _).
  - apply Forall_app in Hw as [Hw1 [Hw' _]%Forall_cons]. simpl in Hw'.
    pose proof (absent_transfer _ _ _ Hc Hw1 Hkp Ha) as Hp.
    assert (key_matches k' p = Ok true) as Hm.
    { rewrite (Hc _ Hw'). f_equal. apply key_matches_sound in Hk. symmetry in Hk.
      rewrite Spec_key_equal_sym in Hkp.
      rewrite Spec_key_equal_sym. by apply (Spec_key_equal_euclid _ _ _ Hkp). }
    by destruct (dict_found key_matches p d1 k' v d2 Hp Hm) as (_ & ? & _).
Qed.

(** After [d.update(src)], a key bound in [src] has the value of
    [src], and a key that is not in [src] has what it had in [d]. *)
Lemma dict_update_lookup (p : Hashable) (src d d' : DictObj) :
  wf_dict src -> Forall (fun kv => wrapped kv.1) d ->
  dict_update key_matches src d = Ok d' ->
  (forall w, dict_getitem key_matches p src = Ok w ->
             dict_getitem key_matches p d' = Ok w) /\
  (dict_contains key_matches p src = Ok false ->
   dict_getitem key_matches p d' = dict_getitem key_matches p d).
Proof.
  revert d. induction src as [|[k v] src IH]; intros d [Hws Hds] Hw H; simpl in H.
  - injection H as <-. split; [discriminate | done].
  - inv_bind H. rename E into Hst, x into dx. apply Forall_cons in Hws as [Hwk Hws]. destruct Hds as [Hk Hds].
    simpl in Hwk.
    assert (Forall (fun kv : Hashable * VariableTracker => wrapped kv.1) dx) as Hwx
      by (by eapply dict_setitem_wrapped).
    destruct (IH dx (conj Hws Hds) Hwx H) as [IH1 IH2].
    split.
    + intros w Hg. simpl in Hg. destruct (key_matches k p) as [[|]|e] eqn:Hkp;
        simpl in Hg; [|by apply IH1|discriminate].
      injection Hg as <-.
      pose proof (key_matches_true_calm _ _ Hkp) as Hc.
      pose proof (key_matches_sound _ _ _ Hkp) as Hs. symmetry in Hs.
      assert (absent key_matches p src) as Ha.
      { unfold absent. rewrite Forall_forall in Hk, Hws |- *. intros [kj vj] Hin.
        pose proof (Hc _ (Hws _ Hin)) as Hcj. simpl in Hcj |- *. rewrite Hcj. f_equal.
        specialize (Hk _ Hin). simpl in Hk. apply key_matches_sound in Hk.
        destruct (Spec_key_equal (vt kj) (vt p)) eqn:E; [|done].
        by rewrite (Spec_key_equal_euclid _ _ _ Hs E) in Hk. }
      rewrite IH2 by (by destruct (dict_absent _ _ _ Ha)).
      exact (dict_setitem_lookup_equal k p v d dx Hc Hwk Hw Hs Hst).
    + intros Hc. apply dict_contains_false in Hc. apply Forall_cons in Hc as [Hkp Ha].
      simpl in Hkp. rewrite IH2 by (by destruct (dict_absent _ _ _ Ha)).
      by destruct (dict_setitem_lookup_other _ _ _ _ _ Hkp Hst).
Qed.

Lemma getitem_const_inv (self : ConstDictVariable) (a : VariableTracker) (tx : Tx)
    (w : VariableTracker) :
  getitem_const self a tx = Ok w ->
  exists k d, klass self <> KSet /\ Hashable_init a = Ok k /\
              heap tx !! items self = Some d /\ dict_getitem key_matches k d = Ok w.
Proof.
  unfold getitem_const, SetVariable_getitem_const, ConstDictVariable_getitem_const.
  intros H.
  assert (klass self <> KSet) as Hs by (intros E; rewrite E in H; discriminate).
  assert ((key ← Hashable_init a; d ← heap_read (items self) tx;
           dict_getitem key_matches key d) = Ok w) as H'
    by (destruct (klass self); done).
  inv_steps H'. heap_inv. eauto 10.
Qed.

(** X9.  After a returning [update] of a container (not a set) with
    another one, the bindings of the argument win and the rest is
    kept: a key that the argument binds has, in the new object, the
    value the argument gives it, and a key that is not in the argument
    has what it had in the old object (no binding included). *)
Theorem update_lookup (self other : ConstDictVariable) (rest : list VariableTracker)
    (kwargs : list (string * VariableTracker)) (tx : Tx) (r : VariableTracker) (tx' : Tx) :
  heap_ok tx -> klass self <> KSet ->
  ConstDictVariable_call_method self "update" (DictVariable other :: rest) kwargs tx
    = Ok (r, tx') ->
  exists new,
    r = DictVariable new /\
    (forall b w, getitem_const other b tx = Ok w -> getitem_const new b tx' = Ok w) /\
    (forall b, key_in_items other b tx = Ok false ->
               getitem_const new b tx' = getitem_const self b tx).
Proof.
  intros Hok Hset H.
  destruct (update_inv _ _ _ _ _ _ Hok H)
    as (other' & rest' & src & d0 & d1 & [= <- _] & Hsrc & Hd0 & Hu & Hwf0 & _ & -> & ->).
  destruct (committed_heap self d1 (stored_items self d1) tx) as (_ & _ & Hnew).
  rewrite (stored_items_not_set _ _ Hset) in *.
  eexists. split; [reflexivity|].
  assert (forall src0, heap tx !! items other = Some src0 -> src0 = src /\ wf_dict src)
    as Hsame.
  { intros src0 H0. pose proof (lookup_app_l_Some _ [d0] _ _ H0) as H1.
    assert (Some src0 = Some src) as [= ->] by (rewrite <- H1; exact Hsrc).
    split; [reflexivity|].
    by eapply heap_ok_lookup. }
  split.
  - intros b w (p & src0 & _ & Hp & Hs0 & Hg)%getitem_const_inv.
    destruct (Hsame _ Hs0) as [-> Hwfs].
    rewrite (getitem_const_eq _ b p _ d1); [|exact Hset|exact Hnew|exact Hp].
    by apply (dict_update_lookup p src d0 d1 Hwfs (proj1 Hwf0) Hu).
  - intros b Hin. unfold key_in_items in Hin. inv_steps Hin. heap_inv.
    match goal with
    | Hp : Hashable_init b = Ok ?p, Hs0 : heap tx !! items other = Some ?src0 |- _ =>
        destruct (Hsame _ Hs0) as [-> Hwfs];
        rewrite (getitem_const_eq _ b p _ d1); [|exact Hset|exact Hnew|exact Hp];
        rewrite (getitem_const_eq _ b p _ d0); [|exact Hset|exact Hd0|exact Hp];
        by apply (dict_update_lookup p src d0 d1 Hwfs (proj1 Hwf0) Hu)
    end.
Qed.

(** ** Keys, values and items *)

Lemma zip_with_map {A B C D : Type} (f : B -> C -> D) (g : A -> B) (h : A -> C)
    (l : list A) :
  zip_with f (map g l) (map h l) = map (fun x => f (g x) (h x)) l.
Proof. induction l as [|x l IH]; simpl; [done | by rewrite IH]. Qed.

(** X10.  The methods [keys], [values], [items] and [__len__] agree:
    [keys] and [values] return the views that the view constructor
    accepts for the container; the keys view iterates the keys as the
    container does, the values view iterates as many values, [items]
    pairs the i-th key with the i-th value, and [__len__] is their
    number.  None of them changes the state. *)
Theorem items_pairs_keys_with_values (self : ConstDictVariable) (tx : Tx) (d : DictObj) :
  heap tx !! items self = Some d ->
  exists ks vs,
    ConstDictVariable_call_method self "keys" [] [] tx = Ok (DictKeys self, tx) /\
    ConstDictVariable_call_method self "values" [] [] tx = Ok (DictValues self, tx) /\
    DictView_init (Some kv_keys) (DictVariable self) tx = Ok (DictKeys self) /\
    DictView_init (Some kv_values) (DictVariable self) tx = Ok (DictValues self) /\
    DictView_unpack_var_sequence kv_keys self tx = Ok ks /\
    DictView_unpack_var_sequence kv_values self tx = Ok vs /\
    unpack_var_sequence self tx = Ok ks /\
    length ks = length vs /\
    ConstDictVariable_call_method self "items" [] [] tx
      = Ok (TupleVariable (zip_with (fun k v => TupleVariable [k; v]) ks vs), tx) /\
    ConstDictVariable_call_method self "__len__" [] [] tx
      = Ok (ConstantVariable (LInt (Z.of_nat (length ks))), tx).
Proof.
  intros Hd. exists (map (fun kv => vt kv.1) d), (map snd d).
  split; [reflexivity|]. split; [reflexivity|].
  unfold DictView_init. cbn [bool_decide py_assert mbind res_bind].
  rewrite (heap_read_ok _ _ _ Hd). cbn [mbind res_bind].
  split; [reflexivity|]. split; [reflexivity|].
  unfold DictView_unpack_var_sequence, unpack_var_sequence.
  rewrite (heap_read_ok _ _ _ Hd). cbn [mbind res_bind].
  split; [reflexivity|]. split; [reflexivity|]. split; [reflexivity|].
  split; [by rewrite !length_map|]. split.
  - change (ConstDictVariable_call_method self "items" [] [] tx)
      with (d ← heap_read (items self) tx;
            Ok (TupleVariable (map (fun kv => TupleVariable [vt kv.1; kv.2]) d), tx)).
    rewrite (heap_read_ok _ _ _ Hd). cbn [mbind res_bind]. by rewrite zip_with_map.
  - rewrite len_unfold, (heap_read_ok _ _ _ Hd). cbn [mbind res_bind].
    by rewrite length_map.
Qed.

(** ** Sets: the sentinel and [add] *)

(** X11.  A set binds the sentinel only: whatever method of a set
    returns, [__setitem__] with another value and [update] with a
    dictionary included, either the state is as it was or the object
    published for the set is a set whose entries all bind
    [ConstantVariable(None)]. *)
Theorem set_entries_bind_the_sentinel (self : ConstDictVariable) (name : string)
    (args : list VariableTracker) (kwargs : list (string * VariableTracker))
    (tx : Tx) (r : VariableTracker) (tx' : Tx) :
  heap_ok tx -> klass self = KSet ->
  SetVariable_call_method self name args kwargs tx = Ok (r, tx') ->
  tx' = tx \/
  exists new d,
    replaced tx' = (self, new) :: replaced tx /\ klass new = KSet /\
    heap tx' !! items new = Some d /\ sentinel_values d.
Proof.
  intros Hok Hkl H.
  assert (forall name args kwargs r tx',
            ConstDictVariable_call_method self name args kwargs tx = Ok (r, tx') ->
            tx' = tx \/
            exists new d,
              replaced tx' = (self, new) :: replaced tx /\ klass new = KSet /\
              heap tx' !! items new = Some d /\ sentinel_values d) as Hbase.
  { intros name0 args0 kwargs0 r0 tx0 H0.
    destruct (ConstDictVariable_call_method_inv_wf _ _ _ _ _ _ _ Hok H0)
      as [[-> _] | (d0 & d1 & _ & _ & _ & _ & -> & _)]; [by left | right].
    destruct (committed_heap self d1 (stored_items self d1) tx) as (_ & _ & Hnew).
    exists (committed self d1 (stored_items self d1) tx).1, (stored_items self d1).
    split; [reflexivity|]. split; [exact Hkl|]. split; [exact Hnew|].
    unfold stored_items, sentinel_values. rewrite Hkl. by apply Forall_map, Forall_true. }
  unfold SetVariable_call_method in H.
  destruct (String.eqb name "add"); [inv_steps H; by eapply Hbase|].
  destruct (String.eqb name "pop"); [|by eapply Hbase].
  inv_steps H. injection H as _ <-. by eapply Hbase.
Qed.

(** X12.  After a returning [add] of an element that matches itself,
    the element is in the set, and the set iterates as before when the
    element was in it, and with the element at the end when it was
    not. *)
Theorem set_add_then_contains (self : ConstDictVariable) (x : VariableTracker)
    (k : Hashable) (tx : Tx) (r : VariableTracker) (tx' : Tx) (present : bool)
    (ks : list VariableTracker) :
  heap_ok tx ->
  SetVariable_call_method self "add" [x] [] tx = Ok (r, tx') ->
  Hashable_init x = Ok k -> key_matches k k = Ok true ->
  key_in_items self x tx = Ok present ->
  unpack_var_sequence self tx = Ok ks ->
  exists new,
    r = DictVariable new /\
    SetVariable_call_method new "__contains__" [x] [] tx'
      = Ok (ConstantVariable (LBool true), tx') /\
    unpack_var_sequence new tx' = Ok (if present then ks else ks ++ [vt k]).
Proof.
  intros Hok H Hk Hkk Hin Hks.
  change (SetVariable_call_method self "add" [x] [] tx)
    with (ConstDictVariable_call_method self "__setitem__"
            [x; SetVariable_default_value] [] tx) in H.
  destruct (setitem_inv _ _ _ _ _ _ _ Hok H)
    as (k' & d0 & d1 & Hk' & Hd0 & Hs & _ & _ & _ & -> & ->).
  assert (k' = k) as -> by congruence.
  destruct (committed_heap self d1 (stored_items self d1) tx) as (_ & _ & Hnew).
  pose proof (Hashable_init_inv _ _ Hk) as [Hh _].
  eexists. split; [reflexivity|]. split.
  - change (SetVariable_call_method ?s "__contains__" [x] [] ?t)
      with (ConstDictVariable_call_method s "__contains__" [x] [] t).
    rewrite (contains_hashable_probe _ _ _ _ _ Hh), (key_in_items_eq _ _ _ _ _ Hnew Hk).
    rewrite (dict_contains_fst key_matches k _ d1) by apply stored_items_keys.
    by destruct (dict_setitem_lookup_same _ _ _ _ Hkk Hs) as [_ ->].
  - unfold unpack_var_sequence in *. rewrite (heap_read_ok _ _ _ Hd0) in Hks.
    injection Hks as <-. rewrite (heap_read_ok _ _ _ Hnew). cbn [mbind res_bind].
    rewrite (key_in_items_eq _ _ _ _ _ Hd0 Hk) in Hin. f_equal.
    rewrite <- !(map_map fst vt), stored_items_keys.
    apply dict_setitem_inv in Hs as [[Ha ->] | (l1 & k1 & v' & l2 & -> & -> & Ha & Hk1)].
    + destruct (dict_absent _ _ _ Ha) as (Hc & _). rewrite Hc in Hin. injection Hin as <-.
      by rewrite !map_app.
    + destruct (dict_found key_matches k l1 k1 v' l2 Ha Hk1) as (Hc & _).
      rewrite Hc in Hin. injection Hin as <-. by rewrite !map_app.
Qed.

(** ** Stored keys are pairwise distinct *)

Lemma comprehension_wf
    (its : list ((Hashable + VariableTracker) * VariableTracker)) (acc d : DictObj) :
  Forall (fun x => match x.1 with inl k => wrapped k | inr _ => True end) its ->
  wf_dict acc -> comprehension its acc = Ok d -> wf_dict d.
Proof.
  revert acc. induction its as [|[x v] its IH]; simpl; intros acc Hits Hacc H.
  - congruence.
  - inv_steps H. apply Forall_cons in Hits as [Hx Hits].
    eapply IH; [done| |exact H].
    eapply wf_dict_setitem; [|exact Hacc|exact E0].
    destruct x as [k|y]; simpl in E, Hx; [by injection E as <-|].
    by eapply Hashable_init_wrapped.
Qed.

Lemma heap_ok_alloc (tx : Tx) (d : DictObj) :
  heap_ok tx -> wf_dict d -> heap_ok (set_heap (heap tx ++ [d]) tx).
Proof.
  unfold heap_ok. simpl. intros H Hd. apply Forall_app. split; [done|]. by constructor.
Qed.

Lemma heap_ok_write (tx : Tx) (a : addr) (d : DictObj) :
  heap_ok tx -> wf_dict d -> heap_ok (heap_write a d tx).
Proof. unfold heap_ok. simpl. intros H Hd. by apply Forall_insert. Qed.

Lemma ConstDictVariable_init_heap_ok
    (its : list ((Hashable + VariableTracker) * VariableTracker))
    (ucls : UserCls) (ml : bool) (kl : Klass) (df : option Factory)
    (tx : Tx) (self : ConstDictVariable) (tx' : Tx) :
  heap_ok tx ->
  Forall (fun x => match x.1 with inl k => wrapped k | inr _ => True end) its ->
  ConstDictVariable_init its ucls ml kl df tx = Ok (self, tx') ->
  heap_ok tx' /\ exists d, heap tx' !! items self = Some d /\ wf_dict d.
Proof.
  intros Hh Hits H. unfold ConstDictVariable_init in H. inv_bind H.
  unfold heap_alloc in H. injection H as <- <-.
  pose proof (comprehension_wf _ _ _ Hits wf_dict_nil E) as Hwf.
  split; [by apply heap_ok_alloc|]. exists x. split; [apply lookup_snoc | exact Hwf].
Qed.

Lemma call_function_heap_ok (f : Factory) (tx : Tx) (v : VariableTracker) (tx' : Tx) :
  heap_ok tx -> call_function f tx = Ok (v, tx') -> heap_ok tx'.
Proof.
  intros Hh H. unfold call_function in H.
  destruct f; try (injection H as _ <-; exact Hh).
  - inv_steps H. injection H as _ <-.
    eapply ConstDictVariable_init_heap_ok; [| |exact E]; [exact Hh|constructor].
  - inv_steps H. injection H as _ <-. exact Hh.
Qed.

Lemma modifed_heap_ok (self : ConstDictVariable) (n : addr) (tx : Tx)
    (new : ConstDictVariable) (tx' : Tx) :
  heap_ok tx -> modifed self n tx = Ok (new, tx') -> heap_ok tx'.
Proof.
  intros Hh (d & dnew & Hd & _ & -> & Hs & _)%modifed_inv.
  pose proof (heap_ok_lookup _ _ _ Hh Hd) as Hwf.
  apply heap_ok_alloc; [done|]. rewrite (Hs (proj2 Hwf)). by apply wf_dict_stored.
Qed.

Lemma DefaultDictVariable_call_method_heap_ok (self : ConstDictVariable)
    (name : string) (args : list VariableTracker)
    (kwargs : list (string * VariableTracker)) (tx : Tx) (r : VariableTracker) (tx' : Tx) :
  heap_ok tx ->
  DefaultDictVariable_call_method self name args kwargs tx = Ok (r, tx') ->
  heap_ok tx'.
Proof.
  intros Hh H. unfold DefaultDictVariable_call_method in H.
  destruct (String.eqb name "__getitem__");
    [|by eapply ConstDictVariable_call_method_heap_ok].
  inv_steps H. destruct x2.
  { inv_steps H. by injection H as _ <-. }
  destruct (default_factory self) as [f|]; [|discriminate].
  inv_steps H. injection H as _ <-. heap_inv.
  repeat match goal with
  | Hc : OrderedDict_copy _ _ = Ok _ |- _ =>
      apply OrderedDict_copy_inv in Hc as (d0 & dtmp & Hd0 & Hcopy & -> & ->)
  | Hr : replace_all _ _ _ = Ok _ |- _ => unfold replace_all in Hr; injection Hr as _ <-
  end.
  assert (heap_ok (set_heap (heap tx ++ [dtmp]) tx)) as H1.
  { apply heap_ok_alloc; [done|].
    pose proof (heap_ok_lookup _ _ _ Hh Hd0) as Hwf0.
    rewrite (dict_copy _ (proj2 Hwf0)) in Hcopy. by injection Hcopy as <-. }
  match goal with
  | Hc : call_function _ _ = Ok (_, ?t0), Hm : modifed _ _ (heap_write _ ?d2 ?t0) = Ok _,
    Hs : dict_setitem _ ?k _ ?d1 = Ok ?d2, Hd1 : heap ?t0 !! _ = Some ?d1,
    Hk : Hashable_init _ = Ok ?k |- _ =>
      pose proof (call_function_heap_ok _ _ _ _ H1 Hc) as H2;
      assert (heap_ok (heap_write (length (heap tx)) d2 t0)) as H3;
      [ apply heap_ok_write; [exact H2|];
        eapply wf_dict_setitem; [|exact (heap_ok_lookup _ _ _ H2 Hd1)|exact Hs];
        exact (Hashable_init_wrapped _ _ Hk)
      | pose proof (modifed_heap_ok _ _ _ _ _ H3 Hm) as H4 ]
  end.
  exact H4.
Qed.

(** X13.  No two keys stored in a dictionary match, and every stored
    key is a wrapped key: the constructor of a container establishes
    this for the dictionary it builds, equal keys of its argument
    collapsing into one entry, and every returning [call_method] of
    [ConstDictVariable], [DefaultDictVariable] and [SetVariable] keeps
    it for all dictionaries of the heap. *)
Theorem stored_keys_are_distinct :
  (forall its ucls ml kl df tx self tx',
     heap_ok tx ->
     Forall (fun x => match x.1 with inl k => wrapped k | inr _ => True end) its ->
     ConstDictVariable_init its ucls ml kl df tx = Ok (self, tx') ->
     heap_ok tx' /\ exists d, heap tx' !! items self = Some d /\ wf_dict d) /\
  (forall self name args kwargs tx r tx',
     heap_ok tx ->
     ConstDictVariable_call_method self name args kwargs tx = Ok (r, tx') \/
     DefaultDictVariable_call_method self name args kwargs tx = Ok (r, tx') \/
     SetVariable_call_method self name args kwargs tx = Ok (r, tx') ->
     heap_ok tx').
Proof.
  split.
  - intros. by eapply ConstDictVariable_init_heap_ok.
  - intros self name args kwargs tx r tx' Hh [H | [H | H]].
    + by eapply ConstDictVariable_call_method_heap_ok.
    + by eapply DefaultDictVariable_call_method_heap_ok.
    + unfold SetVariable_call_method in H.
      destruct (String.eqb name "add");
        [inv_steps H; by eapply ConstDictVariable_call_method_heap_ok|].
      destruct (String.eqb name "pop");
        [|by eapply ConstDictVariable_call_method_heap_ok].
      inv_steps H. injection H as _ <-.
      by eapply ConstDictVariable_call_method_heap_ok.
Qed.

(** ** Views and record adapters *)

Section Adapters_facts.
Variable tracker_is_str : VariableTracker -> res bool.
Variable TupleVariable_call_method :
  list VariableTracker -> string -> list VariableTracker ->
  list (string * VariableTracker) -> Tx -> res (VariableTracker * Tx).
Variable dataclass_defaults : UserCls -> res (list (string * option Literal)).
Variable VariableTracker_var_getattr :
  ConstDictVariable -> string -> Tx -> res (VariableTracker * Tx).
Variable getattr_user_cls : UserCls -> string -> res ClassAttr.
Variable inline_user_function_return :
  ClassAttr -> list VariableTracker -> list (string * VariableTracker) -> Tx ->
  res (VariableTracker * Tx).

Local Abbreviation dispatch :=
  (call_method tracker_is_str TupleVariable_call_method
     getattr_user_cls inline_user_function_return).
Local Abbreviation view_method :=
  (view_call_method tracker_is_str TupleVariable_call_method
     getattr_user_cls inline_user_function_return).
Local Abbreviation keys_method :=
  (DictKeys_call_method tracker_is_str TupleVariable_call_method
     getattr_user_cls inline_user_function_return).
Local Abbreviation values_method :=
  (DictView_call_method tracker_is_str TupleVariable_call_method
     getattr_user_cls inline_user_function_return).
Local Abbreviation record_method :=
  (DataClassVariable_call_method tracker_is_str TupleVariable_call_method).
Local Abbreviation record_getattr :=
  (DataClassVariable_var_getattr tracker_is_str TupleVariable_call_method
     dataclass_defaults VariableTracker_var_getattr).
Local Abbreviation custom_getattr :=
  (CustomizedDictVariable_var_getattr VariableTracker_var_getattr
     getattr_user_cls inline_user_function_return).

(** The four classes whose [call_method] hands [__len__] and
    [__contains__] to [ConstDictVariable.call_method]. *)
Lemma dispatch_read (self : ConstDictVariable) (name : string)
    (args : list VariableTracker) (kwargs : list (string * VariableTracker)) (tx : Tx) :
  klass self <> KCustomizedDict ->
  name = "__len__" \/ name = "__contains__" ->
  dispatch self name args kwargs tx
  = ConstDictVariable_call_method self name args kwargs tx.
Proof.
  intros Hk Hn. unfold call_method.
  destruct (klass self); try done; destruct Hn as [-> | ->]; reflexivity.
Qed.

(** X14.  A view answers through its owner, for an owner of every class
    but [CustomizedDictVariable]: [__len__] of a keys view and of a
    values view is the number of entries of the owner; [__contains__]
    of a keys view is the membership test of the owner, False for a
    probe the wrapper does not accept; a values view does not answer
    [__contains__], and no view answers another method: these calls
    end in the method of the base class. *)
Theorem views_delegate_to_owner (kv : ViewKind) (dv_dict : ConstDictVariable) (tx : Tx)
    (d : DictObj) :
  klass dv_dict <> KCustomizedDict ->
  heap tx !! items dv_dict = Some d ->
  view_method kv dv_dict "__len__" [] [] tx
    = Ok (ConstantVariable (LInt (Z.of_nat (length d))), tx) /\
  (forall a rest kwargs,
     keys_method dv_dict "__contains__" (a :: rest) kwargs tx
     = (b ← (if is_hashable a then key_in_items dv_dict a tx else Ok false);
        Ok (ConstantVariable (LBool b), tx))) /\
  (forall args kwargs,
     values_method dv_dict "__contains__" args kwargs tx
     = VariableTracker_call_method "__contains__" args tx) /\
  (forall name args kwargs,
     name <> "__len__" -> name <> "__contains__" ->
     view_method kv dv_dict name args kwargs tx
     = VariableTracker_call_method name args tx).
Proof.
  intros Hk Hd. split; [|split; [|split]].
  - assert (view_method kv dv_dict "__len__" [] [] tx
            = dispatch dv_dict "__len__" [] [] tx) as -> by (by destruct kv).
    rewrite dispatch_read by auto.
    by rewrite len_unfold, (heap_read_ok _ _ _ Hd).
  - intros a rest kwargs.
    assert (keys_method dv_dict "__contains__" (a :: rest) kwargs tx
            = dispatch dv_dict "__contains__" (a :: rest) kwargs tx) as -> by done.
    rewrite dispatch_read by auto.
    destruct (is_hashable a) eqn:Hh.
    + by rewrite (contains_hashable_probe _ _ _ _ _ Hh).
    + by rewrite (contains_unhashable_probe _ _ _ _ _ Hh).
  - reflexivity.
  - intros name args kwargs H1%String.eqb_neq H2%String.eqb_neq.
    unfold view_call_method, DictKeys_call_method, DictView_call_method.
    destruct kv; by rewrite ?H1, ?H2.
Qed.

Lemma Hashable_init_string (name : string) :
  Hashable_init (ConstantVariable (LStr name))
  = Ok (mkHashable (ConstantVariable (LStr name))).
Proof. reflexivity. Qed.

(** X15.  An attribute written to a record adapter is read back: after
    a returning [__setattr__] of a name on a [DataClassVariable],
    [var_getattr] of that name on the new object returns the value
    written and leaves the state as it is.  (A constant that holds a
    string has the host type [str].) *)
Theorem dataclass_setattr_then_getattr (self : ConstDictVariable) (name : string)
    (v : VariableTracker) (tx : Tx) (r : VariableTracker) (tx' : Tx) :
  heap_ok tx -> klass self = KDataClass ->
  tracker_is_str (ConstantVariable (LStr name)) = Ok true ->
  record_method self "__setattr__" [ConstantVariable (LStr name); v] [] tx = Ok (r, tx') ->
  exists new,
    r = DictVariable new /\
    record_getattr new name tx' = Ok (Some v, tx').
Proof.
  intros Hok Hkl Hstr H.
  change (record_method self "__setattr__" [ConstantVariable (LStr name); v] [] tx)
    with (ConstDictVariable_call_method self "__setitem__"
            [ConstantVariable (LStr name); v] [] tx) in H.
  destruct (setitem_inv _ _ _ _ _ _ _ Hok H)
    as (k & d0 & d1 & Hk & Hd0 & Hs & _ & _ & _ & -> & ->).
  rewrite Hashable_init_string in Hk. injection Hk as <-.
  assert (klass self <> KSet) as Hset by congruence.
  destruct (committed_heap self d1 (stored_items self d1) tx) as (_ & _ & Hnew).
  rewrite (stored_items_not_set _ _ Hset) in *.
  destruct (dict_setitem_lookup_same _ _ _ _ (key_matches_same_string name) Hs)
    as [Hget Hin].
  eexists. split; [reflexivity|].
  set (new := (committed self d1 d1 tx).1) in *.
  set (tx' := (committed self d1 d1 tx).2) in *.
  assert (klass new <> KSet) as Hset' by exact Hset.
  unfold DataClassVariable_var_getattr, ConstDictVariable_contains.
  rewrite Hashable_init_string. cbn [mbind res_bind].
  rewrite (heap_read_ok _ _ _ Hnew). cbn [mbind res_bind]. rewrite Hin.
  cbn [mbind res_bind].
  assert (record_method new "__getitem__" [ConstantVariable (LStr name)] [] tx'
          = Ok (v, tx')) as ->; [|reflexivity].
  unfold DataClassVariable_call_method.
  cbn [String.eqb Ascii.eqb Bool.eqb is_nil length Nat.eqb andb py_assert arg0
       mbind res_bind python_type_is_str].
  rewrite Hstr. cbn [mbind res_bind].
  rewrite (getitem_const_eq new _ _ tx' d1 Hset' Hnew (Hashable_init_string name)).
  by rewrite Hget.
Qed.

(** X22.  [to_tuple] of a [DataClassVariable] returns the stored
    values in the order of the fields, the sequence its values view
    iterates, and leaves the state as it is; [__getitem__] with an
    index whose host type is not [str] is answered by that tuple. *)
Theorem dataclass_to_tuple_lists_values (self : ConstDictVariable) (tx : Tx) (d : DictObj) :
  heap tx !! items self = Some d ->
  exists vs,
    DictView_unpack_var_sequence kv_values self tx = Ok vs /\
    length vs = length d /\
    record_method self "to_tuple" [] [] tx = Ok (TupleVariable vs, tx) /\
    (forall val,
       python_type_is_str tracker_is_str val = Ok false ->
       record_method self "__getitem__" [val] [] tx
       = TupleVariable_call_method vs "__getitem__" [val] [] tx).
Proof.
  intros Hd. exists (map snd d).
  unfold DictView_unpack_var_sequence. rewrite (heap_read_ok _ _ _ Hd).
  split; [reflexivity|]. split; [apply length_map|].
  assert (DataClassVariable_to_tuple self [] [] tx = Ok (map snd d)) as Ht
    by (unfold DataClassVariable_to_tuple; by rewrite (heap_read_ok _ _ _ Hd)).
  split.
  - change (record_method self "to_tuple" [] [] tx)
      with (elts ← DataClassVariable_to_tuple self [] [] tx; Ok (TupleVariable elts, tx)).
    by rewrite Ht.
  - intros val Hv.
    change (record_method self "__getitem__" [val] [] tx)
      with (is_str ← python_type_is_str tracker_is_str val;
            if is_str : bool then r ← getitem_const self val tx; Ok (r, tx)
            else elts ← DataClassVariable_to_tuple self [] [] tx;
                 TupleVariable_call_method elts "__getitem__" [val] [] tx).
    by rewrite Hv, Ht.
Qed.

Lemma same_name_absent {V : Type} (name : string) (d : list (string * V)) :
  name ∉ map fst d -> absent same_name name d.
Proof.
  intros Hn. unfold absent. apply Forall_forall. intros [s v] Hin. simpl.
  unfold same_name. f_equal. apply String.eqb_neq. intros ->. apply Hn.
  apply list_elem_of_fmap. by exists (name, v).
Qed.

Lemma same_name_update {V : Type} (fields acc : list (string * V)) :
  NoDup (map fst (acc ++ fields)) ->
  dict_update same_name fields acc = Ok (acc ++ fields).
Proof.
  revert acc. induction fields as [|[s v] fields IH]; intros acc Hnd; simpl.
  - by rewrite app_nil_r.
  - assert (absent same_name s acc) as Ha.
    { apply same_name_absent. rewrite map_app in Hnd.
      apply NoDup_app in Hnd as (_ & Hnd & _). intros Hin. apply (Hnd s Hin).
      simpl. left. }
    destruct (dict_absent _ _ _ Ha) as (_ & _ & E & _). rewrite E.
    cbn [mbind res_bind]. rewrite IH; rewrite <- app_assoc; done.
Qed.

Lemma same_name_lookup {V : Type} (name : string) (v : V) (l1 l2 : list (string * V)) :
  name ∉ map fst l1 ->
  dict_contains same_name name (l1 ++ (name, v) :: l2) = Ok true /\
  dict_getitem same_name name (l1 ++ (name, v) :: l2) = Ok v.
Proof.
  intros Hn.
  assert (same_name name name = Ok true) as Hs
    by (unfold same_name; by rewrite String.eqb_refl).
  by destruct (dict_found same_name name l1 name v l2 (same_name_absent _ _ Hn) Hs)
    as (? & ? & _).
Qed.

(** X16.  [var_getattr] of the record adapters on a name that is not a
    stored key.  A [DataClassVariable] (its fields have distinct
    names) answers the declared default of a field of that name as a
    constant, and raises AssertionError when the default is not a
    literal.  For a name that is no field, and in
    [CustomizedDictVariable] for every name that is not stored, the
    method of the base class is called and its answer is dropped: the
    result is None when that method returns. *)
Theorem record_getattr_of_unstored_name (self : ConstDictVariable) (name : string)
    (tx : Tx) (fields : list (string * option Literal)) :
  ConstDictVariable_contains self (obj_literal (LStr name)) tx = Ok false ->
  dataclass_defaults (user_cls self) = Ok fields ->
  NoDup (map fst fields) ->
  (forall l1 default l2,
     fields = l1 ++ (name, default) :: l2 ->
     record_getattr self name tx
     = match default with
       | Some c => Ok (Some (ConstantVariable c), tx)
       | None => Raise AssertionError
       end) /\
  (name ∉ map fst fields ->
   record_getattr self name tx
   = ('(_, tx') ← VariableTracker_var_getattr self name tx; Ok (None, tx'))) /\
  custom_getattr self name tx
  = ('(_, tx') ← VariableTracker_var_getattr self name tx; Ok (None, tx')).
Proof.
  intros Hc Hf Hnd.
  assert (dict_update same_name fields [] = Ok fields) as Hu
    by (by apply (same_name_update fields [])).
  split; [|split].
  - intros l1 default l2 ->.
    assert (name ∉ map fst l1) as Hn.
    { rewrite map_app in Hnd. apply NoDup_app in Hnd as (_ & Hnd & _).
      intros Hin. apply (Hnd name Hin). simpl. left. }
    destruct (same_name_lookup name default l1 l2 Hn) as [Hin Hget].
    unfold DataClassVariable_var_getattr. rewrite Hc. cbn [mbind res_bind].
    rewrite Hf. cbn [mbind res_bind]. rewrite Hu. cbn [mbind res_bind].
    rewrite Hin. cbn [mbind res_bind]. by rewrite Hget.
  - intros Hn. destruct (dict_absent _ _ _ (same_name_absent name fields Hn)) as (Hin & _).
    unfold DataClassVariable_var_getattr. rewrite Hc. cbn [mbind res_bind].
    rewrite Hf. cbn [mbind res_bind]. rewrite Hu. cbn [mbind res_bind].
    by rewrite Hin.
  - unfold CustomizedDictVariable_var_getattr. by rewrite Hc.
Qed.

End Adapters_facts.

(** ** The module table *)

Section SysModules_facts.
Variable sys_modules : list (string * ModuleObj).
Variable VariableBuilder : PyVal -> ModuleObj -> res VariableTracker.

Local Abbreviation modules := (sys_modules_items sys_modules).

Lemma py_eq_string (s : string) (k : PyVal) :
  py_eq (PyLit (LStr s)) k = true <-> k = PyLit (LStr s).
Proof.
  destruct k as [[| | |t]| | | | |]; cbn -[String.eqb]; try (split; discriminate).
  rewrite String.eqb_eq. split; [by intros -> | by intros [= ->]].
Qed.

Lemma sys_modules_absent (k : PyVal) :
  (forall name, name ∈ map fst sys_modules -> k <> PyLit (LStr name)) ->
  absent same_constant k modules.
Proof.
  intros Hk. unfold absent, sys_modules_items. rewrite Forall_map.
  apply Forall_forall. intros [s m] Hin. simpl. unfold same_constant. f_equal.
  destruct (py_eq (PyLit (LStr s)) k) eqn:E; [|done].
  apply py_eq_string in E. exfalso. apply (Hk s); [|done].
  apply list_elem_of_fmap. by exists (s, m).
Qed.

Lemma sys_modules_found (name : string) (m : ModuleObj)
    (l1 l2 : list (string * ModuleObj)) :
  sys_modules = l1 ++ (name, m) :: l2 -> name ∉ map fst l1 ->
  dict_contains same_constant (PyLit (LStr name)) modules = Ok true /\
  dict_getitem same_constant (PyLit (LStr name)) modules = Ok m.
Proof.
  intros Hs Hn. unfold sys_modules_items. rewrite Hs, map_app. simpl.
  assert (absent same_constant (PyLit (LStr name))
            (map (fun m : string * ModuleObj => (PyLit (LStr m.1), m.2)) l1)) as Ha.
  { unfold absent. rewrite Forall_map. apply Forall_forall. intros [s m0] Hin. simpl.
    unfold same_constant. f_equal.
    destruct (py_eq (PyLit (LStr s)) (PyLit (LStr name))) eqn:E; [|done].
    apply py_eq_string in E. injection E as ->. exfalso. apply Hn.
    apply list_elem_of_fmap. by exists (s, m0). }
  assert (same_constant (PyLit (LStr name)) (PyLit (LStr name)) = Ok true) as Hm.
  { unfold same_constant. f_equal. by apply py_eq_string. }
  by destruct (dict_found same_constant _ _ _ m
                 (map (fun m : string * ModuleObj => (PyLit (LStr m.1), m.2)) l2) Ha Hm)
    as (? & ? & _).
Qed.

(** X17.  A key that lowers to a constant which names no module of
    [sys.modules]: [call_contains] answers False, [call_get] answers
    the default, or the constant None when no default is given, without
    building anything, and [call_getitem] raises KeyError.  The two
    answers carry the guards of the table and one more, the guard that
    the table does not contain the key ([invert] set). *)
Theorem sys_modules_miss (self_guards : list Guard) (key : VariableTracker)
    (dflt : option VariableTracker) (k : PyVal) :
  as_python_constant key = Ok k ->
  (forall name, name ∈ map fst sys_modules -> k <> PyLit (LStr name)) ->
  call_contains sys_modules self_guards key
    = Ok (ConstantVariable (LBool false), DICT_CONTAINS k true :: self_guards) /\
  call_get sys_modules VariableBuilder self_guards key dflt
    = Ok (default (ConstantVariable LNone) dflt,
          DICT_CONTAINS k true :: self_guards) /\
  call_getitem sys_modules VariableBuilder self_guards key = Raise KeyError.
Proof.
  intros Hkey Hk.
  destruct (dict_absent _ _ _ (sys_modules_absent k Hk)) as (Hc & Hg & _).
  unfold call_contains, call_get, call_getitem, _contains_helper.
  rewrite Hkey. cbn [mbind res_bind]. rewrite Hc. cbn [mbind res_bind negb].
  rewrite Hg. split; [reflexivity|]. split; [by destruct dflt | reflexivity].
Qed.

(** X18.  A key that lowers to the name of a module of [sys.modules]:
    [call_contains] answers True; [call_get], whatever default is
    given, and [call_getitem] both answer what the builder makes of the
    first module under that name, and raise what the builder raises.
    The answers carry the guards of the table and one more, the guard
    that the table contains the key ([invert] unset). *)
Theorem sys_modules_hit (self_guards : list Guard) (key : VariableTracker)
    (default : option VariableTracker) (name : string) (m : ModuleObj)
    (l1 l2 : list (string * ModuleObj)) :
  as_python_constant key = Ok (PyLit (LStr name)) ->
  sys_modules = l1 ++ (name, m) :: l2 -> name ∉ map fst l1 ->
  call_contains sys_modules self_guards key
    = Ok (ConstantVariable (LBool true),
          DICT_CONTAINS (PyLit (LStr name)) false :: self_guards) /\
  call_get sys_modules VariableBuilder self_guards key default
    = (r ← VariableBuilder (PyLit (LStr name)) m;
       Ok (r, DICT_CONTAINS (PyLit (LStr name)) false :: self_guards)) /\
  call_getitem sys_modules VariableBuilder self_guards key
    = call_get sys_modules VariableBuilder self_guards key default.
Proof.
  intros Hkey Hs Hn. destruct (sys_modules_found name m l1 l2 Hs Hn) as [Hc Hg].
  unfold call_contains, call_get, call_getitem, _contains_helper.
  rewrite Hkey. cbn [mbind res_bind]. rewrite Hc. cbn [mbind res_bind negb].
  rewrite Hg. by repeat split.
Qed.

End SysModules_facts.




(** ** Reconstruction of a dictionary *)

(** X25.  [ConstDictVariable.reconstruct] leaves the output it finds in
    place and extends it; the trackers it loads are the keys and the
    values of the container in iteration order, each key followed by
    its value; it returns BUILD_MAP with the number of entries.  For
    the host class OrderedDict the loads come after the load of
    [collections.OrderedDict], and the map is passed to it by a call
    with one argument; for another host class nothing but the entries
    is loaded and the map is the result. *)
Theorem reconstruct_loads_in_iteration_order (self : ConstDictVariable)
    (codegen : Codegen) (tx : Tx) (ks vs : list VariableTracker) :
  unpack_var_sequence self tx = Ok ks ->
  DictView_unpack_var_sequence kv_values self tx = Ok vs ->
  exists ret out,
    ConstDictVariable_reconstruct self codegen tx = Ok (ret, codegen ++ out) /\
    loaded_values out = concat (zip_with (fun k v => [k; v]) ks vs) /\
    (user_cls self = cls_OrderedDict ->
     ret = [BUILD_MAP (length ks); CALL_FUNCTION 1 false] /\
     exists loads, out = LOAD_PYTHON_MODULE "collections" :: LOAD_ATTR "OrderedDict" :: loads /\
                   Forall (fun i => exists x, i = LOAD_VALUE x) loads) /\
    (user_cls self <> cls_OrderedDict ->
     ret = [BUILD_MAP (length ks)] /\
     Forall (fun i => exists x, i = LOAD_VALUE x) out).
Proof.
  unfold unpack_var_sequence, DictView_unpack_var_sequence, ConstDictVariable_reconstruct.
  destruct (heap_read (items self) tx) as [d|e]; [|discriminate].
  cbn [mbind res_bind]. intros [= <-] [= <-].
  set (loads := flat_map (fun kv : Hashable * VariableTracker =>
                            [LOAD_VALUE (vt kv.1); LOAD_VALUE kv.2]) d).
  assert (loaded_values loads = concat (zip_with (fun k v => [k; v])
                                          (map (fun kv => vt kv.1) d) (map snd d))) as Hl.
  { unfold loads, loaded_values. clear. induction d as [|[k v] d IH]; simpl; [done|].
    by rewrite IH. }
  assert (Forall (fun i => exists x, i = LOAD_VALUE x) loads) as Hf.
  { unfold loads. clear. induction d as [|[k v] d IH]; simpl; [constructor|].
    repeat constructor; eauto. }
  rewrite length_map.
  destruct (bool_decide (user_cls self = cls_OrderedDict)) eqn:Ho.
  - apply bool_decide_eq_true in Ho.
    exists [BUILD_MAP (length d); CALL_FUNCTION 1 false],
           (LOAD_PYTHON_MODULE "collections" :: LOAD_ATTR "OrderedDict" :: loads).
    split; [by rewrite <- app_assoc|]. split; [exact Hl|]. split; [|done].
    intros _. split; [done|]. by exists loads.
  - apply bool_decide_eq_false in Ho.
    exists [BUILD_MAP (length d)], loads. by repeat split.
Qed.
(** ** The operator [in] and the method [__contains__] *)

(** X23.  [ConstDictVariable.__contains__], the operator [in] that the
    code of the interpreter uses, wraps a literal and then works as on
    the tracker; on a tracker the wrapper accepts it is the membership
    test that the method [__contains__] answers with; on a tracker the
    wrapper does not accept it raises AssertionError, where the method
    answers False. *)
Theorem contains_operator_and_method (self : ConstDictVariable) (tx : Tx) :
  (forall c,
     ConstDictVariable_contains self (obj_literal c) tx
     = ConstDictVariable_contains self (obj_tracker (ConstantVariable c)) tx) /\
  (forall x,
     is_hashable x = true ->
     ConstDictVariable_contains self (obj_tracker x) tx = key_in_items self x tx /\
     ConstDictVariable_call_method self "__contains__" [x] [] tx
     = (b ← ConstDictVariable_contains self (obj_tracker x) tx;
        Ok (ConstantVariable (LBool b), tx))) /\
  (forall x,
     is_hashable x = false ->
     ConstDictVariable_contains self (obj_tracker x) tx = Raise AssertionError /\
     ConstDictVariable_call_method self "__contains__" [x] [] tx
     = Ok (ConstantVariable (LBool false), tx)).
Proof.
  split; [reflexivity|]. split.
  - intros x Hh. split; [reflexivity|].
    by rewrite (contains_hashable_probe _ _ _ _ _ Hh).
  - intros x Hh. split.
    + unfold ConstDictVariable_contains. by rewrite (Hashable_init_unhashable _ Hh).
    + by apply contains_unhashable_probe.
Qed.

(** ** [pop] of a set *)


(** ** Equality and hash of wrapped keys *)

Lemma _eq_impl_sym (a b : PyVal) : _eq_impl a b = _eq_impl b a.
Proof.
  destruct (_eq_impl a b) as [r|e] eqn:E1, (_eq_impl b a) as [r'|e'] eqn:E2.
  - apply _eq_impl_sound in E1, E2. by rewrite E1, E2, eq_spec_sym.
  - apply _eq_impl_raises in E2 as (_ & x & la & y & lb & -> & -> & Hl).
    rewrite _eq_impl_tuple_raises in E1 by done. discriminate.
  - apply _eq_impl_raises in E1 as (_ & x & la & y & lb & -> & -> & Hl).
    rewrite _eq_impl_tuple_raises in E2 by done. discriminate.
  - apply _eq_impl_raises in E1 as (-> & _). by apply _eq_impl_raises in E2 as (-> & _).
Qed.

(** X20.  [__eq__] and [__hash__] of the key wrapper fit together, as
    a host dictionary needs: two keys that [__eq__] takes as equal have
    the same hash, and on wrapped keys [__eq__] is symmetric, in its
    answer and in the error it raises. *)
Theorem equal_keys_hash_alike (k1 k2 : Hashable) :
  (Hashable_eq k1 k2 = Ok true -> Hashable_hash k1 = Hashable_hash k2) /\
  (wrapped k1 -> wrapped k2 -> Hashable_eq k1 k2 = Hashable_eq k2 k1).
Proof.
  split.
  - unfold Hashable_eq, Hashable_hash. intros H.
    destruct (underlying_value k1) as [a|] eqn:Ea; [|discriminate].
    destruct (underlying_value k2) as [b|] eqn:Eb; [|discriminate].
    cbn [mbind res_bind] in *. apply _eq_impl_sound in H. symmetry in H.
    by rewrite (hash_respects_eq _ _ H).
  - intros Hw1 Hw2.
    destruct (underlying_value_wrapped _ Hw1) as [a Ha].
    destruct (underlying_value_wrapped _ Hw2) as [b Hb].
    unfold Hashable_eq. rewrite Ha, Hb. cbn [mbind res_bind]. apply _eq_impl_sym.
Qed.

End Containers.

(** ** The properties on concrete containers *)

Lemma sample_tx_heap_ok (mutable : bool) : heap_ok sample_hash (sample_tx mutable).
Proof.
  repeat constructor.
Defined.



(** C2.  Two wrappers of the tuple key [(1,)] project to the same
    value, which the specified equality takes as equal, yet [__eq__]
    raises NameError: the tuple case of [_eq_impl] calls the unbound
    name [_eq_impl]. *)
Theorem equal_tuple_keys_raise_NameError :
  (k1 ← Hashable_init tuple_key; k2 ← Hashable_init tuple_key; Hashable_eq k1 k2)
    = Raise (NameError "_eq_impl") /\
  Spec_key_equal tuple_key tuple_key = true.
Proof. split; vm_compute; reflexivity. Qed.

(** C4 as stated fails on a container without [mutable_local]: the key
    1 is absent from the empty dictionary, no default is given, and
    [pop] ends in the method of the base class, which raises
    Unsupported, not KeyError. *)
Lemma pop_without_mutable_local_counterexample :
  key_in_items sample_hash (sample_dict 0 false) key_1 empty_tx = Ok false /\
  ConstDictVariable_call_method sample_hash (sample_dict 0 false) "pop" [key_1] [] empty_tx
    = Raise Unsupported /\
  ConstDictVariable_call_method sample_hash (sample_dict 0 false) "pop" [key_1] [] empty_tx
    <> Raise KeyError.
Proof.
  split; [vm_compute; reflexivity|].
  split; [vm_compute; reflexivity | vm_compute; discriminate].
Qed.

Lemma pop_on_mutable_container_witness :
  ConstDictVariable_call_method sample_hash (sample_dict 0 true) "pop" [key_b; key_1] []
    (sample_tx true) = Ok (key_1, sample_tx true) /\
  ConstDictVariable_call_method sample_hash (sample_dict 0 true) "pop" [key_b] []
    (sample_tx true) = Raise KeyError /\
  exists d1,
    ConstDictVariable_call_method sample_hash (sample_dict 0 true) "pop" [key_a] []
      (sample_tx true)
    = Ok (key_1, (committed (sample_dict 0 true) d1
                    (stored_items (sample_dict 0 true) d1) (sample_tx true)).2) /\
    keys_of d1 = [].
Proof.
  destruct (pop_on_mutable_container sample_hash sample_hash_respects_eq
              (sample_dict 0 true) key_b (mkHashable key_b) [] (sample_tx true)
              [(mkHashable key_a, key_1)] false
              (sample_tx_heap_ok true) eq_refl eq_refl eq_refl) as (Hdefault & Hnone & _).
  destruct (pop_on_mutable_container sample_hash sample_hash_respects_eq
              (sample_dict 0 true) key_a (mkHashable key_a) [] (sample_tx true)
              [(mkHashable key_a, key_1)] true
              (sample_tx_heap_ok true) eq_refl eq_refl eq_refl) as (_ & _ & Hpresent).
  split; [exact (Hdefault eq_refl key_1)|]. split; [exact (Hnone eq_refl eq_refl)|].
  assert (class_ok (sample_dict 0 true)) as Hcls by (intros H; discriminate H).
  destruct (Hpresent eq_refl eq_refl Hcls [])
    as (v & d1 & Hget & Hpop & Hkeys & Hcall & _).
  injection Hget as <-. exists d1. split; [exact Hcall | exact Hkeys].
Defined.

(** C5.  On an empty [defaultdict(list)], the lookup of the absent
    tuple key [(1,)] calls the factory and binds its result; the second
    lookup of the same key, on the container the live reference then
    denotes, raises NameError instead of returning that value: the
    membership test compares the stored key with the probe through
    [_eq_impl]. *)
Theorem default_lookup_of_tuple_key_raises :
  exists tx1 self',
    DefaultDictVariable_call_method sample_hash sample_user_function
      sample_defaultdict "__getitem__" [tuple_key] [] defaultdict_tx
    = Ok (ListVariable [], tx1) /\
    symbolic_locals tx1 !! 0 = Some (DictVariable self') /\
    factory_calls tx1 = 1 /\
    DefaultDictVariable_call_method sample_hash sample_user_function
      self' "__getitem__" [tuple_key] [] tx1
    = Raise (NameError "_eq_impl").
Proof.
  eexists _, _.
  split; [vm_compute; reflexivity|]. split; [vm_compute; reflexivity|].
  split; vm_compute; reflexivity.
Qed.

(** C6.  [__contains__] on an object that is neither a literal nor a
    variable tracker evaluates the unbound name [x] and raises
    NameError instead of returning False; and the method
    [__contains__] on the stored tuple key [(1,)] raises NameError
    instead of returning a boolean. *)
Theorem contains_raises_NameError :
  (forall hash self descr tx,
     ConstDictVariable_contains hash self (obj_other descr) tx = Raise (NameError "x")) /\
  (forall hash,
     ConstDictVariable_call_method hash (sample_dict 0 true) "__contains__" [tuple_key] []
       tuple_tx
     = Raise (NameError "_eq_impl")).
Proof.
  split; [reflexivity|]. intros hash.
  unfold ConstDictVariable_call_method, key_in_items, key_matches, Hashable_hash.
  cbn. rewrite Z.eqb_refl. reflexivity.
Qed.



Lemma set_getitem_is_illegal_witness :
  SetVariable_call_method sample_hash sample_choice (sample_set true)
    "__getitem__" [key_1] [] set_tx
  = Raise (RuntimeError "Illegal to getitem on a set").
Proof.
  exact (proj2 (set_getitem_is_illegal sample_hash sample_choice)
           (sample_set true) key_1 [] [] set_tx eq_refl).
Defined.

Lemma record_tx_heap_ok :
  heap_ok sample_hash (mkTx [field_items sample_fields] [] [] 0).
Proof.
  repeat constructor.
Defined.


Lemma sample_tx_keys_hashable : keys_hashable (sample_tx true).
Proof.
  repeat constructor.
Defined.

Lemma stored_keys_are_hashable_witness :
  exists r tx',
    ConstDictVariable_call_method sample_hash (sample_dict 0 true)
      "__setitem__" [SymNodeVariable 1; key_a] [] (sample_tx true) = Ok (r, tx') /\
    keys_hashable tx' /\
    Hashable_init (ListVariable []) = Raise AssertionError.
Proof.
  destruct (ConstDictVariable_call_method sample_hash (sample_dict 0 true)
              "__setitem__" [SymNodeVariable 1; key_a] [] (sample_tx true))
    as [[r tx']|e] eqn:Hrun; [|vm_compute in Hrun; discriminate Hrun].
  exists r, tx'. split; [reflexivity|].
  destruct (stored_keys_are_hashable sample_hash sample_choice sample_user_function)
    as (_ & Hreject & _ & _ & _ & Hcall).
  split.
  - exact (Hcall (sample_dict 0 true) "__setitem__" [SymNodeVariable 1; key_a] []
             (sample_tx true) r tx' sample_tx_keys_hashable (or_introl Hrun)).
  - exact (Hreject (ListVariable []) eq_refl).
Defined.

(** ** The further properties on concrete containers *)

Lemma update_tx_heap_ok : heap_ok sample_hash update_tx.
Proof.
  repeat constructor.
Defined.

Lemma set_tx_heap_ok : heap_ok sample_hash set_tx.
Proof.
  repeat constructor.
Defined.

Lemma setitem_then_getitem_witness :
  exists new tx',
    ConstDictVariable_call_method sample_hash (sample_dict 0 true) "__setitem__"
      [key_b; key_1] [] (sample_tx true) = Ok (DictVariable new, tx') /\
    ConstDictVariable_call_method sample_hash new "__getitem__" [key_b] [] tx'
      = Ok (key_1, tx') /\
    ConstDictVariable_call_method sample_hash new "__contains__" [key_b] [] tx'
      = Ok (ConstantVariable (LBool true), tx').
Proof.
  apply (setitem_then_getitem sample_hash (sample_dict 0 true) key_b key_1
           (mkHashable key_b) (sample_tx true) [(mkHashable key_a, key_1)] false).
  - apply sample_tx_heap_ok.
  - reflexivity.
  - reflexivity.
  - vm_compute; reflexivity.
  - vm_compute; reflexivity.
  - reflexivity.
  - intros H; discriminate H.
  - discriminate.
Defined.

Lemma setitem_keeps_other_bindings_witness :
  exists r tx' new,
    ConstDictVariable_call_method sample_hash (sample_dict 0 true) "__setitem__"
      [key_b; key_a] [] (sample_tx true) = Ok (r, tx') /\
    r = DictVariable new /\
    getitem_const sample_hash (sample_dict 0 true) key_a (sample_tx true) = Ok key_1 /\
    getitem_const sample_hash new key_a tx'
      = getitem_const sample_hash (sample_dict 0 true) key_a (sample_tx true).
Proof.
  destruct (ConstDictVariable_call_method sample_hash (sample_dict 0 true) "__setitem__"
              [key_b; key_a] [] (sample_tx true)) as [[r tx']|e] eqn:Hcall;
    [|vm_compute in Hcall; discriminate Hcall].
  assert (key_matches sample_hash (mkHashable key_b) (mkHashable key_a) = Ok false) as Hne
    by (vm_compute; reflexivity).
  assert (klass (sample_dict 0 true) <> KSet) as Hset by discriminate.
  destruct (setitem_keeps_other_bindings sample_hash sample_hash_respects_eq
              (sample_dict 0 true) key_b key_a key_a (mkHashable key_b) (mkHashable key_a)
              [] (sample_tx true) r tx' (sample_tx_heap_ok true) Hset Hcall
              eq_refl eq_refl Hne) as (new & Hr & Hget & _).
  exists r, tx', new. split; [reflexivity|]. split; [exact Hr|].
  split; [vm_compute; reflexivity | exact Hget].
Defined.

Lemma pop_then_contains_is_false_witness :
  exists r tx' self',
    ConstDictVariable_call_method sample_hash (sample_dict 0 true) "pop" [key_a] []
      (sample_tx true) = Ok (r, tx') /\
    r = key_1 /\
    ConstDictVariable_call_method sample_hash self' "__contains__" [key_a] [] tx'
      = Ok (ConstantVariable (LBool false), tx').
Proof.
  destruct (ConstDictVariable_call_method sample_hash (sample_dict 0 true) "pop" [key_a] []
              (sample_tx true)) as [[r tx']|e] eqn:Hcall;
    [|vm_compute in Hcall; discriminate Hcall].
  destruct (pop_then_contains_is_false sample_hash sample_hash_respects_eq
              (sample_dict 0 true) key_a [] [] (sample_tx true) r tx'
              (sample_tx_heap_ok true) Hcall) as (self' & _ & Hc).
  exists r, tx', self'. split; [reflexivity|]. split; [|exact Hc].
  vm_compute in Hcall. by injection Hcall as <- _.
Defined.

Lemma setitem_changes_len_by_membership_witness :
  exists r tx' new,
    ConstDictVariable_call_method sample_hash (sample_dict 0 true) "__setitem__"
      [key_b; key_a] [] (sample_tx true) = Ok (r, tx') /\
    r = DictVariable new /\
    ConstDictVariable_call_method sample_hash new "__len__" [] [] tx'
      = Ok (ConstantVariable (LInt 2), tx').
Proof.
  destruct (ConstDictVariable_call_method sample_hash (sample_dict 0 true) "__setitem__"
              [key_b; key_a] [] (sample_tx true)) as [[r tx']|e] eqn:Hcall;
    [|vm_compute in Hcall; discriminate Hcall].
  assert (key_in_items sample_hash (sample_dict 0 true) key_b (sample_tx true) = Ok false)
    as Hin by (vm_compute; reflexivity).
  destruct (setitem_changes_len_by_membership sample_hash (sample_dict 0 true)
              key_b key_a [] (sample_tx true) r tx' 1%Z false
              (sample_tx_heap_ok true) Hcall eq_refl Hin) as (new & Hr & Hlen).
  exists r, tx', new. split; [reflexivity|]. split; [exact Hr | exact Hlen].
Defined.

Lemma get_answers_without_mutation_witness :
  ConstDictVariable_call_method sample_hash (sample_dict 0 true) "get" [key_b; key_a] []
    (sample_tx true) = Ok (key_a, sample_tx true) /\
  ConstDictVariable_call_method sample_hash (sample_dict 0 true) "get" [key_b] []
    (sample_tx true) = Raise Unsupported /\
  exists v,
    ConstDictVariable_call_method sample_hash (sample_dict 0 true) "get" [key_a] []
      (sample_tx true) = Ok (v, sample_tx true).
Proof.
  destruct (get_answers_without_mutation sample_hash (sample_dict 0 true))
    as (_ & Hpresent & Hdefault & Hnone).
  assert (dict_contains (key_matches sample_hash) (mkHashable key_b)
            [(mkHashable key_a, key_1)] = Ok false) as Hb by (vm_compute; reflexivity).
  assert (dict_contains (key_matches sample_hash) (mkHashable key_a)
            [(mkHashable key_a, key_1)] = Ok true) as Ha by (vm_compute; reflexivity).
  split; [exact (Hdefault key_b key_a [] (sample_tx true) _ _ eq_refl eq_refl Hb)|].
  split; [exact (Hnone key_b [] (sample_tx true) _ _ eq_refl eq_refl Hb)|].
  destruct (Hpresent key_a [] [] (sample_tx true) _ _ eq_refl eq_refl Ha) as (v & _ & Hv).
  exists v. exact Hv.
Defined.

Lemma getitem_errors_witness :
  ConstDictVariable_call_method sample_hash (sample_dict 0 true) "__getitem__" [key_b] []
    (sample_tx true) = Raise KeyError /\
  ConstDictVariable_call_method sample_hash (sample_dict 0 true) "__getitem__"
    [ListVariable []] [] (sample_tx true) = Raise AssertionError.
Proof.
  assert (klass (sample_dict 0 true) <> KSet) as Hset by discriminate.
  destruct (getitem_errors sample_hash (sample_dict 0 true) (sample_tx true) Hset)
    as (_ & Hunhashable & Hmissing & _).
  assert (dict_contains (key_matches sample_hash) (mkHashable key_b)
            [(mkHashable key_a, key_1)] = Ok false) as Hb by (vm_compute; reflexivity).
  split; [exact (Hmissing key_b [] [] _ _ eq_refl eq_refl Hb)|].
  exact (Hunhashable (ListVariable []) [] [] eq_refl).
Defined.

Lemma immutable_container_is_never_replaced_witness :
  exists r tx',
    ConstDictVariable_call_method sample_hash (sample_dict 0 false) "get" [key_a] []
      (sample_tx false) = Ok (r, tx') /\
    tx' = sample_tx false.
Proof.
  destruct (ConstDictVariable_call_method sample_hash (sample_dict 0 false) "get" [key_a] []
              (sample_tx false)) as [[r tx']|e] eqn:Hcall;
    [|vm_compute in Hcall; discriminate Hcall].
  exists r, tx'. split; [reflexivity|].
  exact (immutable_container_is_never_replaced sample_hash sample_choice
           (sample_dict 0 false) "get" [key_a] [] (sample_tx false) r tx'
           eq_refl (or_introl Hcall)).
Defined.

Lemma update_keeps_keys_in_front_witness :
  exists r tx' new ks',
    ConstDictVariable_call_method sample_hash (sample_dict 0 true) "update"
      [DictVariable (sample_dict 1 false)] [] update_tx = Ok (r, tx') /\
    r = DictVariable new /\
    unpack_var_sequence new tx' = Ok ks' /\
    [key_a; key_b] `prefix_of` ks'.
Proof.
  destruct (ConstDictVariable_call_method sample_hash (sample_dict 0 true) "update"
              [DictVariable (sample_dict 1 false)] [] update_tx) as [[r tx']|e] eqn:Hcall;
    [|vm_compute in Hcall; discriminate Hcall].
  destruct (update_keeps_keys_in_front sample_hash (sample_dict 0 true)
              [DictVariable (sample_dict 1 false)] [] update_tx r tx' [key_a; key_b]
              update_tx_heap_ok Hcall eq_refl) as (new & ks' & Hr & Hks & Hp).
  exists r, tx', new, ks'. split; [reflexivity|]. split; [exact Hr|].
  split; [exact Hks | exact Hp].
Defined.

Lemma update_lookup_witness :
  exists r tx' new,
    ConstDictVariable_call_method sample_hash (sample_dict 0 true) "update"
      [DictVariable (sample_dict 1 false)] [] update_tx = Ok (r, tx') /\
    r = DictVariable new /\
    getitem_const sample_hash new key_b tx' = Ok key_a /\
    getitem_const sample_hash new key_a tx' = Ok key_1.
Proof.
  destruct (ConstDictVariable_call_method sample_hash (sample_dict 0 true) "update"
              [DictVariable (sample_dict 1 false)] [] update_tx) as [[r tx']|e] eqn:Hcall;
    [|vm_compute in Hcall; discriminate Hcall].
  assert (klass (sample_dict 0 true) <> KSet) as Hset by discriminate.
  destruct (update_lookup sample_hash sample_hash_respects_eq (sample_dict 0 true)
              (sample_dict 1 false) [] [] update_tx r tx' update_tx_heap_ok Hset Hcall)
    as (new & Hr & Hwin & Hkeep).
  exists r, tx', new. split; [reflexivity|]. split; [exact Hr|]. split.
  - apply Hwin. vm_compute; reflexivity.
  - rewrite Hkeep by (vm_compute; reflexivity). vm_compute; reflexivity.
Defined.

Lemma items_pairs_keys_with_values_witness :
  ConstDictVariable_call_method sample_hash (sample_dict 0 true) "items" [] [] update_tx
  = Ok (TupleVariable [TupleVariable [key_a; key_1]; TupleVariable [key_b; key_1]],
        update_tx).
Proof.
  destruct (items_pairs_keys_with_values sample_hash (sample_dict 0 true) update_tx _ eq_refl)
    as (ks & vs & _ & _ & _ & _ & Hks & Hvs & _ & _ & Hitems & _).
  injection Hks as <-. injection Hvs as <-. exact Hitems.
Defined.

Lemma set_entries_bind_the_sentinel_witness :
  exists r tx',
    SetVariable_call_method sample_hash sample_choice (sample_set true) "__setitem__"
      [key_a; key_b] [] set_tx = Ok (r, tx') /\
    (tx' = set_tx \/
     exists new d,
       replaced tx' = (sample_set true, new) :: replaced set_tx /\ klass new = KSet /\
       heap tx' !! items new = Some d /\ sentinel_values d).
Proof.
  destruct (SetVariable_call_method sample_hash sample_choice (sample_set true)
              "__setitem__" [key_a; key_b] [] set_tx) as [[r tx']|e] eqn:Hcall;
    [|vm_compute in Hcall; discriminate Hcall].
  exists r, tx'. split; [reflexivity|].
  exact (set_entries_bind_the_sentinel sample_hash sample_choice (sample_set true)
           "__setitem__" [key_a; key_b] [] set_tx r tx' set_tx_heap_ok eq_refl Hcall).
Defined.

Lemma set_add_then_contains_witness :
  exists r tx' new,
    SetVariable_call_method sample_hash sample_choice (sample_set true) "add" [key_a] []
      set_tx = Ok (r, tx') /\
    r = DictVariable new /\
    SetVariable_call_method sample_hash sample_choice new "__contains__" [key_a] [] tx'
      = Ok (ConstantVariable (LBool true), tx') /\
    unpack_var_sequence new tx' = Ok [key_1; key_a].
Proof.
  destruct (SetVariable_call_method sample_hash sample_choice (sample_set true) "add"
              [key_a] [] set_tx) as [[r tx']|e] eqn:Hcall;
    [|vm_compute in Hcall; discriminate Hcall].
  assert (key_matches sample_hash (mkHashable key_a) (mkHashable key_a) = Ok true) as Hkk
    by (vm_compute; reflexivity).
  assert (key_in_items sample_hash (sample_set true) key_a set_tx = Ok false) as Hin
    by (vm_compute; reflexivity).
  destruct (set_add_then_contains sample_hash sample_choice (sample_set true) key_a
              (mkHashable key_a) set_tx r tx' false [key_1]
              set_tx_heap_ok Hcall eq_refl Hkk Hin eq_refl) as (new & Hr & Hc & Hks).
  exists r, tx', new. split; [reflexivity|]. split; [exact Hr|].
  split; [exact Hc | exact Hks].
Defined.

Lemma stored_keys_are_distinct_witness :
  exists r tx',
    ConstDictVariable_call_method sample_hash (sample_dict 0 true) "update"
      [DictVariable (sample_dict 1 false)] [] update_tx = Ok (r, tx') /\
    heap_ok sample_hash tx'.
Proof.
  destruct (ConstDictVariable_call_method sample_hash (sample_dict 0 true) "update"
              [DictVariable (sample_dict 1 false)] [] update_tx) as [[r tx']|e] eqn:Hcall;
    [|vm_compute in Hcall; discriminate Hcall].
  exists r, tx'. split; [reflexivity|].
  exact (proj2 (stored_keys_are_distinct sample_hash sample_choice sample_user_function)
           (sample_dict 0 true) "update" [DictVariable (sample_dict 1 false)] []
           update_tx r tx' update_tx_heap_ok (or_introl Hcall)).
Defined.

Lemma views_delegate_to_owner_witness :
  view_call_method sample_hash sample_choice sample_user_function sample_is_str
    sample_tuple_call_method sample_getattr_user_cls sample_inline
    kv_values (sample_dict 0 true) "__len__" [] [] update_tx
  = Ok (ConstantVariable (LInt 2), update_tx) /\
  DictKeys_call_method sample_hash sample_choice sample_user_function sample_is_str
    sample_tuple_call_method sample_getattr_user_cls sample_inline
    (sample_dict 0 true) "__contains__" [ListVariable []] [] update_tx
  = Ok (ConstantVariable (LBool false), update_tx).
Proof.
  assert (klass (sample_dict 0 true) <> KCustomizedDict) as Hk by discriminate.
  destruct (views_delegate_to_owner sample_hash sample_choice sample_user_function
              sample_is_str sample_tuple_call_method sample_getattr_user_cls sample_inline
              kv_values (sample_dict 0 true) update_tx _ Hk eq_refl)
    as (Hlen & Hcontains & _).
  split; [exact Hlen | exact (Hcontains (ListVariable []) [] [])].
Defined.

Lemma dataclass_setattr_then_getattr_witness :
  exists r tx' new,
    DataClassVariable_call_method sample_hash sample_is_str sample_tuple_call_method
      sample_record_mutable "__setattr__" [ConstantVariable (LStr "loss"); key_a] []
      record_tx = Ok (r, tx') /\
    r = DictVariable new /\
    DataClassVariable_var_getattr sample_hash sample_is_str sample_tuple_call_method
      sample_defaults sample_var_getattr new "loss" tx' = Ok (Some key_a, tx').
Proof.
  destruct (DataClassVariable_call_method sample_hash sample_is_str
              sample_tuple_call_method sample_record_mutable "__setattr__"
              [ConstantVariable (LStr "loss"); key_a] [] record_tx)
    as [[r tx']|e] eqn:Hcall; [|vm_compute in Hcall; discriminate Hcall].
  destruct (dataclass_setattr_then_getattr sample_hash sample_is_str
              sample_tuple_call_method sample_defaults sample_var_getattr
              sample_record_mutable "loss" key_a record_tx r tx'
              record_tx_heap_ok eq_refl eq_refl Hcall) as (new & Hr & Hget).
  exists r, tx', new. split; [reflexivity|]. split; [exact Hr | exact Hget].
Defined.

Lemma record_getattr_of_unstored_name_witness :
  DataClassVariable_var_getattr sample_hash sample_is_str sample_tuple_call_method
    sample_defaults sample_var_getattr sample_record "past" record_tx
  = Ok (Some (ConstantVariable (LInt 0)), record_tx) /\
  DataClassVariable_var_getattr sample_hash sample_is_str sample_tuple_call_method
    sample_defaults sample_var_getattr sample_record "device" record_tx
  = Ok (None, record_tx) /\
  sample_var_getattr sample_record "device" record_tx
  = Ok (BuiltinVariable "device", record_tx).
Proof.
  assert (NoDup (map fst [("loss", Some LNone); ("logits", Some LNone);
                          ("past", Some (LInt 0))])) as Hnd.
  { apply (bool_decide_unpack _). vm_compute. exact I. }
  assert (ConstDictVariable_contains sample_hash sample_record (obj_literal (LStr "past"))
            record_tx = Ok false) as Hpast by (vm_compute; reflexivity).
  assert (ConstDictVariable_contains sample_hash sample_record
            (obj_literal (LStr "device")) record_tx = Ok false) as Hdev
    by (vm_compute; reflexivity).
  destruct (record_getattr_of_unstored_name sample_hash sample_is_str
              sample_tuple_call_method sample_defaults sample_var_getattr
              sample_getattr_user_cls sample_inline sample_record "past" record_tx _
              Hpast eq_refl Hnd) as (Hdefault & _ & _).
  destruct (record_getattr_of_unstored_name sample_hash sample_is_str
              sample_tuple_call_method sample_defaults sample_var_getattr
              sample_getattr_user_cls sample_inline sample_record "device" record_tx _
              Hdev eq_refl Hnd) as (_ & Hnone & _).
  split; [exact (Hdefault [("loss", Some LNone); ("logits", Some LNone)]
                   (Some (LInt 0)) [] eq_refl)|].
  split; [|reflexivity].
  apply Hnone. cbn [map fst]. rewrite !not_elem_of_cons. repeat split; try discriminate.
  apply not_elem_of_nil.
Defined.

Lemma sys_modules_miss_witness :
  call_get sample_modules sample_builder [] (ConstantVariable (LStr "numpy")) None
    = Ok (ConstantVariable LNone, [DICT_CONTAINS (PyLit (LStr "numpy")) true]) /\
  call_getitem sample_modules sample_builder [] (ConstantVariable (LStr "numpy"))
    = Raise KeyError.
Proof.
  assert (forall name, name ∈ map fst sample_modules ->
                       PyLit (LStr "numpy") <> PyLit (LStr name)) as Hk.
  { intros name Hin. simpl in Hin. rewrite !elem_of_cons, elem_of_nil in Hin.
    destruct Hin as [-> | [-> | []]]; discriminate. }
  destruct (sys_modules_miss sample_modules sample_builder []
              (ConstantVariable (LStr "numpy")) None _ eq_refl Hk) as (_ & Hget & Hitem).
  split; [exact Hget | exact Hitem].
Defined.

Lemma sys_modules_hit_witness :
  call_contains sample_modules [] (ConstantVariable (LStr "sys"))
    = Ok (ConstantVariable (LBool true), [DICT_CONTAINS (PyLit (LStr "sys")) false]) /\
  call_getitem sample_modules sample_builder [] (ConstantVariable (LStr "sys"))
    = call_get sample_modules sample_builder [] (ConstantVariable (LStr "sys"))
        (Some key_1).
Proof.
  assert ("sys" ∉ map fst [("os", module_obj 1)]) as Hn.
  { simpl. rewrite not_elem_of_cons. split; [discriminate | apply not_elem_of_nil]. }
  destruct (sys_modules_hit sample_modules sample_builder []
              (ConstantVariable (LStr "sys")) (Some key_1) "sys" (module_obj 2)
              [("os", module_obj 1)] [] eq_refl eq_refl Hn) as (Hc & _ & Heq).
  split; [exact Hc | exact Heq].
Defined.



Lemma equal_keys_hash_alike_witness :
  Hashable_hash sample_hash (mkHashable key_1)
    = Hashable_hash sample_hash (mkHashable (ConstantVariable (LInt 1))) /\
  Hashable_eq (mkHashable key_a) (mkHashable key_b)
    = Hashable_eq (mkHashable key_b) (mkHashable key_a).
Proof.
  destruct (equal_keys_hash_alike sample_hash sample_hash_respects_eq
              (mkHashable key_1) (mkHashable (ConstantVariable (LInt 1)))) as [Hh _].
  destruct (equal_keys_hash_alike sample_hash sample_hash_respects_eq
              (mkHashable key_a) (mkHashable key_b)) as [_ Hs].
  split; [exact (Hh eq_refl) | exact (Hs (conj eq_refl eq_refl) (conj eq_refl eq_refl))].
Defined.

Lemma Hashable_eq_agrees_witness :
  Hashable_eq (mkHashable key_a) (mkHashable key_b) = Ok false.
Proof.
  exact (proj2 (Hashable_eq_agrees (mkHashable key_a) (mkHashable key_b)
                  (conj eq_refl eq_refl) (conj eq_refl eq_refl)) I).
Defined.

Lemma dataclass_to_tuple_lists_values_witness :
  DataClassVariable_call_method sample_hash sample_is_str sample_tuple_call_method
    sample_record "to_tuple" [] [] record_tx
  = Ok (TupleVariable [key_1; TensorVariable (Some (mkFake 7 [2%Z; 3%Z] "float32"))],
        record_tx).
Proof.
  destruct (dataclass_to_tuple_lists_values sample_hash sample_is_str
              sample_tuple_call_method sample_record record_tx _ eq_refl)
    as (vs & Hvs & _ & Htuple & _).
  injection Hvs as <-. exact Htuple.
Defined.

Lemma contains_operator_and_method_witness :
  ConstDictVariable_contains sample_hash (sample_dict 0 true) (obj_literal (LStr "a"))
    (sample_tx true) = Ok true /\
  ConstDictVariable_contains sample_hash (sample_dict 0 true) (obj_tracker (ListVariable []))
    (sample_tx true) = Raise AssertionError /\
  ConstDictVariable_call_method sample_hash (sample_dict 0 true) "__contains__"
    [ListVariable []] [] (sample_tx true)
  = Ok (ConstantVariable (LBool false), sample_tx true).
Proof.
  destruct (contains_operator_and_method sample_hash (sample_dict 0 true) (sample_tx true))
    as (Hlit & Hhashable & Hunhashable).
  destruct (Hhashable key_a eq_refl) as [Hop _].
  destruct (Hunhashable (ListVariable []) eq_refl) as [Hraise Hfalse].
  split; [|split; [exact Hraise | exact Hfalse]].
  rewrite (Hlit (LStr "a")). fold key_a. rewrite Hop. vm_compute; reflexivity.
Defined.



Lemma reconstruct_loads_in_iteration_order_witness :
  ConstDictVariable_reconstruct (sample_dict 0 true) [] update_tx
  = Ok ([BUILD_MAP 2],
        [LOAD_VALUE key_a; LOAD_VALUE key_1; LOAD_VALUE key_b; LOAD_VALUE key_1]) /\
  exists ret out,
    ConstDictVariable_reconstruct (sample_dict 0 true) [] update_tx = Ok (ret, [] ++ out) /\
    loaded_values out = [key_a; key_1; key_b; key_1].
Proof.
  split; [vm_compute; reflexivity|].
  destruct (reconstruct_loads_in_iteration_order (sample_dict 0 true) [] update_tx
              [key_a; key_b] [key_1; key_1] eq_refl eq_refl)
    as (ret & out & Hcall & Hloads & _).
  exists ret, out. split; [exact Hcall | exact Hloads].
Defined.
